(** * Configuration resolver and command-line scrubber of the process agent

    A shallow embedding of [config/data_scrubber.go], of [config/config.go]
    and of the file that holds [YamlAgentConfig] and [mergeYamlConfig], with
    the properties of the specification stated and proved, or refuted,
    against it.

    Go strings are byte strings: they are modelled by [string], one [ascii]
    per byte.  [int] and [time.Duration] are 64-bit signed integers, modelled
    by [Z] with the wrap-around written out where the code multiplies. *)

From Stdlib Require Import ZArith NArith Ascii String List Bool Lia.
From Stdlib Require Import DecimalString.
From stdpp Require Import base option list gmap strings.

Import ListNotations.
Local Open Scope string_scope.
Local Open Scope list_scope.

(** ** Bytes and strings (package [strings]) *)

Module Str.

Definition code (c : ascii) : N := N_of_ascii c.

Definition byte_eqb (a b : ascii) : bool := Ascii.eqb a b.

Definition bytes (s : string) : list ascii := list_ascii_of_string s.

Definition of_bytes (l : list ascii) : string := string_of_list_ascii l.

(** [strings.Join(elems, sep)]. *)
Fixpoint Join (elems : list string) (sep : string) : string :=
  match elems with
  | [] => ""
  | [e] => e
  | e :: rest => e +:+ sep +:+ Join rest sep
  end.

(** [strings.Split(s, sep)] for a one-byte separator, the only kind this
    program uses ([" "] and [","]).  The result always has one more piece
    than there are separators in [s]; in particular [Split "" sep = [""]]. *)
Fixpoint split_from (cur : list ascii) (s : string) (sep : ascii) : list string :=
  match s with
  | EmptyString => [of_bytes (rev cur)]
  | String c rest =>
      if byte_eqb c sep then of_bytes (rev cur) :: split_from [] rest sep
      else split_from (c :: cur) rest sep
  end.

Definition Split (s : string) (sep : ascii) : list string := split_from [] s sep.

(** [strings.HasPrefix]. *)
Fixpoint HasPrefix (s p : string) : bool :=
  match p, s with
  | EmptyString, _ => true
  | String a p', String b s' => byte_eqb a b && HasPrefix s' p'
  | String _ _, EmptyString => false
  end.

(** [strings.Index(s, substr)]: the byte offset of the first occurrence,
    [None] standing for Go's [-1]. *)
Fixpoint Index (s substr : string) : option nat :=
  if HasPrefix s substr then Some 0%nat
  else match s with
       | EmptyString => None
       | String _ rest => S <$> Index rest substr
       end.

(** The slices [s[0:i]] and [s[i:]]. *)
Fixpoint take (i : nat) (s : string) : string :=
  match i, s with
  | S j, String c rest => String c (take j rest)
  | _, _ => EmptyString
  end.

Fixpoint drop (i : nat) (s : string) : string :=
  match i, s with
  | S j, String _ rest => drop j rest
  | _, _ => s
  end.

Definition is_empty (s : string) : bool :=
  match s with EmptyString => true | _ => false end.

End Str.

(** ** UTF-8 decoding (package [unicode/utf8])

    The regular-expression engine reads its input one rune at a time. *)

Module Utf8.

Definition rune := N.

Definition RuneError : rune := 65533%N.

(** A decoded rune together with the bytes it was read from. *)
Record token := Token { tok_rune : rune; tok_src : string }.

Definition cont (c : ascii) (lo hi : N) : option N :=
  let n := Str.code c in
  if ((lo <=? n) && (n <=? hi))%N then Some (N.land n 63) else None.

(** The second byte of a sequence is accepted in a range that depends on
    the first one ([acceptRanges]). *)
Definition accept (b0 : N) : N * N :=
  if (b0 =? 224)%N then (160, 191)%N
  else if (b0 =? 237)%N then (128, 159)%N
  else if (b0 =? 240)%N then (144, 191)%N
  else if (b0 =? 244)%N then (128, 143)%N
  else (128, 191)%N.

(** [utf8.DecodeRuneInString] on a non-empty string: the rune and its width
    in bytes.  An invalid or truncated encoding yields [(RuneError, 1)]. *)
Definition DecodeRune (c0 : ascii) (rest : string) : rune * nat :=
  let b0 := Str.code c0 in
  let bad := (RuneError, 1%nat) in
  if (b0 <? 128)%N then (b0, 1%nat)
  else if ((b0 <? 194) || (244 <? b0))%N then bad
  else
    let '(lo, hi) := accept b0 in
    match rest with
    | EmptyString => bad
    | String c1 r1 =>
        match cont c1 lo hi with
        | None => bad
        | Some x1 =>
            if (b0 <? 224)%N then ((N.land b0 31) * 64 + x1, 2%nat)%N
            else
              match r1 with
              | EmptyString => bad
              | String c2 r2 =>
                  match cont c2 128 191 with
                  | None => bad
                  | Some x2 =>
                      if (b0 <? 240)%N
                      then (((N.land b0 15) * 64 + x1) * 64 + x2, 3%nat)%N
                      else
                        match r2 with
                        | EmptyString => bad
                        | String c3 _ =>
                            match cont c3 128 191 with
                            | None => bad
                            | Some x3 =>
                                ((((N.land b0 7) * 64 + x1) * 64 + x2) * 64 + x3,
                                 4%nat)%N
                            end
                        end
                  end
              end
        end
    end.

(** The whole string as the sequence of runes a [range] loop or the regexp
    engine sees; [skip] counts the continuation bytes still to pass over. *)
Fixpoint tokens_from (skip : nat) (s : string) : list token :=
  match s with
  | EmptyString => []
  | String c rest =>
      match skip with
      | S n => tokens_from n rest
      | O =>
          let '(r, w) := DecodeRune c rest in
          Token r (Str.take w s) :: tokens_from (w - 1) rest
      end
  end.

Definition tokens (s : string) : list token := tokens_from 0 s.

Definition source (ts : list token) : string :=
  fold_right (fun t acc => tok_src t +:+ acc) "" ts.

Definition byte_of (n : N) : ascii := ascii_of_N n.

(** [utf8.EncodeRune]: a surrogate or a value above [MaxRune] is written as
    [RuneError]. *)
Definition EncodeRune (r : rune) : string :=
  let r := if ((55296 <=? r) && (r <=? 57343) || (1114111 <? r))%N then RuneError else r in
  if (r <? 128)%N then String (byte_of r) ""
  else if (r <? 2048)%N then
    String (byte_of (192 + r / 64)) (String (byte_of (128 + r mod 64)) "")
  else if (r <? 65536)%N then
    String (byte_of (224 + r / 4096))
           (String (byte_of (128 + (r / 64) mod 64))
                   (String (byte_of (128 + r mod 64)) ""))
  else
    String (byte_of (240 + r / 262144))
           (String (byte_of (128 + (r / 4096) mod 64))
                   (String (byte_of (128 + (r / 64) mod 64))
                           (String (byte_of (128 + r mod 64)) ""))).

End Utf8.

(** ** Properties of runes (package [unicode]) *)

Module Unicode.

Import Utf8.

(** [unicode.IsSpace]: the Latin-1 spaces and the property [White_Space]. *)
Definition IsSpace (r : rune) : bool :=
  ((r =? 9) || (r =? 10) || (r =? 11) || (r =? 12) || (r =? 13) || (r =? 32)
   || (r =? 133) || (r =? 160)
   || (r =? 5760) || ((8192 <=? r) && (r <=? 8202)) || (r =? 8232) || (r =? 8233)
   || (r =? 8239) || (r =? 8287) || (r =? 12288))%N.

(** The lower-case column of [unicode.CaseRanges] above ASCII, the simple
    lower-case mapping of the Unicode character database (version 14), as
    ranges [(lo, hi, stride, lower)]: the runes [lo], [lo + stride], ... up
    to [hi] map to [lower], [lower + stride], ...  A Go release built on
    another Unicode version differs only in the letters added in between. *)
Definition lowerRanges : list (N * N * N * N) :=
  [ (192, 214, 1, 224); (216, 222, 1, 248); (256, 302, 2, 257); (304, 304, 1, 105);
    (306, 310, 2, 307); (313, 327, 2, 314); (330, 374, 2, 331); (376, 376, 1, 255);
    (377, 381, 2, 378); (385, 385, 1, 595); (386, 388, 2, 387); (390, 390, 1, 596);
    (391, 391, 1, 392); (393, 394, 1, 598); (395, 395, 1, 396); (398, 398, 1, 477);
    (399, 399, 1, 601); (400, 400, 1, 603); (401, 401, 1, 402); (403, 403, 1, 608);
    (404, 404, 1, 611); (406, 406, 1, 617); (407, 407, 1, 616); (408, 408, 1, 409);
    (412, 412, 1, 623); (413, 413, 1, 626); (415, 415, 1, 629); (416, 420, 2, 417);
    (422, 422, 1, 640); (423, 423, 1, 424); (425, 425, 1, 643); (428, 428, 1, 429);
    (430, 430, 1, 648); (431, 431, 1, 432); (433, 434, 1, 650); (435, 437, 2, 436);
    (439, 439, 1, 658); (440, 440, 1, 441); (444, 444, 1, 445); (452, 452, 1, 454);
    (453, 453, 1, 454); (455, 455, 1, 457); (456, 456, 1, 457); (458, 458, 1, 460);
    (459, 475, 2, 460); (478, 494, 2, 479); (497, 497, 1, 499); (498, 500, 2, 499);
    (502, 502, 1, 405); (503, 503, 1, 447); (504, 542, 2, 505); (544, 544, 1, 414);
    (546, 562, 2, 547); (570, 570, 1, 11365); (571, 571, 1, 572); (573, 573, 1, 410);
    (574, 574, 1, 11366); (577, 577, 1, 578); (579, 579, 1, 384); (580, 580, 1, 649);
    (581, 581, 1, 652); (582, 590, 2, 583); (880, 882, 2, 881); (886, 886, 1, 887);
    (895, 895, 1, 1011); (902, 902, 1, 940); (904, 906, 1, 941); (908, 908, 1, 972);
    (910, 911, 1, 973); (913, 929, 1, 945); (931, 939, 1, 963); (975, 975, 1, 983);
    (984, 1006, 2, 985); (1012, 1012, 1, 952); (1015, 1015, 1, 1016);
    (1017, 1017, 1, 1010); (1018, 1018, 1, 1019); (1021, 1023, 1, 891);
    (1024, 1039, 1, 1104); (1040, 1071, 1, 1072); (1120, 1152, 2, 1121);
    (1162, 1214, 2, 1163); (1216, 1216, 1, 1231); (1217, 1229, 2, 1218);
    (1232, 1326, 2, 1233); (1329, 1366, 1, 1377); (4256, 4293, 1, 11520);
    (4295, 4295, 1, 11559); (4301, 4301, 1, 11565); (5024, 5103, 1, 43888);
    (5104, 5109, 1, 5112); (7312, 7354, 1, 4304); (7357, 7359, 1, 4349);
    (7680, 7828, 2, 7681); (7838, 7838, 1, 223); (7840, 7934, 2, 7841);
    (7944, 7951, 1, 7936); (7960, 7965, 1, 7952); (7976, 7983, 1, 7968);
    (7992, 7999, 1, 7984); (8008, 8013, 1, 8000); (8025, 8031, 2, 8017);
    (8040, 8047, 1, 8032); (8072, 8079, 1, 8064); (8088, 8095, 1, 8080);
    (8104, 8111, 1, 8096); (8120, 8121, 1, 8112); (8122, 8123, 1, 8048);
    (8124, 8124, 1, 8115); (8136, 8139, 1, 8050); (8140, 8140, 1, 8131);
    (8152, 8153, 1, 8144); (8154, 8155, 1, 8054); (8168, 8169, 1, 8160);
    (8170, 8171, 1, 8058); (8172, 8172, 1, 8165); (8184, 8185, 1, 8056);
    (8186, 8187, 1, 8060); (8188, 8188, 1, 8179); (8486, 8486, 1, 969);
    (8490, 8490, 1, 107); (8491, 8491, 1, 229); (8498, 8498, 1, 8526);
    (8544, 8559, 1, 8560); (8579, 8579, 1, 8580); (9398, 9423, 1, 9424);
    (11264, 11311, 1, 11312); (11360, 11360, 1, 11361); (11362, 11362, 1, 619);
    (11363, 11363, 1, 7549); (11364, 11364, 1, 637); (11367, 11371, 2, 11368);
    (11373, 11373, 1, 593); (11374, 11374, 1, 625); (11375, 11375, 1, 592);
    (11376, 11376, 1, 594); (11378, 11378, 1, 11379); (11381, 11381, 1, 11382);
    (11390, 11391, 1, 575); (11392, 11490, 2, 11393); (11499, 11501, 2, 11500);
    (11506, 11506, 1, 11507); (42560, 42604, 2, 42561); (42624, 42650, 2, 42625);
    (42786, 42798, 2, 42787); (42802, 42862, 2, 42803); (42873, 42875, 2, 42874);
    (42877, 42877, 1, 7545); (42878, 42886, 2, 42879); (42891, 42891, 1, 42892);
    (42893, 42893, 1, 613); (42896, 42898, 2, 42897); (42902, 42920, 2, 42903);
    (42922, 42922, 1, 614); (42923, 42923, 1, 604); (42924, 42924, 1, 609);
    (42925, 42925, 1, 620); (42926, 42926, 1, 618); (42928, 42928, 1, 670);
    (42929, 42929, 1, 647); (42930, 42930, 1, 669); (42931, 42931, 1, 43859);
    (42932, 42946, 2, 42933); (42948, 42948, 1, 42900); (42949, 42949, 1, 642);
    (42950, 42950, 1, 7566); (42951, 42953, 2, 42952); (42960, 42960, 1, 42961);
    (42966, 42968, 2, 42967); (42997, 42997, 1, 42998); (65313, 65338, 1, 65345);
    (66560, 66599, 1, 66600); (66736, 66771, 1, 66776); (66928, 66938, 1, 66967);
    (66940, 66954, 1, 66979); (66956, 66962, 1, 66995); (66964, 66965, 1, 67003);
    (68736, 68786, 1, 68800); (71840, 71871, 1, 71872); (93760, 93791, 1, 93792);
    (125184, 125217, 1, 125218) ]%N.

Definition in_range (r : rune) (e : N * N * N * N) : bool :=
  let '(lo, hi, stride, _) := e in
  ((lo <=? r) && (r <=? hi) && ((r - lo) mod stride =? 0))%N.

(** [unicode.ToLower] *)
Definition ToLower (r : rune) : rune :=
  if (r <? 128)%N then
    if ((65 <=? r) && (r <=? 90))%N then (r + 32)%N else r
  else
    match List.find (in_range r) lowerRanges with
    | Some (lo, _, _, lower) => (lower + (r - lo))%N
    | None => r
    end.

End Unicode.

(** ** The functions of package [strings] that read runes *)

Module Strings.

Import Utf8.

(** [strings.Map] for a mapping that drops no rune: every rune of [s], an
    invalid byte read as [RuneError], is written back as the encoding of
    its image. *)
Definition Map (mapping : rune -> rune) (s : string) : string :=
  fold_right (fun t acc => EncodeRune (mapping (tok_rune t)) +:+ acc) "" (tokens s).

Definition lower_byte (c : ascii) : ascii :=
  let n := Str.code c in
  if ((65 <=? n) && (n <=? 90))%N then ascii_of_N (n + 32) else c.

Fixpoint lower_bytes (s : string) : string :=
  match s with
  | EmptyString => EmptyString
  | String c rest => String (lower_byte c) (lower_bytes rest)
  end.

Definition isASCII (s : string) : bool :=
  forallb (fun c => (Str.code c <? 128)%N) (Str.bytes s).

(** [strings.ToLower]: byte by byte on an ASCII string, and
    [Map(unicode.ToLower, s)] otherwise. *)
Definition ToLower (s : string) : string :=
  if isASCII s then lower_bytes s else Map Unicode.ToLower s.

Fixpoint drop_while (f : rune -> bool) (ts : list token) : list token :=
  match ts with
  | t :: rest => if f (tok_rune t) then drop_while f rest else ts
  | [] => []
  end.

(** [strings.TrimLeftFunc], [strings.TrimRightFunc] and [strings.TrimFunc]:
    the runes are those a [range] loop reads from the front;
    [utf8.DecodeLastRuneInString] reads the same ones from the back. *)
Definition TrimLeftFunc (f : rune -> bool) (s : string) : string :=
  source (drop_while f (tokens s)).

Definition TrimRightFunc (f : rune -> bool) (s : string) : string :=
  source (rev (drop_while f (rev (tokens s)))).

Definition TrimFunc (f : rune -> bool) (s : string) : string :=
  TrimRightFunc f (TrimLeftFunc f s).

(** [strings.TrimSpace] *)
Definition TrimSpace (s : string) : string := TrimFunc Unicode.IsSpace s.

End Strings.

(** ** Regular expressions (package [regexp])

    [compileStringsToRegex] only ever produces patterns made of literals,
    character classes, greedy repetitions of a single literal or class,
    concatenation, alternation and capturing groups.  The compiled form of
    such a pattern is the syntax tree below; matching is leftmost-first, as
    in [regexp.Compile] (the match a backtracking search finds first). *)

Module Regexp.

Import Utf8.

Inductive class_item :=
| CRune (c : rune)          (* a single rune *)
| CSpace.                   (* the Perl class \s = [\t\n\f\r ] *)

Inductive atom :=
| ALit (fold : bool) (c : rune)
| AClass (fold negated : bool) (items : list class_item).

Inductive regex :=
| Empty
| Atom (a : atom)
| Repeat (a : atom) (min : nat) (max : option nat)   (* greedy a{min,max} *)
| Cat (r1 r2 : regex)
| Alt (r1 r2 : regex)
| Capture (name : string) (r : regex).

Definition is_upper (r : rune) : bool := ((65 <=? r) && (r <=? 90))%N.
Definition is_lower (r : rune) : bool := ((97 <=? r) && (r <=? 122))%N.

(** Case folding of an ASCII pattern rune [c] under the flag [(?i)]: the
    runes of its [unicode.SimpleFold] orbit.  Besides the other case of a
    letter, the orbit of [k] holds the Kelvin sign U+212A and the orbit of
    [s] the long s U+017F. *)
Definition fold_eq (c r : rune) : bool :=
  (c =? r)%N
  || (is_upper c && (r =? c + 32)%N)
  || (is_lower c && (r =? c - 32)%N)
  || (((c =? 75) || (c =? 107))%N && (r =? 8490)%N)
  || (((c =? 83) || (c =? 115))%N && (r =? 383)%N).

Definition rune_eq (fold : bool) (c r : rune) : bool :=
  if fold then fold_eq c r else (c =? r)%N.

Definition perl_space (r : rune) : bool :=
  ((r =? 9) || (r =? 10) || (r =? 12) || (r =? 13) || (r =? 32))%N.

Definition item_matches (fold : bool) (i : class_item) (r : rune) : bool :=
  match i with
  | CRune c => rune_eq fold c r
  | CSpace => perl_space r
  end.

Definition atom_matches (a : atom) (r : rune) : bool :=
  match a with
  | ALit fold c => rune_eq fold c r
  | AClass fold negated items =>
      xorb negated (existsb (fun i => item_matches fold i r) items)
  end.

(** Captured groups, by name, as the text they matched. *)
Definition captures := list (string * string).

Fixpoint group (name : string) (caps : captures) : string :=
  match caps with
  | [] => ""
  | (n, v) :: rest => if String.eqb n name then v else group name rest
  end.

Definition result := (captures * list token)%type.

Definition orelse {A} (x : option A) (y : option A) : option A :=
  match x with Some _ => x | None => y end.

(** Greedy repetition: one more iteration is tried before stopping. *)
Fixpoint repeat_atom (a : atom) (min : nat) (max : option nat)
         (s : list token) (k : list token -> option result) : option result :=
  let stop := match min with O => k s | S _ => None end in
  match max with
  | Some O => stop
  | _ =>
      match s with
      | t :: s' =>
          if atom_matches a (tok_rune t)
          then orelse (repeat_atom a (Nat.pred min) (Nat.pred <$> max) s' k) stop
          else stop
      | [] => stop
      end
  end.

(** [run r s caps k]: match [r] at the head of [s], then continue with [k]
    on what is left; alternatives are explored in priority order. *)
Fixpoint run (r : regex) (s : list token) (caps : captures)
         (k : list token -> captures -> option result) : option result :=
  match r with
  | Empty => k s caps
  | Atom a =>
      match s with
      | t :: s' => if atom_matches a (tok_rune t) then k s' caps else None
      | [] => None
      end
  | Repeat a min max => repeat_atom a min max s (fun s' => k s' caps)
  | Cat r1 r2 => run r1 s caps (fun s1 c1 => run r2 s1 c1 k)
  | Alt r1 r2 => orelse (run r1 s caps k) (run r2 s caps k)
  | Capture name r1 =>
      run r1 s caps
          (fun s' c' =>
             k s' ((name, source (take (length s - length s') s)) :: c'))
  end.

(** A match anchored at the head of [s]: the groups and the rest. *)
Definition match_here (r : regex) (s : list token) : option result :=
  run r s [] (fun s' c => Some (c, s')).

(** The leftmost match in [s]: the number of runes before it, the groups
    and the runes after it. *)
Fixpoint search (r : regex) (s : list token) : option (nat * result) :=
  match match_here r s with
  | Some res => Some (0%nat, res)
  | None =>
      match s with
      | [] => None
      | _ :: s' =>
          match search r s' with
          | Some (i, res) => Some (S i, res)
          | None => None
          end
      end
  end.

(** [re.doExecute] from rune position [pos]: the bounds [a0, a1) of the
    leftmost match starting at or after [pos], and its groups. *)
Definition doExecute (r : regex) (src : list token) (pos : nat)
  : option (nat * nat * captures) :=
  match search r (drop pos src) with
  | Some (i, (caps, rest)) =>
      Some ((pos + i)%nat, (length src - length rest)%nat, caps)
  | None => None
  end.

(** [re.MatchString(s)]. *)
Definition MatchString (r : regex) (s : string) : bool :=
  match doExecute r (tokens s) 0 with Some _ => true | None => false end.

(** A replacement template after [Expand] has parsed it. *)
Inductive piece :=
| PGroup (name : string)     (* ${name} *)
| PText (text : string).

Definition expand (template : list piece) (caps : captures) : string :=
  fold_right
    (fun p acc =>
       match p with
       | PGroup n => group n caps +:+ acc
       | PText t => t +:+ acc
       end) "" template.

Definition slice (src : list token) (lo hi : nat) : string :=
  source (take (hi - lo) (drop lo src)).

(** The loop of [re.replaceAll].  [searchPos] grows by at least one rune in
    every round and the loop ends once it passes the end of the input, so
    [fuel] = [length src + 1] rounds are always enough. *)
Fixpoint replace_loop (fuel : nat) (r : regex) (template : list piece)
         (src : list token) (lastMatchEnd searchPos : nat) (buf : string)
  : string :=
  let finish := buf +:+ slice src lastMatchEnd (length src) in
  match fuel with
  | O => finish
  | S fuel' =>
      if (length src <? searchPos)%nat then finish
      else
        match doExecute r src searchPos with
        | None => finish
        | Some (a0, a1, caps) =>
            let buf1 := buf +:+ slice src lastMatchEnd a0 in
            let buf2 :=
              if (lastMatchEnd <? a1)%nat || (a0 =? 0)%nat
              then buf1 +:+ expand template caps else buf1 in
            let width := if (searchPos <? length src)%nat then 1%nat else 0%nat in
            let searchPos' :=
              if (a1 <? searchPos + width)%nat then (searchPos + width)%nat
              else if (a1 <? searchPos + 1)%nat then (searchPos + 1)%nat
              else a1 in
            replace_loop fuel' r template src a1 searchPos' buf2
        end
  end.

(** [re.ReplaceAllString(src, template)]. *)
Definition ReplaceAllString (r : regex) (s : string) (template : list piece)
  : string :=
  let src := tokens s in
  replace_loop (S (length src)) r template src 0 0 "".

End Regexp.

(** ** Diagnostics (package [seelog])

    The functions below log as they go.  A computation that logs returns its
    value together with the entries it wrote, in order; an entry records the
    level and the message (the format string for the [...f] variants). *)

Inductive level := Info | Warn | Error.

Record entry := Entry { entry_level : level; entry_msg : string }.

Definition Log (A : Type) : Type := A * list entry.

Definition ret {A} (a : A) : Log A := (a, []).

Definition bind {A B} (m : Log A) (f : A -> Log B) : Log B :=
  let '(a, l1) := m in
  let '(b, l2) := f a in
  (b, l1 ++ l2).

Definition log (lvl : level) (msg : string) : Log unit := (tt, [Entry lvl msg]).

Definition value {A} (m : Log A) : A := fst m.
Definition written {A} (m : Log A) : list entry := snd m.

Declare Scope log_scope.
Delimit Scope log_scope with log.
Notation "'let*' x := m 'in' k" := (bind m (fun x => k))
  (at level 10, x pattern, m at level 100, k at level 200,
   format "'[v' 'let*'  x  :=  m  'in' '/' k ']'") : log_scope.
Notation "m ;; k" := (bind m (fun _ => k))
  (at level 100, k at level 200, right associativity) : log_scope.
Local Open Scope log_scope.

(** [when b m]: [if b { m }]. *)
Definition when (b : bool) (m : Log unit) : Log unit := if b then m else ret tt.

(** ** The data scrubber ([config/data_scrubber.go]) *)

Definition defaultSensitiveWords : list string :=
  ["password"; "passwd"; "mysql_pwd";
   "access_token"; "auth_token";
   "api_key"; "apikey";
   "secret"; "credentials"; "stripetoken"].

(** The bytes [forbiddenSymbols] = [[^a-zA-Z0-9_*]] does not match.  Every
    byte of a multi-byte or invalid encoding is outside this set, and so is
    the rune it decodes to. *)
Definition allowed_byte (c : ascii) : bool :=
  let n := Str.code c in
  (((97 <=? n) && (n <=? 122)) || ((65 <=? n) && (n <=? 90))
   || ((48 <=? n) && (n <=? 57)) || (n =? 95) || (n =? 42))%N.

(** [forbiddenSymbols.MatchString(word)]. *)
Definition forbiddenSymbols_MatchString (word : string) : bool :=
  existsb (fun c => negb (allowed_byte c)) (Str.bytes word).

Definition star : ascii := "*"%char.

Definition is_star (c : ascii) : bool := Str.byte_eqb c star.

Definition space_rune : Utf8.rune := 32%N.
Definition equals_rune : Utf8.rune := 61%N.
Definition dash_rune : Utf8.rune := 45%N.

Import Regexp.

(** The loop over [originalRunes] that fills [enhancedWord]; [None] when the
    loop leaves with [valid = false].  All of it sits behind the flag [(?i)].
    - a final [*] writes [[^ =]*];
    - a [*] followed by [*] is invalid;
    - a [*] followed by [c] writes [[^c\s]*];
    - any other rune is written as it is. *)
Fixpoint enhancedWord (originalRunes : list ascii) : option (list regex) :=
  match originalRunes with
  | [] => Some []
  | c :: rest =>
      if is_star c then
        match rest with
        | [] =>
            Some [Repeat (AClass true true [CRune space_rune; CRune equals_rune])
                         0 None]
        | next :: _ =>
            if is_star next then None
            else
              cons (Repeat (AClass true true [CRune (Str.code next); CSpace])
                           0 None)
                <$> enhancedWord rest
        end
      else cons (Atom (ALit true (Str.code c))) <$> enhancedWord rest
  end.

Definition cat_all (rs : list regex) : regex := fold_right Cat Empty rs.

(** The pattern string of the source, group by group:
    - group [key]: an unnamed group, one or more spaces or else a space and
      one or two dashes; then the flag [(?i)] and the enhanced word;
    - group [delimiter]: one or more spaces, or else [=];
    - group [value]: any run of runes outside [\s]. *)
Definition pattern (enhanced : list regex) : regex :=
  Cat (Capture "key"
         (Cat (Capture ""
                 (Alt (Repeat (ALit false space_rune) 1 None)
                      (Cat (Atom (ALit false space_rune))
                           (Repeat (ALit false dash_rune) 1 (Some 2%nat)))))
              (cat_all enhanced)))
      (Cat (Capture "delimiter"
              (Alt (Repeat (ALit false space_rune) 1 None)
                   (Atom (ALit false equals_rune))))
           (Capture "value" (Repeat (AClass false true [CSpace]) 0 None))).

Definition warn_forbidden : string :=
  "data scrubber: %s skipped. The sensitive word must contain only alphanumeric characters, underscores or wildcards ('*')".
Definition warn_wildcard_only : string :=
  "data scrubber: ignoring wildcard-only ('*') sensitive word as it is not supported".
Definition warn_consecutive : string :=
  "data scrubber: %s skipped. The sensitive word must not contain two consecutives '*'".

(** One round of the loop of [compileStringsToRegex]: the matcher the word
    compiles to, or the warning it is skipped with.  The pattern built from a
    word that passed the checks is made of word characters and of classes
    over word characters only, so [regexp.Compile] accepts it. *)
Definition compileWord (word : string) : regex + string :=
  if forbiddenSymbols_MatchString word then inr warn_forbidden
  else if String.eqb word "*" then inr warn_wildcard_only
  else match enhancedWord (Str.bytes word) with
       | None => inr warn_consecutive
       | Some enhanced => inl (pattern enhanced)
       end.

Fixpoint compileStringsToRegex (words : list string) : Log (list regex) :=
  match words with
  | [] => ret []
  | word :: rest =>
      match compileWord word with
      | inl r =>
          let* compiledRegexps := compileStringsToRegex rest in
          ret (r :: compiledRegexps)
      | inr warning =>
          log Warn warning ;;
          compileStringsToRegex rest
      end
  end.

(** ["${key}${delimiter}********"] *)
Definition mask : list piece := [PGroup "key"; PGroup "delimiter"; PText "********"].

Module DataScrubber.

(** [StripAllArguments] is assigned by [config.go]; [ScrubCmdline] does not
    read it. *)
Record t := Make {
  Enabled : bool;
  SensitivePatterns : list regex;
  StripAllArguments : bool
}.

Definition set_Enabled (v : bool) (ds : t) : t :=
  Make v (SensitivePatterns ds) (StripAllArguments ds).
Definition set_SensitivePatterns (v : list regex) (ds : t) : t :=
  Make (Enabled ds) v (StripAllArguments ds).
Definition set_StripAllArguments (v : bool) (ds : t) : t :=
  Make (Enabled ds) (SensitivePatterns ds) v.

(** The loop over [ds.SensitivePatterns], threading [rawCmdline] and
    [changed]. *)
Fixpoint scrub_loop (patterns : list regex) (rawCmdline : string) (changed : bool)
  : string * bool :=
  match patterns with
  | [] => (rawCmdline, changed)
  | p :: rest =>
      if MatchString p rawCmdline
      then scrub_loop rest (ReplaceAllString p rawCmdline mask) (changed || true)
      else scrub_loop rest rawCmdline changed
  end.

Definition ScrubCmdline (ds : t) (cmdline : list string) : list string :=
  if negb (Enabled ds) then cmdline
  else
    let rawCmdline := Str.Join cmdline " " in
    let '(rawCmdline', changed) :=
      scrub_loop (SensitivePatterns ds) rawCmdline false in
    if changed then Str.Split rawCmdline' " "%char else cmdline.

Definition AddCustomSensitiveWords (ds : t) (words : list string) : Log t :=
  let* newPatterns := compileStringsToRegex words in
  ret (set_SensitivePatterns (SensitivePatterns ds ++ newPatterns) ds).

End DataScrubber.

Definition NewDefaultDataScrubber : Log DataScrubber.t :=
  let* patterns := compileStringsToRegex defaultSensitiveWords in
  ret (DataScrubber.Make true patterns false).

(** ** Integers, durations and their text (packages [time], [strconv], [fmt]) *)

(** The value a 64-bit signed integer holds after an operation whose exact
    result is [z]. *)
Definition wrap64 (z : Z) : Z := ((z + 2 ^ 63) mod 2 ^ 64 - 2 ^ 63)%Z.

Definition MaxInt64 : Z := (2 ^ 63 - 1)%Z.
Definition MinInt64 : Z := (- 2 ^ 63)%Z.

(** [time.Second], in nanoseconds. *)
Definition Second : Z := 1000000000%Z.

(** [time.Duration(n) * unit]. *)
Definition duration (n unit : Z) : Z := wrap64 (n * unit).

Module strconv.

Definition digit (c : ascii) : option Z :=
  let n := Str.code c in
  if ((48 <=? n) && (n <=? 57))%N then Some (Z.of_N (n - 48)) else None.

Fixpoint digits (acc : Z) (s : string) : option Z :=
  match s with
  | EmptyString => Some acc
  | String c rest =>
      match digit c with
      | Some d => digits (acc * 10 + d) rest
      | None => None
      end
  end.

(** [strconv.Atoi(s)]: the value and whether [err == nil].  A syntax error
    gives 0, a value out of range the nearest bound. *)
Definition Atoi (s : string) : Z * bool :=
  let '(negative, body) :=
    match s with
    | String "-"%char rest => (true, rest)
    | String "+"%char rest => (false, rest)
    | _ => (false, s)
    end in
  match body with
  | EmptyString => (0%Z, false)
  | _ =>
      match digits 0 body with
      | None => (0%Z, false)
      | Some n =>
          let v := if negative then (- n)%Z else n in
          if (MaxInt64 <? v)%Z then (MaxInt64, false)
          else if (v <? MinInt64)%Z then (MinInt64, false)
          else (v, true)
      end
  end.

(** The decimal text of an [int], as [%v] and [strconv.Itoa] print it. *)
Definition Itoa (n : Z) : string := NilZero.string_of_int (Z.to_int n).

End strconv.

(** ** URLs and proxies (packages [net/url], [net/http]) *)

Definition error := string.

Definition result (A : Type) : Type := (A + error)%type.

Record Userinfo := mkUserinfo {
  username : string;
  password : option string      (* [None]: no password set *)
}.

(** [url.User(username)] and [url.UserPassword(username, password)]. *)
Definition url_User (u : string) : Userinfo := mkUserinfo u None.
Definition url_UserPassword (u p : string) : Userinfo := mkUserinfo u (Some p).

Record URL := mkURL {
  Scheme : string;
  Opaque : string;
  User : option Userinfo;
  Host : string;
  Path : string;
  RawQuery : string;
  Fragment : string
}.

Record Request := mkRequest { Method : string; Target : string }.

Definition proxyFunc : Type := Request -> option URL * option error.

(** [http.ProxyURL(fixedURL)]: a function that always returns the same URL. *)
Definition http_ProxyURL (fixedURL : URL) : proxyFunc :=
  fun _ => (Some fixedURL, None).

Record http_Transport := mkTransport {
  FromAgentUtil : bool;          (* built by [ddutil.CreateHTTPTransport] *)
  Proxy : option proxyFunc
}.

(** ** The process environment (package [os]) *)

Definition Env : Type := gmap string string.

Definition Getenv (env : Env) (key : string) : string := default "" (env !! key).

Definition Setenv (env : Env) (key val : string) : Env := <[key := val]> env.

Definition Environ (env : Env) : list string :=
  (fun kv => fst kv +:+ "=" +:+ snd kv) <$> map_to_list env.

(** ** What the resolver takes from outside this package

    Library functions whose text is not part of the program, values the
    platform files define, and observations of the host. *)

Record Sys := mkSys {
  (** [url.Parse] *)
  url_Parse : string -> result URL;
  (** the method [String] of [url.Userinfo]: the escaped [user[:password]] *)
  Userinfo_String : Userinfo -> string;
  (** whether [regexp.Compile] accepts a pattern the user wrote *)
  regexp_Compile_ok : string -> bool;
  (** [container.GetContainers] returned no error *)
  GetContainers_ok : bool;
  (** [docker.IsContainerized() && util.PathExists("/host")] *)
  containerized_with_host : bool;
  defaultLogFilePath : string;
  defaultDDAgentPy : string;
  defaultDDAgentPyEnv : string;
  defaultDDAgentBin : string;
  (** [ddconfig.Datadog.GetString] and [GetInt] *)
  Datadog_GetString : string -> string;
  Datadog_GetInt : string -> Z;
  (** [ddutil.CreateHTTPTransport] *)
  CreateHTTPTransport : http_Transport;
  (** [NewLoggerLevel(level, file, toConsole)] *)
  NewLoggerLevel : string -> string -> bool -> option error;
  (** [ecsutil.IsFargateInstance] and the ARN of [ecsutil.GetTaskMetadata] *)
  IsFargateInstance : bool;
  GetTaskMetadata : result string;
  (** [exec.Command(name, args...)] run with an environment: the error of
      [cmd.Run], what was written to stdout and to stderr *)
  Run : string -> list string -> list string -> option error * string * string;
  (** [os.Hostname] *)
  Hostname : result string
}.

(** ** The agent configuration ([config/config.go]) *)

Module WindowsConfig.

Record t := Make {
  ArgsRefreshInterval : Z;
  AddNewArgs : bool
}.

Definition set_ArgsRefreshInterval (v : Z) (w : t) : t := Make v (AddNewArgs w).
Definition set_AddNewArgs (v : bool) (w : t) : t := Make (ArgsRefreshInterval w) v.

End WindowsConfig.

Module AgentConfig.

Record t := Make {
  Enabled : bool;
  APIKey : string;
  HostName : string;
  APIEndpoint : URL;
  LogFile : string;
  LogLevel : string;
  LogToConsole : bool;
  QueueSize : Z;
  Blacklist : list (option string);   (* the source text of each compiled pattern; [None] is a nil pointer *)
  Scrubber : DataScrubber.t;
  MaxProcFDs : Z;
  MaxPerMessage : Z;
  AllowRealTime : bool;
  Transport : http_Transport;
  DDAgentPy : string;
  DDAgentBin : string;
  DDAgentPyEnv : list string;
  StatsdHost : string;
  StatsdPort : Z;
  EnabledChecks : list string;
  CheckIntervals : gmap string Z;   (* check name to [time.Duration], in nanoseconds *)
  ContainerBlacklist : list string;
  ContainerWhitelist : list string;
  CollectDockerNetwork : bool;
  ContainerCacheDuration : Z;
  proxy : option proxyFunc;
  Windows : WindowsConfig.t
}.

(** The assignment [c.Field = v], one function per field. *)
Definition set_Enabled (v : bool) (c : t) : t :=
  Make v (APIKey c) (HostName c) (APIEndpoint c) (LogFile c) (LogLevel c)
      (LogToConsole c) (QueueSize c) (Blacklist c) (Scrubber c)
      (MaxProcFDs c) (MaxPerMessage c) (AllowRealTime c) (Transport c)
      (DDAgentPy c) (DDAgentBin c) (DDAgentPyEnv c) (StatsdHost c)
      (StatsdPort c) (EnabledChecks c) (CheckIntervals c)
      (ContainerBlacklist c) (ContainerWhitelist c) (CollectDockerNetwork c)
      (ContainerCacheDuration c) (proxy c) (Windows c).
Definition set_APIKey (v : string) (c : t) : t :=
  Make (Enabled c) v (HostName c) (APIEndpoint c) (LogFile c) (LogLevel c)
      (LogToConsole c) (QueueSize c) (Blacklist c) (Scrubber c)
      (MaxProcFDs c) (MaxPerMessage c) (AllowRealTime c) (Transport c)
      (DDAgentPy c) (DDAgentBin c) (DDAgentPyEnv c) (StatsdHost c)
      (StatsdPort c) (EnabledChecks c) (CheckIntervals c)
      (ContainerBlacklist c) (ContainerWhitelist c) (CollectDockerNetwork c)
      (ContainerCacheDuration c) (proxy c) (Windows c).
Definition set_HostName (v : string) (c : t) : t :=
  Make (Enabled c) (APIKey c) v (APIEndpoint c) (LogFile c) (LogLevel c)
      (LogToConsole c) (QueueSize c) (Blacklist c) (Scrubber c)
      (MaxProcFDs c) (MaxPerMessage c) (AllowRealTime c) (Transport c)
      (DDAgentPy c) (DDAgentBin c) (DDAgentPyEnv c) (StatsdHost c)
      (StatsdPort c) (EnabledChecks c) (CheckIntervals c)
      (ContainerBlacklist c) (ContainerWhitelist c) (CollectDockerNetwork c)
      (ContainerCacheDuration c) (proxy c) (Windows c).
Definition set_APIEndpoint (v : URL) (c : t) : t :=
  Make (Enabled c) (APIKey c) (HostName c) v (LogFile c) (LogLevel c)
      (LogToConsole c) (QueueSize c) (Blacklist c) (Scrubber c)
      (MaxProcFDs c) (MaxPerMessage c) (AllowRealTime c) (Transport c)
      (DDAgentPy c) (DDAgentBin c) (DDAgentPyEnv c) (StatsdHost c)
      (StatsdPort c) (EnabledChecks c) (CheckIntervals c)
      (ContainerBlacklist c) (ContainerWhitelist c) (CollectDockerNetwork c)
      (ContainerCacheDuration c) (proxy c) (Windows c).
Definition set_LogFile (v : string) (c : t) : t :=
  Make (Enabled c) (APIKey c) (HostName c) (APIEndpoint c) v (LogLevel c)
      (LogToConsole c) (QueueSize c) (Blacklist c) (Scrubber c)
      (MaxProcFDs c) (MaxPerMessage c) (AllowRealTime c) (Transport c)
      (DDAgentPy c) (DDAgentBin c) (DDAgentPyEnv c) (StatsdHost c)
      (StatsdPort c) (EnabledChecks c) (CheckIntervals c)
      (ContainerBlacklist c) (ContainerWhitelist c) (CollectDockerNetwork c)
      (ContainerCacheDuration c) (proxy c) (Windows c).
Definition set_LogLevel (v : string) (c : t) : t :=
  Make (Enabled c) (APIKey c) (HostName c) (APIEndpoint c) (LogFile c) v
      (LogToConsole c) (QueueSize c) (Blacklist c) (Scrubber c)
      (MaxProcFDs c) (MaxPerMessage c) (AllowRealTime c) (Transport c)
      (DDAgentPy c) (DDAgentBin c) (DDAgentPyEnv c) (StatsdHost c)
      (StatsdPort c) (EnabledChecks c) (CheckIntervals c)
      (ContainerBlacklist c) (ContainerWhitelist c) (CollectDockerNetwork c)
      (ContainerCacheDuration c) (proxy c) (Windows c).
Definition set_LogToConsole (v : bool) (c : t) : t :=
  Make (Enabled c) (APIKey c) (HostName c) (APIEndpoint c) (LogFile c)
      (LogLevel c) v (QueueSize c) (Blacklist c) (Scrubber c) (MaxProcFDs c)
      (MaxPerMessage c) (AllowRealTime c) (Transport c) (DDAgentPy c)
      (DDAgentBin c) (DDAgentPyEnv c) (StatsdHost c) (StatsdPort c)
      (EnabledChecks c) (CheckIntervals c) (ContainerBlacklist c)
      (ContainerWhitelist c) (CollectDockerNetwork c)
      (ContainerCacheDuration c) (proxy c) (Windows c).
Definition set_QueueSize (v : Z) (c : t) : t :=
  Make (Enabled c) (APIKey c) (HostName c) (APIEndpoint c) (LogFile c)
      (LogLevel c) (LogToConsole c) v (Blacklist c) (Scrubber c)
      (MaxProcFDs c) (MaxPerMessage c) (AllowRealTime c) (Transport c)
      (DDAgentPy c) (DDAgentBin c) (DDAgentPyEnv c) (StatsdHost c)
      (StatsdPort c) (EnabledChecks c) (CheckIntervals c)
      (ContainerBlacklist c) (ContainerWhitelist c) (CollectDockerNetwork c)
      (ContainerCacheDuration c) (proxy c) (Windows c).
Definition set_Blacklist (v : list (option string)) (c : t) : t :=
  Make (Enabled c) (APIKey c) (HostName c) (APIEndpoint c) (LogFile c)
      (LogLevel c) (LogToConsole c) (QueueSize c) v (Scrubber c)
      (MaxProcFDs c) (MaxPerMessage c) (AllowRealTime c) (Transport c)
      (DDAgentPy c) (DDAgentBin c) (DDAgentPyEnv c) (StatsdHost c)
      (StatsdPort c) (EnabledChecks c) (CheckIntervals c)
      (ContainerBlacklist c) (ContainerWhitelist c) (CollectDockerNetwork c)
      (ContainerCacheDuration c) (proxy c) (Windows c).
Definition set_Scrubber (v : DataScrubber.t) (c : t) : t :=
  Make (Enabled c) (APIKey c) (HostName c) (APIEndpoint c) (LogFile c)
      (LogLevel c) (LogToConsole c) (QueueSize c) (Blacklist c) v
      (MaxProcFDs c) (MaxPerMessage c) (AllowRealTime c) (Transport c)
      (DDAgentPy c) (DDAgentBin c) (DDAgentPyEnv c) (StatsdHost c)
      (StatsdPort c) (EnabledChecks c) (CheckIntervals c)
      (ContainerBlacklist c) (ContainerWhitelist c) (CollectDockerNetwork c)
      (ContainerCacheDuration c) (proxy c) (Windows c).
Definition set_MaxProcFDs (v : Z) (c : t) : t :=
  Make (Enabled c) (APIKey c) (HostName c) (APIEndpoint c) (LogFile c)
      (LogLevel c) (LogToConsole c) (QueueSize c) (Blacklist c) (Scrubber c)
      v (MaxPerMessage c) (AllowRealTime c) (Transport c) (DDAgentPy c)
      (DDAgentBin c) (DDAgentPyEnv c) (StatsdHost c) (StatsdPort c)
      (EnabledChecks c) (CheckIntervals c) (ContainerBlacklist c)
      (ContainerWhitelist c) (CollectDockerNetwork c)
      (ContainerCacheDuration c) (proxy c) (Windows c).
Definition set_MaxPerMessage (v : Z) (c : t) : t :=
  Make (Enabled c) (APIKey c) (HostName c) (APIEndpoint c) (LogFile c)
      (LogLevel c) (LogToConsole c) (QueueSize c) (Blacklist c) (Scrubber c)
      (MaxProcFDs c) v (AllowRealTime c) (Transport c) (DDAgentPy c)
      (DDAgentBin c) (DDAgentPyEnv c) (StatsdHost c) (StatsdPort c)
      (EnabledChecks c) (CheckIntervals c) (ContainerBlacklist c)
      (ContainerWhitelist c) (CollectDockerNetwork c)
      (ContainerCacheDuration c) (proxy c) (Windows c).
Definition set_AllowRealTime (v : bool) (c : t) : t :=
  Make (Enabled c) (APIKey c) (HostName c) (APIEndpoint c) (LogFile c)
      (LogLevel c) (LogToConsole c) (QueueSize c) (Blacklist c) (Scrubber c)
      (MaxProcFDs c) (MaxPerMessage c) v (Transport c) (DDAgentPy c)
      (DDAgentBin c) (DDAgentPyEnv c) (StatsdHost c) (StatsdPort c)
      (EnabledChecks c) (CheckIntervals c) (ContainerBlacklist c)
      (ContainerWhitelist c) (CollectDockerNetwork c)
      (ContainerCacheDuration c) (proxy c) (Windows c).
Definition set_Transport (v : http_Transport) (c : t) : t :=
  Make (Enabled c) (APIKey c) (HostName c) (APIEndpoint c) (LogFile c)
      (LogLevel c) (LogToConsole c) (QueueSize c) (Blacklist c) (Scrubber c)
      (MaxProcFDs c) (MaxPerMessage c) (AllowRealTime c) v (DDAgentPy c)
      (DDAgentBin c) (DDAgentPyEnv c) (StatsdHost c) (StatsdPort c)
      (EnabledChecks c) (CheckIntervals c) (ContainerBlacklist c)
      (ContainerWhitelist c) (CollectDockerNetwork c)
      (ContainerCacheDuration c) (proxy c) (Windows c).
Definition set_DDAgentPy (v : string) (c : t) : t :=
  Make (Enabled c) (APIKey c) (HostName c) (APIEndpoint c) (LogFile c)
      (LogLevel c) (LogToConsole c) (QueueSize c) (Blacklist c) (Scrubber c)
      (MaxProcFDs c) (MaxPerMessage c) (AllowRealTime c) (Transport c) v
      (DDAgentBin c) (DDAgentPyEnv c) (StatsdHost c) (StatsdPort c)
      (EnabledChecks c) (CheckIntervals c) (ContainerBlacklist c)
      (ContainerWhitelist c) (CollectDockerNetwork c)
      (ContainerCacheDuration c) (proxy c) (Windows c).
Definition set_DDAgentBin (v : string) (c : t) : t :=
  Make (Enabled c) (APIKey c) (HostName c) (APIEndpoint c) (LogFile c)
      (LogLevel c) (LogToConsole c) (QueueSize c) (Blacklist c) (Scrubber c)
      (MaxProcFDs c) (MaxPerMessage c) (AllowRealTime c) (Transport c)
      (DDAgentPy c) v (DDAgentPyEnv c) (StatsdHost c) (StatsdPort c)
      (EnabledChecks c) (CheckIntervals c) (ContainerBlacklist c)
      (ContainerWhitelist c) (CollectDockerNetwork c)
      (ContainerCacheDuration c) (proxy c) (Windows c).
Definition set_DDAgentPyEnv (v : list string) (c : t) : t :=
  Make (Enabled c) (APIKey c) (HostName c) (APIEndpoint c) (LogFile c)
      (LogLevel c) (LogToConsole c) (QueueSize c) (Blacklist c) (Scrubber c)
      (MaxProcFDs c) (MaxPerMessage c) (AllowRealTime c) (Transport c)
      (DDAgentPy c) (DDAgentBin c) v (StatsdHost c) (StatsdPort c)
      (EnabledChecks c) (CheckIntervals c) (ContainerBlacklist c)
      (ContainerWhitelist c) (CollectDockerNetwork c)
      (ContainerCacheDuration c) (proxy c) (Windows c).
Definition set_StatsdHost (v : string) (c : t) : t :=
  Make (Enabled c) (APIKey c) (HostName c) (APIEndpoint c) (LogFile c)
      (LogLevel c) (LogToConsole c) (QueueSize c) (Blacklist c) (Scrubber c)
      (MaxProcFDs c) (MaxPerMessage c) (AllowRealTime c) (Transport c)
      (DDAgentPy c) (DDAgentBin c) (DDAgentPyEnv c) v (StatsdPort c)
      (EnabledChecks c) (CheckIntervals c) (ContainerBlacklist c)
      (ContainerWhitelist c) (CollectDockerNetwork c)
      (ContainerCacheDuration c) (proxy c) (Windows c).
Definition set_StatsdPort (v : Z) (c : t) : t :=
  Make (Enabled c) (APIKey c) (HostName c) (APIEndpoint c) (LogFile c)
      (LogLevel c) (LogToConsole c) (QueueSize c) (Blacklist c) (Scrubber c)
      (MaxProcFDs c) (MaxPerMessage c) (AllowRealTime c) (Transport c)
      (DDAgentPy c) (DDAgentBin c) (DDAgentPyEnv c) (StatsdHost c) v
      (EnabledChecks c) (CheckIntervals c) (ContainerBlacklist c)
      (ContainerWhitelist c) (CollectDockerNetwork c)
      (ContainerCacheDuration c) (proxy c) (Windows c).
Definition set_EnabledChecks (v : list string) (c : t) : t :=
  Make (Enabled c) (APIKey c) (HostName c) (APIEndpoint c) (LogFile c)
      (LogLevel c) (LogToConsole c) (QueueSize c) (Blacklist c) (Scrubber c)
      (MaxProcFDs c) (MaxPerMessage c) (AllowRealTime c) (Transport c)
      (DDAgentPy c) (DDAgentBin c) (DDAgentPyEnv c) (StatsdHost c)
      (StatsdPort c) v (CheckIntervals c) (ContainerBlacklist c)
      (ContainerWhitelist c) (CollectDockerNetwork c)
      (ContainerCacheDuration c) (proxy c) (Windows c).
Definition set_CheckIntervals (v : gmap string Z) (c : t) : t :=
  Make (Enabled c) (APIKey c) (HostName c) (APIEndpoint c) (LogFile c)
      (LogLevel c) (LogToConsole c) (QueueSize c) (Blacklist c) (Scrubber c)
      (MaxProcFDs c) (MaxPerMessage c) (AllowRealTime c) (Transport c)
      (DDAgentPy c) (DDAgentBin c) (DDAgentPyEnv c) (StatsdHost c)
      (StatsdPort c) (EnabledChecks c) v (ContainerBlacklist c)
      (ContainerWhitelist c) (CollectDockerNetwork c)
      (ContainerCacheDuration c) (proxy c) (Windows c).
Definition set_ContainerBlacklist (v : list string) (c : t) : t :=
  Make (Enabled c) (APIKey c) (HostName c) (APIEndpoint c) (LogFile c)
      (LogLevel c) (LogToConsole c) (QueueSize c) (Blacklist c) (Scrubber c)
      (MaxProcFDs c) (MaxPerMessage c) (AllowRealTime c) (Transport c)
      (DDAgentPy c) (DDAgentBin c) (DDAgentPyEnv c) (StatsdHost c)
      (StatsdPort c) (EnabledChecks c) (CheckIntervals c) v
      (ContainerWhitelist c) (CollectDockerNetwork c)
      (ContainerCacheDuration c) (proxy c) (Windows c).
Definition set_ContainerWhitelist (v : list string) (c : t) : t :=
  Make (Enabled c) (APIKey c) (HostName c) (APIEndpoint c) (LogFile c)
      (LogLevel c) (LogToConsole c) (QueueSize c) (Blacklist c) (Scrubber c)
      (MaxProcFDs c) (MaxPerMessage c) (AllowRealTime c) (Transport c)
      (DDAgentPy c) (DDAgentBin c) (DDAgentPyEnv c) (StatsdHost c)
      (StatsdPort c) (EnabledChecks c) (CheckIntervals c)
      (ContainerBlacklist c) v (CollectDockerNetwork c)
      (ContainerCacheDuration c) (proxy c) (Windows c).
Definition set_CollectDockerNetwork (v : bool) (c : t) : t :=
  Make (Enabled c) (APIKey c) (HostName c) (APIEndpoint c) (LogFile c)
      (LogLevel c) (LogToConsole c) (QueueSize c) (Blacklist c) (Scrubber c)
      (MaxProcFDs c) (MaxPerMessage c) (AllowRealTime c) (Transport c)
      (DDAgentPy c) (DDAgentBin c) (DDAgentPyEnv c) (StatsdHost c)
      (StatsdPort c) (EnabledChecks c) (CheckIntervals c)
      (ContainerBlacklist c) (ContainerWhitelist c) v
      (ContainerCacheDuration c) (proxy c) (Windows c).
Definition set_ContainerCacheDuration (v : Z) (c : t) : t :=
  Make (Enabled c) (APIKey c) (HostName c) (APIEndpoint c) (LogFile c)
      (LogLevel c) (LogToConsole c) (QueueSize c) (Blacklist c) (Scrubber c)
      (MaxProcFDs c) (MaxPerMessage c) (AllowRealTime c) (Transport c)
      (DDAgentPy c) (DDAgentBin c) (DDAgentPyEnv c) (StatsdHost c)
      (StatsdPort c) (EnabledChecks c) (CheckIntervals c)
      (ContainerBlacklist c) (ContainerWhitelist c) (CollectDockerNetwork c)
      v (proxy c) (Windows c).
Definition set_proxy (v : option proxyFunc) (c : t) : t :=
  Make (Enabled c) (APIKey c) (HostName c) (APIEndpoint c) (LogFile c)
      (LogLevel c) (LogToConsole c) (QueueSize c) (Blacklist c) (Scrubber c)
      (MaxProcFDs c) (MaxPerMessage c) (AllowRealTime c) (Transport c)
      (DDAgentPy c) (DDAgentBin c) (DDAgentPyEnv c) (StatsdHost c)
      (StatsdPort c) (EnabledChecks c) (CheckIntervals c)
      (ContainerBlacklist c) (ContainerWhitelist c) (CollectDockerNetwork c)
      (ContainerCacheDuration c) v (Windows c).
Definition set_Windows (v : WindowsConfig.t) (c : t) : t :=
  Make (Enabled c) (APIKey c) (HostName c) (APIEndpoint c) (LogFile c)
      (LogLevel c) (LogToConsole c) (QueueSize c) (Blacklist c) (Scrubber c)
      (MaxProcFDs c) (MaxPerMessage c) (AllowRealTime c) (Transport c)
      (DDAgentPy c) (DDAgentBin c) (DDAgentPyEnv c) (StatsdHost c)
      (StatsdPort c) (EnabledChecks c) (CheckIntervals c)
      (ContainerBlacklist c) (ContainerWhitelist c) (CollectDockerNetwork c)
      (ContainerCacheDuration c) (proxy c) v.

End AgentConfig.

(** ** The legacy key-value file ([ini] and the wrapper [File]) *)

Abbreviation IniSection := (gmap string string).
Abbreviation File := (gmap string (gmap string string)).

(** The methods of [ini.Key] that [getProxySettings] calls.  A key that is
    absent reads as the empty string. *)
Definition Key_String (m : IniSection) (name : string) : string :=
  default "" (m !! name).

Definition Key_MustString (m : IniSection) (name defaultVal : string) : string :=
  let val := Key_String m name in
  if Str.is_empty val then defaultVal else val.

Definition Key_MustInt (m : IniSection) (name : string) (defaultVal : Z) : Z :=
  let '(val, ok) := strconv.Atoi (Key_String m name) in
  if ok then val else defaultVal.

Definition parseBool (s : string) : option bool :=
  if existsb (String.eqb s)
       ["1"; "t"; "T"; "TRUE"; "true"; "True"; "YES"; "yes"; "Yes"; "y"; "ON"; "on"; "On"]
  then Some true
  else if existsb (String.eqb s)
       ["0"; "f"; "F"; "FALSE"; "false"; "False"; "NO"; "no"; "No"; "n"; "OFF"; "off"; "Off"]
  then Some false
  else None.

Definition File_lookup (f : File) (section name : string) : option string :=
  f !! section ≫= fun m => m !! name.

(** Modelled from the spec: the reader of the key-value file, the type
    [File] and its methods, is not among the sources.  [GetSection] finds a
    section by name. *)
Definition GetSection (f : File) (section : string) : option IniSection :=
  f !! section.

(** Modelled from the spec: get-string of the absent file reader, an
    error when the key is missing. *)
Definition Get (f : File) (section name : string) : result string :=
  match File_lookup f section name with
  | Some v => inl v
  | None => inr "missing value"
  end.

(** Modelled from the spec: get-string of the absent file reader, with
    its default-value fallback. *)
Definition GetDefault (f : File) (section name defaultVal : string) : string :=
  match File_lookup f section name with
  | Some v => if Str.is_empty v then defaultVal else v
  | None => defaultVal
  end.

(** Modelled from the spec: get-int of the absent file reader, with its
    default-value fallback. *)
Definition GetIntDefault (f : File) (section name : string) (defaultVal : Z) : Z :=
  match File_lookup f section name with
  | Some v => let '(n, ok) := strconv.Atoi v in if ok then n else defaultVal
  | None => defaultVal
  end.

(** Modelled from the spec: get-bool of the absent file reader, with its
    default-value fallback. *)
Definition GetBool (f : File) (section name : string) (defaultVal : bool) : bool :=
  match File_lookup f section name with
  | Some v => default defaultVal (parseBool v)
  | None => defaultVal
  end.

(** Modelled from the spec: get-string-list of the absent file reader,
    with a caller-supplied delimiter and a default-value fallback. *)
Definition GetStrArrayDefault (f : File) (section name : string) (sep : ascii)
           (defaultVal : list string) : list string :=
  match File_lookup f section name with
  | Some v => if Str.is_empty v then [] else Str.Split v sep
  | None => defaultVal
  end.

(** Modelled from the spec: get-duration of the absent file reader, an
    integer count of [unit], with its default-value fallback. *)
Definition GetDurationDefault (f : File) (section name : string) (unit defaultVal : Z)
  : Z :=
  match File_lookup f section name with
  | Some v => let '(n, ok) := strconv.Atoi v in
              if ok then duration n unit else defaultVal
  | None => defaultVal
  end.

(** ** The structured file ([YamlAgentConfig])

    The anonymous structs [Process], [Process.Intervals] and
    [Process.Windows] are flattened into the field names.  A field the file
    leaves out holds its zero value; the two [*bool] fields hold [None]. *)

Module YamlAgentConfig.

Record t := Make {
  APIKey : string;
  LogToConsole : bool;
  Process_Enabled : string;
  Process_LogFile : string;
  Process_Intervals_Container : Z;
  Process_Intervals_ContainerRealTime : Z;
  Process_Intervals_Process : Z;
  Process_Intervals_ProcessRealTime : Z;
  Process_BlacklistPatterns : list string;
  Process_ScrubArgs : option bool;
  Process_CustomSensitiveWords : list string;
  Process_StripProcessArguments : bool;
  Process_QueueSize : Z;
  Process_MaxProcFDs : Z;
  Process_MaxPerMessage : Z;
  Process_DDAgentBin : string;
  Process_DDAgentEnv : list string;
  Process_ProcessDDURL : string;
  Process_Windows_ArgsRefreshInterval : Z;
  Process_Windows_AddNewArgs : option bool
}.

(** The zero value [YamlAgentConfig{}]. *)
Definition zero : t :=
  Make "" false "" "" 0 0 0 0 [] None [] false 0 0 0 "" [] "" 0 None.

(** The same file with another value for [process_realtime]. *)
Definition set_Process_Intervals_ProcessRealTime (v : Z) (y : t) : t :=
  Make (APIKey y) (LogToConsole y) (Process_Enabled y) (Process_LogFile y)
       (Process_Intervals_Container y) (Process_Intervals_ContainerRealTime y)
       (Process_Intervals_Process y) v
       (Process_BlacklistPatterns y) (Process_ScrubArgs y)
       (Process_CustomSensitiveWords y) (Process_StripProcessArguments y)
       (Process_QueueSize y) (Process_MaxProcFDs y) (Process_MaxPerMessage y)
       (Process_DDAgentBin y) (Process_DDAgentEnv y) (Process_ProcessDDURL y)
       (Process_Windows_ArgsRefreshInterval y) (Process_Windows_AddNewArgs y).

End YamlAgentConfig.

(** ** Constants of [config.go] *)

Definition defaultProxyPort : Z := 3128.

Definition processChecks : list string := ["process"; "rtprocess"].
Definition containerChecks : list string := ["container"; "rtcontainer"].

Definition defaultKubeBlacklist : list string :=
  ["image:gcr.io/google_containers/pause.*"; "image:openshift/origin-pod"].

Definition defaultEndpoint : string := "https://process.datadoghq.com".
Definition maxMessageBatch : Z := 100.

Definition nonempty (s : string) : bool := negb (Str.is_empty s).

Definition isAffirmative (value : string) : bool * option error :=
  if Str.is_empty value then (false, Some "value is empty")
  else
    let v := Strings.ToLower value in
    (String.eqb v "true" || String.eqb v "yes" || String.eqb v "1", None).

Definition is_nil {A} (x : option A) : bool :=
  match x with None => true | Some _ => false end.

(** What a call leaves behind: a value, a returned [error], or a panic. *)
Inductive outcome (A : Type) :=
| Ok (a : A)
| Failed (err : error)
| Panicked (err : error).
Arguments Ok {A} a.
Arguments Failed {A} err.
Arguments Panicked {A} err.

Section Resolver.

Variable sys : Sys.

Import AgentConfig.

(** *** Proxy settings *)

(** [constructProxy]: the proxy URL is assembled as text and parsed. *)
Definition constructProxy (host scheme : string) (port : Z) (user password : string)
  : option proxyFunc * option error :=
  let userpass :=
    if nonempty user then
      if nonempty password then Some (url_UserPassword user password)
      else Some (url_User user)
    else None in
  let path :=
    match userpass with
    | Some up =>
        Userinfo_String sys up +:+ "@" +:+ host +:+ ":" +:+ strconv.Itoa port
    | None => host +:+ ":" +:+ strconv.Itoa port
    end in
  let path := if nonempty scheme then scheme +:+ "://" +:+ path else path in
  match url_Parse sys path with
  | inr err => (None, Some err)
  | inl u => (Some (http_ProxyURL u), None)
  end.

Definition getProxySettings (m : IniSection) : option proxyFunc * option error :=
  let '(scheme, host) :=
    let v := Key_MustString m "proxy_host" "" in
    if nonempty v then
      match Str.Index v "://" with
      | Some i => (Str.take i v, Str.drop (i + 3) v)
      | None => ("http", v)
      end
    else ("http", "") in
  if Str.is_empty host then (None, None)
  else
    let port :=
      let v := Key_MustInt m "proxy_port" (-1) in
      if negb (v =? -1)%Z then v else defaultProxyPort in
    let user := Key_MustString m "proxy_user" "" in
    let password := Key_MustString m "proxy_password" "" in
    constructProxy host scheme port user password.

Definition proxyFromEnv (env : Env) (defaultVal : option proxyFunc)
  : option proxyFunc * option error :=
  let '(scheme, host) :=
    let v := Getenv env "PROXY_HOST" in
    if nonempty v then
      match Str.Index v "://" with
      | Some i => (Str.take i v, Str.drop (i + 3) v)
      | None => ("http", v)
      end
    else ("http", "") in
  if Str.is_empty host then (defaultVal, None)
  else
    let port :=
      let v := Getenv env "PROXY_PORT" in
      if nonempty v then fst (strconv.Atoi v) else defaultProxyPort in
    let user := Getenv env "PROXY_USER" in
    let password := Getenv env "PROXY_PASSWORD" in
    constructProxy host scheme port user password.

(** *** Host name *)

Definition getHostnameCmd : string :=
  "from utils.hostname import get_hostname; print get_hostname()".

Definition getHostname (env : Env) (ddAgentPy ddAgentBin : string)
           (ddAgentEnv : list string) : Log (result string) :=
  let '(name, args) :=
    if nonempty ddAgentBin then (ddAgentBin, ["hostname"])
    else (ddAgentPy, ["-c"; getHostnameCmd]) in
  let '(err, stdout, stderr) := Run sys name args (ddAgentEnv ++ Environ env) in
  match err with
  | Some _ =>
      log Info "error retrieving dd-agent hostname, falling back to os.Hostname(): %v" ;;
      ret (Hostname sys)
  | None =>
      let hostname := Strings.TrimSpace stdout in
      if Str.is_empty hostname then
        log Info "error retrieving dd-agent hostname, falling back to os.Hostname(): %s" ;;
        ret (Hostname sys)
      else ret (inl hostname)
  end.

(** *** Defaults *)

Definition isRunningInKubernetes (env : Env) : bool :=
  nonempty (Getenv env "KUBERNETES_SERVICE_HOST").

Definition defaultCheckIntervals : gmap string Z :=
  <["process" := duration 10 Second]>
    (<["rtprocess" := duration 2 Second]>
       (<["container" := duration 10 Second]>
          (<["rtcontainer" := duration 2 Second]>
             (<["connections" := duration 10 Second]> ∅)))).

(** [NewDefaultAgentConfig]: the defaults, and the environment after the
    two [os.Setenv] calls. *)
Definition NewDefaultAgentConfig (env : Env) : Log (outcome (AgentConfig.t * Env)) :=
  match url_Parse sys defaultEndpoint with
  | inr err => ret (Panicked err)
  | inl u =>
      let canAccessContainers := GetContainers_ok sys in
      let* scrubber := NewDefaultDataScrubber in
      let ac :=
        {| Enabled := canAccessContainers;
           APIKey := "";
           HostName := "";
           APIEndpoint := u;
           LogFile := defaultLogFilePath sys;
           LogLevel := "info";
           LogToConsole := false;
           QueueSize := 20;
           Blacklist := [];
           Scrubber := scrubber;
           MaxProcFDs := 200;
           MaxPerMessage := 100;
           AllowRealTime := true;
           Transport := mkTransport false None;
           DDAgentPy := defaultDDAgentPy sys;
           DDAgentBin := "";
           DDAgentPyEnv := [defaultDDAgentPyEnv sys];
           StatsdHost := "127.0.0.1";
           StatsdPort := 8125;
           EnabledChecks := containerChecks;
           CheckIntervals := defaultCheckIntervals;
           ContainerBlacklist := [];
           ContainerWhitelist := [];
           CollectDockerNetwork := true;
           ContainerCacheDuration := duration 10 Second;
           proxy := None;
           Windows := WindowsConfig.Make 15 true |} in
      let env :=
        if containerized_with_host sys then
          let env :=
            if Str.is_empty (Getenv env "HOST_PROC")
            then Setenv env "HOST_PROC" "/host/proc" else env in
          if Str.is_empty (Getenv env "HOST_SYS")
          then Setenv env "HOST_SYS" "/host/sys" else env
        else env in
      let ac :=
        if isRunningInKubernetes env
        then set_ContainerBlacklist defaultKubeBlacklist ac else ac in
      ret (Ok (ac, env))
  end.

(** [CheckInterval] returns the interval of a check, 10s when it has none. *)
Definition CheckInterval (a : AgentConfig.t) (checkName : string) : Log Z :=
  match CheckIntervals a !! checkName with
  | Some d => ret d
  | None =>
      log Error "missing check interval for '%s', you must set a default" ;;
      ret (duration 10 Second)
  end.

Definition CheckIsEnabled (a : AgentConfig.t) (checkName : string) : bool :=
  existsb (String.eqb checkName) (EnabledChecks a).

(** *** The environment stage *)

Definition on_scrubber (f : DataScrubber.t -> DataScrubber.t) (c : AgentConfig.t)
  : AgentConfig.t :=
  set_Scrubber (f (Scrubber c)) c.

(** [c.Scrubber.AddCustomSensitiveWords(words)] *)
Definition addWords (words : list string) (c : AgentConfig.t) : Log AgentConfig.t :=
  let* ds := DataScrubber.AddCustomSensitiveWords (Scrubber c) words in
  ret (set_Scrubber ds c).

Definition mergeEnvironmentVariables (env : Env) (c : AgentConfig.t)
  : Log AgentConfig.t :=
  let c :=
    let '(enabled, err) := isAffirmative (Getenv env "DD_PROCESS_AGENT_ENABLED") in
    if enabled then set_EnabledChecks processChecks (set_Enabled true c)
    else if negb enabled && is_nil err then set_Enabled false c
    else c in
  let* c :=
    let v := Getenv env "DD_HOSTNAME" in
    if nonempty v then
      log Info "overriding hostname from env DD_HOSTNAME value" ;;
      ret (set_HostName v c)
    else ret c in
  (* Support API_KEY and DD_API_KEY but prefer DD_API_KEY. *)
  let* apiKey :=
    let v := Getenv env "API_KEY" in
    if nonempty v then
      log Info "overriding API key from env API_KEY value" ;; ret v
    else ret "" in
  let* apiKey :=
    let v := Getenv env "DD_API_KEY" in
    if nonempty v then
      log Info "overriding API key from env DD_API_KEY value" ;; ret v
    else ret apiKey in
  let c :=
    if nonempty apiKey then
      let vals := Strings.TrimSpace <$> Str.Split apiKey ","%char in
      set_APIKey (hd "" vals) c
    else c in
  (* Support LOG_LEVEL and DD_LOG_LEVEL but prefer DD_LOG_LEVEL *)
  let c :=
    let v := Getenv env "LOG_LEVEL" in
    if nonempty v then set_LogLevel v c else c in
  let c :=
    let v := Getenv env "DD_LOG_LEVEL" in
    if nonempty v then set_LogLevel v c else c in
  let c :=
    let '(enabled, err) := isAffirmative (Getenv env "DD_LOGS_STDOUT") in
    if is_nil err then set_LogToConsole enabled c else c in
  let c :=
    let '(enabled, err) := isAffirmative (Getenv env "LOG_TO_CONSOLE") in
    if is_nil err then set_LogToConsole enabled c else c in
  let* c :=
    let '(p, err) := proxyFromEnv env (proxy c) in
    let c := set_proxy p c in
    match err with
    | Some _ =>
        log Error "error parsing proxy settings, not using a proxy: %s" ;;
        ret (set_proxy None c)
    | None => ret c
    end in
  let* c :=
    let v := Getenv env "DD_PROCESS_AGENT_URL" in
    if nonempty v then
      match url_Parse sys v with
      | inr _ => log Warn "DD_PROCESS_AGENT_URL is invalid: %s" ;; ret c
      | inl u => log Info "overriding API endpoint from env" ;;
                 ret (set_APIEndpoint u c)
      end
    else ret c in
  (* Process Arguments Scrubbing *)
  let c :=
    let '(enabled, err) := isAffirmative (Getenv env "DD_SCRUB_ARGS") in
    if enabled then on_scrubber (DataScrubber.set_Enabled true) c
    else if negb enabled && is_nil err
         then on_scrubber (DataScrubber.set_Enabled false) c
    else c in
  let* c :=
    let v := Getenv env "DD_CUSTOM_SENSITIVE_WORDS" in
    if nonempty v then addWords (Str.Split v ","%char) c else ret c in
  let c :=
    if fst (isAffirmative (Getenv env "DD_STRIP_PROCESS_ARGS"))
    then on_scrubber (DataScrubber.set_StripAllArguments true) c else c in
  let c :=
    let v := Getenv env "DD_AGENT_PY" in
    if nonempty v then set_DDAgentPy v c else c in
  let c :=
    let v := Getenv env "DD_AGENT_PY_ENV" in
    if nonempty v then set_DDAgentPyEnv (Str.Split v ","%char) c else c in
  let* c :=
    let v := Getenv env "DD_DOGSTATSD_PORT" in
    if nonempty v then
      let '(port, ok) := strconv.Atoi v in
      if ok then ret (set_StatsdPort port c)
      else log Info "Failed to parse DD_DOGSTATSD_PORT: it should be a port number" ;;
           ret c
    else ret c in
  let c :=
    let v := Getenv env "DD_BIND_HOST" in
    if nonempty v then set_StatsdHost v c else c in
  (* Docker config *)
  let c :=
    if String.eqb (Getenv env "DD_COLLECT_DOCKER_NETWORK") "false"
    then set_CollectDockerNetwork false c else c in
  let c :=
    let v := Getenv env "DD_CONTAINER_BLACKLIST" in
    if nonempty v then set_ContainerBlacklist (Str.Split v ","%char) c else c in
  let c :=
    let v := Getenv env "DD_CONTAINER_WHITELIST" in
    if nonempty v then set_ContainerWhitelist (Str.Split v ","%char) c else c in
  let c :=
    let v := Getenv env "DD_CONTAINER_CACHE_DURATION" in
    if nonempty v then
      let durationS := fst (strconv.Atoi v) in
      set_ContainerCacheDuration (duration durationS Second) c
    else c in
  let c :=
    if fst (isAffirmative (Getenv env "DD_CONNECTIONS_CHECK"))
    then set_EnabledChecks (EnabledChecks c ++ ["connections"]) c else c in
  ret c.

(** *** The structured-file stage *)

(** The loop over [yc.Process.BlacklistPatterns]: the compiled pattern is
    appended whether or not [regexp.Compile] failed (then it is nil). *)
Fixpoint yamlBlacklist (patterns : list string) : Log (list (option string)) :=
  match patterns with
  | [] => ret []
  | b :: rest =>
      let ok := regexp_Compile_ok sys b in
      when (negb ok) (log Warn "Invalid blacklist pattern: %s") ;;
      let* blacklist := yamlBlacklist rest in
      ret ((if ok then Some b else None) :: blacklist)
  end.

Definition mergeYamlConfig (agentConf : AgentConfig.t) (yc : YamlAgentConfig.t)
  : Log (result AgentConfig.t) :=
  let c := set_APIKey (YamlAgentConfig.APIKey yc) agentConf in
  let c :=
    let '(enabled, err) := isAffirmative (YamlAgentConfig.Process_Enabled yc) in
    if enabled then set_EnabledChecks processChecks (set_Enabled true c)
    else if String.eqb (Strings.ToLower (YamlAgentConfig.Process_Enabled yc)) "disabled"
         then set_Enabled false c
    else if negb enabled && is_nil err
         then set_EnabledChecks containerChecks (set_Enabled true c)
    else c in
  let endpoint : result AgentConfig.t :=
    if nonempty (YamlAgentConfig.Process_ProcessDDURL yc) then
      match url_Parse sys (YamlAgentConfig.Process_ProcessDDURL yc) with
      | inr _ => inr "invalid process_dd_url: %s"
      | inl u => inl (set_APIEndpoint u c)
      end
    else inl c in
  match endpoint with
  | inr err => ret (inr err)
  | inl c =>
      let c := if YamlAgentConfig.LogToConsole yc then set_LogToConsole true c else c in
      let c :=
        if nonempty (YamlAgentConfig.Process_LogFile yc)
        then set_LogFile (YamlAgentConfig.Process_LogFile yc) c else c in
      let* c :=
        let n := YamlAgentConfig.Process_Intervals_Container yc in
        if negb (n =? 0)%Z then
          log Info "Overriding container check interval to %ds" ;;
          ret (set_CheckIntervals
                 (<["container" := duration n Second]> (CheckIntervals c)) c)
        else ret c in
      let* c :=
        let n := YamlAgentConfig.Process_Intervals_ContainerRealTime yc in
        if negb (n =? 0)%Z then
          log Info "Overriding real-time container check interval to %ds" ;;
          ret (set_CheckIntervals
                 (<["rtcontainer" := duration n Second]> (CheckIntervals c)) c)
        else ret c in
      let* c :=
        let n := YamlAgentConfig.Process_Intervals_Process yc in
        if negb (n =? 0)%Z then
          log Info "Overriding process check interval to %ds" ;;
          ret (set_CheckIntervals
                 (<["process" := duration n Second]> (CheckIntervals c)) c)
        else ret c in
      let* c :=
        if negb (YamlAgentConfig.Process_Intervals_ProcessRealTime yc =? 0)%Z then
          log Info "Overriding real-time process check interval to %ds" ;;
          ret (set_CheckIntervals
                 (<["rtprocess" :=
                      duration (YamlAgentConfig.Process_Intervals_Process yc) Second]>
                    (CheckIntervals c)) c)
        else ret c in
      let* blacklist := yamlBlacklist (YamlAgentConfig.Process_BlacklistPatterns yc) in
      let c := set_Blacklist blacklist c in
      (* DataScrubber *)
      let c :=
        match YamlAgentConfig.Process_ScrubArgs yc with
        | Some b => on_scrubber (DataScrubber.set_Enabled b) c
        | None => c
        end in
      let* c := addWords (YamlAgentConfig.Process_CustomSensitiveWords yc) c in
      let c :=
        if YamlAgentConfig.Process_StripProcessArguments yc
        then on_scrubber
               (DataScrubber.set_StripAllArguments
                  (YamlAgentConfig.Process_StripProcessArguments yc)) c
        else c in
      let c :=
        if (0 <? YamlAgentConfig.Process_QueueSize yc)%Z
        then set_QueueSize (YamlAgentConfig.Process_QueueSize yc) c else c in
      let c :=
        if (0 <? YamlAgentConfig.Process_MaxProcFDs yc)%Z
        then set_MaxProcFDs (YamlAgentConfig.Process_MaxProcFDs yc) c else c in
      let* c :=
        if (0 <? YamlAgentConfig.Process_MaxPerMessage yc)%Z then
          if (YamlAgentConfig.Process_MaxPerMessage yc <=? maxMessageBatch)%Z
          then ret (set_MaxPerMessage (YamlAgentConfig.Process_MaxPerMessage yc) c)
          else
            log Warn "Overriding the configured item count per message limit because it exceeds maximum" ;;
            ret c
        else ret c in
      let c := set_DDAgentBin (defaultDDAgentBin sys) c in
      let c :=
        if nonempty (YamlAgentConfig.Process_DDAgentBin yc)
        then set_DDAgentBin (YamlAgentConfig.Process_DDAgentBin yc) c else c in
      let c :=
        let n := YamlAgentConfig.Process_Windows_ArgsRefreshInterval yc in
        if negb (n =? 0)%Z
        then set_Windows (WindowsConfig.set_ArgsRefreshInterval n (Windows c)) c
        else c in
      let c :=
        match YamlAgentConfig.Process_Windows_AddNewArgs yc with
        | Some b => set_Windows (WindowsConfig.set_AddNewArgs b (Windows c)) c
        | None => c
        end in
      (* Pull additional parameters from the global config file. *)
      let c := set_LogLevel (Datadog_GetString sys "log_level") c in
      let c := set_StatsdPort (Datadog_GetInt sys "dogstatsd_port") c in
      let c := set_Transport (CreateHTTPTransport sys) c in
      ret (inl c)
  end.

(** *** The legacy-file stage and the whole resolution *)

Definition ns : string := "process.config".

(** The loop over [blacklistPats]: only patterns that compile are kept. *)
Definition iniBlacklist (blacklistPats : list string) : list (option string) :=
  Some <$> List.filter (regexp_Compile_ok sys) blacklistPats.

(** The loop over [cfg.CheckIntervals].  Go visits the entries of a map in
    no particular order; here they are visited in the order of
    [map_to_list].  Each round reads and writes the entry of its own key. *)
Definition iniCheckIntervals (agentIni : File) (intervals : gmap string Z)
  : Log (gmap string Z) :=
  foldr
    (fun '(checkName, defaultInterval) (acc : Log (gmap string Z)) =>
       let* m := acc in
       let key := checkName +:+ "_interval" in
       let interval := GetDurationDefault agentIni ns key Second defaultInterval in
       if negb (interval =? defaultInterval)%Z then
         log Info "Overriding check interval for %s to %s" ;;
         ret (<[checkName := interval]> m)
       else ret m)
    (ret intervals) (map_to_list intervals).

(** The block [if section != nil] of [NewAgentConfig]. *)
Definition iniConfig (agentIni : File) (section : IniSection) (cfg : AgentConfig.t)
  : Log (result AgentConfig.t) :=
  match Get agentIni "Main" "api_key" with
  | inr err => ret (inr err)
  | inl a =>
      let ak := Str.Split a ","%char in
      let cfg := set_APIKey (hd "" ak) cfg in
      let cfg :=
        set_LogLevel (Strings.ToLower (GetDefault agentIni "Main" "log_level" "INFO")) cfg in
      let* cfg :=
        let '(p, err) := getProxySettings section in
        let cfg := set_proxy p cfg in
        when (negb (is_nil err))
             (log Error "error parsing proxy settings, not using a proxy: %s") ;;
        ret cfg in
      let cfg :=
        let v := match Get agentIni "Main" "process_agent_enabled" with
                 | inl v => v | inr _ => "" end in
        let '(enabled, err) := isAffirmative v in
        if enabled then set_EnabledChecks processChecks (set_Enabled true cfg)
        else if negb enabled && is_nil err then set_Enabled false cfg
        else cfg in
      let cfg :=
        set_StatsdHost (GetDefault agentIni "Main" "bind_host" (StatsdHost cfg)) cfg in
      let cfg :=
        let v := match Get agentIni "Main" "non_local_traffic" with
                 | inl v => v | inr _ => "" end in
        if fst (isAffirmative v) then set_StatsdHost "0.0.0.0" cfg else cfg in
      let cfg :=
        set_StatsdPort (GetIntDefault agentIni "Main" "dogstatsd_port" (StatsdPort cfg))
                       cfg in
      (* All process-agent specific config lives under [process.config] section. *)
      let e := GetDefault agentIni ns "endpoint" defaultEndpoint in
      match url_Parse sys e with
      | inr _ => ret (inr "invalid endpoint URL: %s")
      | inl u =>
          let cfg := set_APIEndpoint u cfg in
          let cfg := set_QueueSize (GetIntDefault agentIni ns "queue_size" (QueueSize cfg)) cfg in
          let cfg :=
            set_MaxProcFDs (GetIntDefault agentIni ns "max_proc_fds" (MaxProcFDs cfg)) cfg in
          let cfg :=
            set_AllowRealTime (GetBool agentIni ns "allow_real_time" (AllowRealTime cfg))
                              cfg in
          let cfg := set_LogFile (GetDefault agentIni ns "log_file" (LogFile cfg)) cfg in
          let cfg :=
            set_DDAgentPy (GetDefault agentIni ns "dd_agent_py" (DDAgentPy cfg)) cfg in
          let cfg :=
            set_DDAgentPyEnv
              (GetStrArrayDefault agentIni ns "dd_agent_py_env" ","%char (DDAgentPyEnv cfg))
              cfg in
          let blacklistPats := GetStrArrayDefault agentIni ns "blacklist" ","%char [] in
          let cfg := set_Blacklist (iniBlacklist blacklistPats) cfg in
          (* DataScrubber *)
          let cfg :=
            on_scrubber (DataScrubber.set_Enabled (GetBool agentIni ns "scrub_args" true))
                        cfg in
          let customSensitiveWords :=
            GetStrArrayDefault agentIni ns "custom_sensitive_words" ","%char [] in
          let* cfg := addWords customSensitiveWords cfg in
          let cfg :=
            on_scrubber
              (DataScrubber.set_StripAllArguments
                 (GetBool agentIni ns "strip_proc_arguments" false)) cfg in
          let batchSize := GetIntDefault agentIni ns "proc_limit" (MaxPerMessage cfg) in
          let* cfg :=
            if (batchSize <=? maxMessageBatch)%Z then ret (set_MaxPerMessage batchSize cfg)
            else
              log Warn "Overriding the configured item count per message limit because it exceeds maximum" ;;
              ret (set_MaxPerMessage maxMessageBatch cfg) in
          (* Checks intervals can be overriden by configuration. *)
          let* intervals := iniCheckIntervals agentIni (CheckIntervals cfg) in
          let cfg := set_CheckIntervals intervals cfg in
          (* Docker config *)
          let cfg :=
            set_CollectDockerNetwork
              (GetBool agentIni ns "collect_docker_network" (CollectDockerNetwork cfg))
              cfg in
          let cfg :=
            set_ContainerBlacklist
              (GetStrArrayDefault agentIni ns "container_blacklist" ","%char
                                  (ContainerBlacklist cfg)) cfg in
          let cfg :=
            set_ContainerWhitelist
              (GetStrArrayDefault agentIni ns "container_whitelist" ","%char
                                  (ContainerWhitelist cfg)) cfg in
          let cfg :=
            set_ContainerCacheDuration
              (GetDurationDefault agentIni ns "container_cache_duration" Second
                                  (duration 30 Second)) cfg in
          (* windows args config *)
          let cfg :=
            set_Windows
              (WindowsConfig.set_ArgsRefreshInterval
                 (GetIntDefault agentIni ns "windows_args_refresh_interval"
                                (WindowsConfig.ArgsRefreshInterval (Windows cfg)))
                 (Windows cfg)) cfg in
          let cfg :=
            set_Windows
              (WindowsConfig.set_AddNewArgs
                 (GetBool agentIni ns "windows_add_new_args" true) (Windows cfg)) cfg in
          ret (inl cfg)
      end
  end.

(** What [NewAgentConfig] does once the three sources are merged. *)
Definition finishConfig (env : Env) (cfg : AgentConfig.t) : Log (result AgentConfig.t) :=
  (* Python-style log level has WARNING vs WARN *)
  let cfg :=
    if String.eqb (Strings.ToLower (LogLevel cfg)) "warning"
    then set_LogLevel "warn" cfg else cfg in
  (* (Re)configure the logging from our configuration *)
  match NewLoggerLevel sys (LogLevel cfg) (LogFile cfg) (LogToConsole cfg) with
  | Some err => ret (inr err)
  | None =>
      let* cfg :=
        if Str.is_empty (HostName cfg) then
          if IsFargateInstance sys then
            match GetTaskMetadata sys with
            | inl taskARN => ret (set_HostName ("fargate_task:" +:+ taskARN) cfg)
            | inr _ =>
                log Error "Failed to retrieve Fargate task metadata: %s" ;;
                ret cfg
            end
          else
            let* h := getHostname env (DDAgentPy cfg) (DDAgentBin cfg) (DDAgentPyEnv cfg) in
            match h with
            | inl hostname => ret (set_HostName hostname cfg)
            | inr _ => ret cfg
            end
        else ret cfg in
      let cfg :=
        match proxy cfg with
        | Some p => set_Transport (mkTransport (FromAgentUtil (Transport cfg)) (Some p)) cfg
        | None => cfg
        end in
      let* cfg :=
        if (WindowsConfig.ArgsRefreshInterval (Windows cfg) =? 0)%Z then
          log Warn "invalid configuration: windows_collect_skip_new_args was set to 0.  Disabling argument collection" ;;
          ret (set_Windows (WindowsConfig.set_ArgsRefreshInterval (-1) (Windows cfg)) cfg)
        else ret cfg in
      ret (inl cfg)
  end.

(** [NewAgentConfig(agentIni, agentYaml)]; a file that is not there is
    [None]. *)
Definition NewAgentConfig (env : Env) (agentIni : option File)
           (agentYaml : option YamlAgentConfig.t) : Log (outcome AgentConfig.t) :=
  let* d := NewDefaultAgentConfig env in
  match d with
  | Panicked err => ret (Panicked err)
  | Failed err => ret (Failed err)
  | Ok (cfg, env) =>
      let section := agentIni ≫= fun f => GetSection f "Main" in
      (* Pull from the ini Agent config by default. *)
      let* r :=
        match agentIni, section with
        | Some f, Some m => iniConfig f m cfg
        | _, _ => ret (inl cfg)
        end in
      match r with
      | inr err => ret (Failed err)
      | inl cfg =>
          (* For Agents >= 6 we will have a YAML config file to use. *)
          let* r :=
            match agentYaml with
            | Some yc => mergeYamlConfig cfg yc
            | None => ret (inl cfg)
            end in
          match r with
          | inr err => ret (Failed err)
          | inl cfg =>
              (* Use environment to override any additional config. *)
              let* cfg := mergeEnvironmentVariables env cfg in
              let* r := finishConfig env cfg in
              match r with
              | inr err => ret (Failed err)
              | inl cfg => ret (Ok cfg)
              end
          end
      end
  end.

End Resolver.

(** ** A reference host

    An instance of [Sys] to run the resolver on concrete inputs.  Its
    [url.Parse] follows the library step by step (control bytes, scheme,
    opaque part, the colon rule for a first path segment, authority with
    user-info and port, path) on every text that has no query, no fragment,
    no percent sign outside the user-info and no bracketed host; a text
    with one of these is outside what it models and is answered with the
    error [unsupported]. *)

Module Host.

Definition is_alpha (c : ascii) : bool :=
  let n := Str.code c in
  (((97 <=? n) && (n <=? 122)) || ((65 <=? n) && (n <=? 90)))%N.

Definition is_digit (c : ascii) : bool :=
  let n := Str.code c in ((48 <=? n) && (n <=? 57))%N.

Definition one_of (set : string) (c : ascii) : bool :=
  existsb (Str.byte_eqb c) (Str.bytes set).

Definition unsupported : error := "unsupported URL shape".

(** [stringContainsCTLByte] *)
Definition is_ctl (c : ascii) : bool :=
  let n := Str.code c in ((n <? 32) || (n =? 127))%N.

(** The bytes [shouldEscape(c, encodeHost)] lets through in a host name;
    the last one is the double quote. *)
Definition host_byte (c : ascii) : bool :=
  is_alpha c || is_digit c || one_of "-_.~!$&'()*+,;=:[]<>" c
  || (Str.code c =? 34)%N || (128 <=? Str.code c)%N.

Fixpoint last_index (c : ascii) (s : string) : option nat :=
  match s with
  | EmptyString => None
  | String b rest =>
      match last_index c rest with
      | Some i => Some (S i)
      | None => if Str.byte_eqb b c then Some 0%nat else None
      end
  end.

(** [getScheme]: the scheme and what follows its colon; [i] is the offset
    of [s] in [rawurl]. *)
Fixpoint getScheme_from (i : nat) (s rawurl : string) : result (string * string) :=
  match s with
  | EmptyString => inl ("", rawurl)
  | String c rest =>
      if is_alpha c then getScheme_from (S i) rest rawurl
      else if is_digit c || one_of "+-." c then
        match i with
        | O => inl ("", rawurl)
        | S _ => getScheme_from (S i) rest rawurl
        end
      else if Str.byte_eqb c ":"%char then
        match i with
        | O => inr "missing protocol scheme"
        | S _ => inl (Str.take i rawurl, rest)
        end
      else inl ("", rawurl)
  end.

Definition getScheme (rawurl : string) : result (string * string) :=
  getScheme_from 0 rawurl rawurl.

Definition unhex (c : ascii) : option N :=
  let n := Str.code c in
  if ((48 <=? n) && (n <=? 57))%N then Some (n - 48)%N
  else if ((97 <=? n) && (n <=? 102))%N then Some (n - 87)%N
  else if ((65 <=? n) && (n <=? 70))%N then Some (n - 55)%N
  else None.

(** [unescape(s, encodeUserPassword)] *)
Fixpoint unescape (s : string) : result string :=
  match s with
  | EmptyString => inl ""
  | String c rest =>
      if Str.byte_eqb c "%"%char then
        match rest with
        | String h1 (String h2 rest') =>
            match unhex h1, unhex h2, unescape rest' with
            | Some a, Some b, inl r => inl (String (ascii_of_N (16 * a + b)) r)
            | Some _, Some _, inr err => inr err
            | _, _, _ => inr "invalid URL escape"
            end
        | _ => inr "invalid URL escape"
        end
      else
        match unescape rest with
        | inl r => inl (String c r)
        | inr err => inr err
        end
  end.

(** [validUserinfo] *)
Definition validUserinfo (s : string) : bool :=
  forallb (fun c => is_alpha c || is_digit c || one_of "-._:~!$&'()*+,;=%@" c)
          (Str.bytes s).

(** [parseHost], without the bracketed form: the port is looked at before
    the bytes of the name. *)
Definition parseHost (host : string) : result string :=
  if Str.HasPrefix host "[" || existsb (Str.byte_eqb "%"%char) (Str.bytes host)
  then inr unsupported
  else
    let port_ok :=
      match last_index ":"%char host with
      | Some i => forallb is_digit (Str.bytes (Str.drop (S i) host))
      | None => true
      end in
    if negb port_ok then inr "invalid port after host"
    else if negb (forallb host_byte (Str.bytes host))
    then inr "invalid character in host name"
    else inl host.

(** [parseAuthority]: the host is parsed before the user-info. *)
Definition parseAuthority (authority : string) : result (option Userinfo * string) :=
  let i := last_index "@"%char authority in
  let hostport :=
    match i with
    | Some j => Str.drop (S j) authority
    | None => authority
    end in
  match parseHost hostport, i with
  | inr err, _ => inr err
  | inl host, None => inl (None, host)
  | inl host, Some j =>
      let userinfo := Str.take j authority in
      if negb (validUserinfo userinfo) then inr "net/url: invalid userinfo"
      else
        match Str.Index userinfo ":" with
        | None =>
            match unescape userinfo with
            | inl u => inl (Some (url_User u), host)
            | inr err => inr err
            end
        | Some k =>
            match unescape (Str.take k userinfo), unescape (Str.drop (S k) userinfo) with
            | inl u, inl p => inl (Some (url_UserPassword u p), host)
            | inr err, _ => inr err
            | _, inr err => inr err
            end
        end
  end.

(** [setPath] for a path without escapes *)
Definition setPath (scheme : string) (user : option Userinfo) (host path : string)
  : result URL :=
  if existsb (Str.byte_eqb "%"%char) (Str.bytes path) then inr unsupported
  else inl (mkURL scheme "" user host path "" "").

Definition parse (rawurl : string) : result URL :=
  if existsb (one_of "#?") (Str.bytes rawurl) then inr unsupported
  else if existsb is_ctl (Str.bytes rawurl)
  then inr "net/url: invalid control character in URL"
  else
    match getScheme rawurl with
    | inr err => inr err
    | inl (scheme, rest) =>
        let scheme := Strings.ToLower scheme in
        let rooted := Str.HasPrefix rest "/" in
        let segment :=
          match Str.Index rest "/" with
          | Some j => Str.take j rest
          | None => rest
          end in
        if negb rooted && nonempty scheme then inl (mkURL scheme rest None "" "" "" "")
        else if negb rooted && existsb (Str.byte_eqb ":"%char) (Str.bytes segment)
        then inr "first path segment in URL cannot contain colon"
        else if (nonempty scheme || negb (Str.HasPrefix rest "///"))
                && Str.HasPrefix rest "//" then
          let after := Str.drop 2 rest in
          let '(authority, path) :=
            match Str.Index after "/" with
            | Some j => (Str.take j after, Str.drop j after)
            | None => (after, "")
            end in
          match parseAuthority authority with
          | inr err => inr err
          | inl (user, host) => setPath scheme user host path
          end
        else setPath scheme None "" rest
    end.

Definition hex_digit (n : N) : ascii :=
  if (n <? 10)%N then ascii_of_N (48 + n) else ascii_of_N (55 + n).

(** [shouldEscape(c, encodeUserPassword)] *)
Definition should_escape (c : ascii) : bool :=
  negb (is_alpha c || is_digit c || one_of "-_.~$&+,;=" c).

Fixpoint escape (s : string) : string :=
  match s with
  | EmptyString => EmptyString
  | String c rest =>
      if should_escape c then
        let n := Str.code c in
        String "%"%char (String (hex_digit (n / 16)) (String (hex_digit (n mod 16))
                                                              (escape rest)))
      else String c (escape rest)
  end.

Definition userinfo_text (u : Userinfo) : string :=
  match password u with
  | Some p => escape (username u) +:+ ":" +:+ escape p
  | None => escape (username u)
  end.

(** A host outside any container platform, where the agent binary prints
    [agent-host] and every pattern and log setting is accepted. *)
Definition sys : Sys :=
  {| url_Parse := parse;
     Userinfo_String := userinfo_text;
     regexp_Compile_ok := fun _ => true;
     GetContainers_ok := true;
     containerized_with_host := false;
     defaultLogFilePath := "/var/log/datadog/process-agent.log";
     defaultDDAgentPy := "/opt/datadog-agent/embedded/bin/python";
     defaultDDAgentPyEnv := "PYTHONPATH=/opt/datadog-agent/agent";
     defaultDDAgentBin := "/opt/datadog-agent/bin/agent/agent";
     Datadog_GetString := fun _ => "info";
     Datadog_GetInt := fun _ => 8125%Z;
     CreateHTTPTransport := mkTransport true None;
     NewLoggerLevel := fun _ _ _ => None;
     IsFargateInstance := false;
     GetTaskMetadata := inr "not on Fargate";
     Run := fun _ _ _ => (None, "agent-host", "");
     Hostname := inl "os-host" |}.

End Host.

(** * Properties *)

(** ** Computations that log *)

Lemma value_bind {A B} (m : Log A) (f : A -> Log B) :
  value (bind m f) = value (f (value m)).
Proof. unfold value, bind. destruct m as [a l1]. simpl. destruct (f a). reflexivity. Qed.

Lemma written_bind {A B} (m : Log A) (f : A -> Log B) :
  written (bind m f) = written m ++ written (f (value m)).
Proof. unfold written, value, bind. destruct m as [a l1]. simpl. destruct (f a). reflexivity. Qed.

Lemma value_ret {A} (a : A) : value (ret a) = a.
Proof. reflexivity. Qed.

Lemma written_ret {A} (a : A) : written (ret a) = [].
Proof. reflexivity. Qed.

(** ** The replacement loop has fuel enough

    A match never ends before the position it was searched from, so the
    search position grows in every round of [replace_loop], and the rounds
    that [ReplaceAllString] allows are never used up. *)

Lemma repeat_atom_rest (a : atom) (s : list Utf8.token) :
  forall min max k res,
    repeat_atom a min max s k = Some res ->
    exists s', k s' = Some res /\ length s' <= length s.
Proof.
  induction s as [|t s IH]; intros min max k res H.
  - exists []. split; [|reflexivity].
    destruct max as [[|m]|]; destruct min; simpl in H; congruence.
  - assert (Hstop : match min with O => k (t :: s) | S _ => None end = Some res ->
                    exists s', k s' = Some res /\ length s' <= length (t :: s)).
    { intros Hs. destruct min; [|discriminate]. exists (t :: s). auto. }
    assert (Hmore : forall max',
               orelse (repeat_atom a (Nat.pred min) max' s k)
                      (match min with O => k (t :: s) | S _ => None end) = Some res ->
               exists s', k s' = Some res /\ length s' <= length (t :: s)).
    { intros max' Ho. unfold orelse in Ho.
      destruct (repeat_atom a (Nat.pred min) max' s k) eqn:E.
      - injection Ho as ->. destruct (IH _ _ _ _ E) as [s' [Hk Hl]].
        exists s'. split; [exact Hk | simpl; lia].
      - exact (Hstop Ho). }
    destruct max as [[|m]|]; simpl in H.
    + exact (Hstop H).
    + destruct (atom_matches a (Utf8.tok_rune t)); [exact (Hmore _ H) | exact (Hstop H)].
    + destruct (atom_matches a (Utf8.tok_rune t)); [exact (Hmore _ H) | exact (Hstop H)].
Qed.

Lemma run_rest (r : regex) :
  forall s caps k res,
    run r s caps k = Some res ->
    exists s' caps', k s' caps' = Some res /\ length s' <= length s.
Proof.
  induction r as [|a|a min max|r1 IH1 r2 IH2|r1 IH1 r2 IH2|name r1 IH1];
    intros s caps k res H; simpl in H.
  - exists s, caps. auto.
  - destruct s as [|t s']; [discriminate|].
    destruct (atom_matches a (Utf8.tok_rune t)); [|discriminate].
    exists s', caps. split; [exact H | simpl; lia].
  - apply repeat_atom_rest in H. destruct H as [s' [Hk Hl]]. exists s', caps. auto.
  - apply IH1 in H. destruct H as [s1 [c1 [H Hl1]]].
    apply IH2 in H. destruct H as [s2 [c2 [H Hl2]]].
    exists s2, c2. split; [exact H | lia].
  - unfold orelse in H. destruct (run r1 s caps k) eqn:E.
    + injection H as ->. exact (IH1 _ _ _ _ E).
    + exact (IH2 _ _ _ _ H).
  - apply IH1 in H. destruct H as [s1 [c1 [H Hl1]]]. eauto.
Qed.

Lemma search_rest (r : regex) (s : list Utf8.token) :
  forall i caps rest,
    search r s = Some (i, (caps, rest)) -> i + length rest <= length s.
Proof.
  induction s as [|t s IH]; intros i caps rest H; simpl in H.
  - destruct (match_here r []) as [res|] eqn:E; [|discriminate].
    injection H as <- ->. unfold match_here in E. apply run_rest in E.
    destruct E as [s' [c' [[= <- <-] Hl]]]. simpl in *. lia.
  - destruct (match_here r (t :: s)) as [res|] eqn:E.
    + injection H as <- ->. unfold match_here in E. apply run_rest in E.
      destruct E as [s' [c' [[= <- <-] Hl]]]. simpl in *. lia.
    + destruct (search r s) as [[j res]|] eqn:E'; [|discriminate].
      injection H as <- ->. specialize (IH _ _ _ eq_refl). simpl. lia.
Qed.

Lemma doExecute_bounds (r : regex) (src : list Utf8.token) (pos a0 a1 : nat)
      (caps : captures) :
  doExecute r src pos = Some (a0, a1, caps) ->
  pos <= length src -> pos <= a0 /\ a0 <= a1 /\ a1 <= length src.
Proof.
  unfold doExecute. intros H Hpos.
  destruct (search r (drop pos src)) as [[i [c rest]]|] eqn:E; [|discriminate].
  injection H as <- <- <-. apply search_rest in E.
  rewrite length_drop in E. lia.
Qed.

Lemma replace_loop_fuel (r : regex) (template : list piece) (src : list Utf8.token) :
  forall fuel1 fuel2 lastMatchEnd searchPos buf,
    S (length src) - searchPos <= fuel1 ->
    S (length src) - searchPos <= fuel2 ->
    replace_loop fuel1 r template src lastMatchEnd searchPos buf
    = replace_loop fuel2 r template src lastMatchEnd searchPos buf.
Proof.
  induction fuel1 as [|fuel1 IH]; intros fuel2 lastMatchEnd searchPos buf H1 H2.
  - assert (Hlt : (length src <? searchPos)%nat = true) by (apply Nat.ltb_lt; lia).
    destruct fuel2; simpl; [reflexivity | rewrite Hlt; reflexivity].
  - simpl. destruct (length src <? searchPos)%nat eqn:Hlt.
    + destruct fuel2; simpl; [reflexivity | rewrite Hlt; reflexivity].
    + apply Nat.ltb_ge in Hlt.
      destruct fuel2 as [|fuel2]; [lia|].
      simpl. rewrite (proj2 (Nat.ltb_ge _ _) Hlt).
      destruct (doExecute r src searchPos) as [[[a0 a1] caps]|] eqn:E; [|reflexivity].
      apply doExecute_bounds in E; [|exact Hlt].
      apply IH;
        repeat match goal with
               | |- context [(?x <? ?y)%nat] => destruct (Nat.ltb_spec x y)
               end; lia.
Qed.

(** More rounds than [ReplaceAllString] allows change nothing. *)
Lemma ReplaceAllString_fuel (r : regex) (s : string) (template : list piece) (extra : nat) :
  ReplaceAllString r s template
  = replace_loop (S (length (Utf8.tokens s)) + extra) r template (Utf8.tokens s) 0 0 "".
Proof. unfold ReplaceAllString. apply replace_loop_fuel; lia. Qed.

(** ** The pattern compiler *)

(** The three reasons the specification gives for rejecting a word. *)
Definition has_forbidden_byte (w : string) : Prop :=
  exists c, In c (Str.bytes w) /\ allowed_byte c = false.

Definition consecutive_wildcards (w : string) : Prop :=
  exists i, Str.bytes w !! i = Some star /\ Str.bytes w !! S i = Some star.

Definition rejected (w : string) : Prop :=
  has_forbidden_byte w \/ w = "*" \/ consecutive_wildcards w.

Definition matcher_of (w : string) : option regex :=
  match compileWord w with inl r => Some r | inr _ => None end.

Definition warning_of (w : string) : option entry :=
  match compileWord w with inl _ => None | inr msg => Some (Entry Warn msg) end.

Lemma is_star_true c : is_star c = true <-> c = star.
Proof. unfold is_star, Str.byte_eqb. apply Ascii.eqb_eq. Qed.

Lemma enhancedWord_None (l : list ascii) :
  enhancedWord l = None <->
  exists i, l !! i = Some star /\ l !! S i = Some star.
Proof.
  induction l as [|c rest IH]; simpl.
  - split; [discriminate | intros [i [H _]]; discriminate].
  - destruct (is_star c) eqn:Hc.
    + apply is_star_true in Hc. subst c.
      destruct rest as [|next tl].
      * split; [discriminate | intros [[|i] [_ H]]; discriminate].
      * destruct (is_star next) eqn:Hn.
        -- apply is_star_true in Hn. subst next.
           split; [intros _; exists 0%nat; auto | reflexivity].
        -- split.
           ++ intros H. destruct (enhancedWord (next :: tl)) eqn:E; [discriminate|].
              destruct IH as [IH _]. destruct (IH eq_refl) as [i Hi].
              exists (S i). exact Hi.
           ++ intros [[|i] [H0 H1]].
              ** simpl in H1. injection H1 as ->.
                 rewrite (proj2 (is_star_true star) eq_refl) in Hn. discriminate.
              ** destruct IH as [_ IH]. rewrite IH; [reflexivity|].
                 exists i. auto.
    + split.
      * intros H. destruct (enhancedWord rest) eqn:E; [discriminate|].
        destruct IH as [IH _]. destruct (IH eq_refl) as [i Hi].
        exists (S i). exact Hi.
      * intros [[|i] [H0 H1]].
        -- simpl in H0. injection H0 as ->.
           rewrite (proj2 (is_star_true star) eq_refl) in Hc. discriminate.
        -- destruct IH as [_ IH]. rewrite IH; [reflexivity|].
           exists i. auto.
Qed.

Lemma forbiddenSymbols_spec (w : string) :
  forbiddenSymbols_MatchString w = true <-> has_forbidden_byte w.
Proof.
  unfold forbiddenSymbols_MatchString, has_forbidden_byte.
  rewrite existsb_exists. split; intros [c [Hin Hc]]; exists c; split; auto.
  - apply negb_true_iff. exact Hc.
  - apply negb_true_iff. exact Hc.
Qed.

Lemma compileWord_rejected (w : string) :
  rejected w <-> exists msg, compileWord w = inr msg.
Proof.
  unfold rejected, compileWord.
  destruct (forbiddenSymbols_MatchString w) eqn:Hf.
  { split; [eauto | intros _; left; apply forbiddenSymbols_spec; exact Hf]. }
  assert (Hnf : ~ has_forbidden_byte w).
  { intros H. apply forbiddenSymbols_spec in H. congruence. }
  destruct (String.eqb w "*") eqn:Hs.
  { apply String.eqb_eq in Hs. split; [eauto | intros _; right; left; exact Hs]. }
  apply String.eqb_neq in Hs.
  destruct (enhancedWord (Str.bytes w)) eqn:He.
  - split.
    + intros [H | [H | H]]; [contradiction | contradiction |].
      apply enhancedWord_None in H. congruence.
    + intros [msg H]. discriminate.
  - split; [eauto |]. intros _. right; right. apply enhancedWord_None. exact He.
Qed.

Lemma compileStringsToRegex_cons (w : string) (rest : list string) :
  compileStringsToRegex (w :: rest) =
  match compileWord w with
  | inl r => bind (compileStringsToRegex rest) (fun rs => ret (r :: rs))
  | inr warning => bind (log Warn warning) (fun _ => compileStringsToRegex rest)
  end.
Proof. reflexivity. Qed.

Lemma omap_cons_case {A B} (f : A -> option B) (x : A) (l : list A) :
  omap f (x :: l) = match f x with Some y => y :: omap f l | None => omap f l end.
Proof. reflexivity. Qed.

Lemma compileStringsToRegex_value (words : list string) :
  value (compileStringsToRegex words) = omap matcher_of words.
Proof.
  induction words as [|w rest IH]; [reflexivity|].
  rewrite compileStringsToRegex_cons, omap_cons_case.
  unfold matcher_of at 1. destruct (compileWord w).
  - rewrite value_bind, value_ret, IH. reflexivity.
  - rewrite value_bind, IH. reflexivity.
Qed.

Lemma compileStringsToRegex_written (words : list string) :
  written (compileStringsToRegex words) = omap warning_of words.
Proof.
  induction words as [|w rest IH]; [reflexivity|].
  rewrite compileStringsToRegex_cons, omap_cons_case.
  unfold warning_of at 1. destruct (compileWord w).
  - rewrite written_bind, written_ret, app_nil_r, IH. reflexivity.
  - rewrite written_bind, IH. reflexivity.
Qed.

(** C6.  [compileStringsToRegex] is total.  A word with a byte outside
    [A-Za-z0-9_*], the word [*] and a word with two consecutive [*] yield no
    matcher, only a warning; every other word yields a matcher; the output
    holds the matchers of the accepted words in input order, whatever the
    other words of the batch are, and one warning is written per rejected
    word. *)
Theorem compileStringsToRegex_skips_rejected_words (words : list string) :
  value (compileStringsToRegex words) = omap matcher_of words
  /\ written (compileStringsToRegex words) = omap warning_of words
  /\ (forall w, rejected w ->
        matcher_of w = None /\ exists msg, warning_of w = Some (Entry Warn msg))
  /\ (forall w, ~ rejected w ->
        warning_of w = None /\ exists r, matcher_of w = Some r).
Proof.
  split; [apply compileStringsToRegex_value|].
  split; [apply compileStringsToRegex_written|].
  split; intros w Hw.
  - apply compileWord_rejected in Hw. destruct Hw as [msg Hw].
    unfold matcher_of, warning_of. rewrite Hw. eauto.
  - unfold matcher_of, warning_of. destruct (compileWord w) eqn:E; [eauto|].
    exfalso. apply Hw. apply compileWord_rejected. eauto.
Qed.

Lemma compileStringsToRegex_skips_rejected_words_witness :
  let words := ["*password*"; "a**b"; "*"; "consul-token"; "consul_token"] in
  rejected "a**b" /\ rejected "*" /\ rejected "consul-token"
  /\ ~ rejected "*password*" /\ ~ rejected "consul_token"
  /\ value (compileStringsToRegex words)
     = omap matcher_of ["*password*"; "consul_token"]
  /\ length (written (compileStringsToRegex words)) = 3%nat.
Proof.
  intros words.
  destruct (compileStringsToRegex_skips_rejected_words words) as (Hv & Hw & Hrej & Hacc).
  assert (R1 : rejected "a**b").
  { right; right. exists 1%nat. split; reflexivity. }
  assert (R2 : rejected "*") by (right; left; reflexivity).
  assert (R3 : rejected "consul-token").
  { left. exists "-"%char. split; [simpl; tauto | reflexivity]. }
  assert (A1 : ~ rejected "*password*").
  { intros H. apply compileWord_rejected in H. destruct H as [msg H].
    vm_compute in H. discriminate. }
  assert (A2 : ~ rejected "consul_token").
  { intros H. apply compileWord_rejected in H. destruct H as [msg H].
    vm_compute in H. discriminate. }
  split; [exact R1|]. split; [exact R2|]. split; [exact R3|].
  split; [exact A1|]. split; [exact A2|]. split.
  - rewrite Hv. unfold words. rewrite !omap_cons_case.
    rewrite (proj1 (Hrej _ R1)), (proj1 (Hrej _ R2)), (proj1 (Hrej _ R3)).
    destruct (proj2 (Hacc _ A1)) as [r1 ->].
    destruct (proj2 (Hacc _ A2)) as [r2 ->].
    reflexivity.
  - rewrite Hw. reflexivity.
Defined.

(** ** The scrubber *)

Import DataScrubber.

Lemma scrub_loop_no_match (patterns : list regex) (rawCmdline : string) (changed : bool) :
  Forall (fun p => MatchString p rawCmdline = false) patterns ->
  scrub_loop patterns rawCmdline changed = (rawCmdline, changed).
Proof.
  induction 1 as [|p rest Hp _ IH]; simpl; [reflexivity|].
  rewrite Hp. exact IH.
Qed.

Lemma no_match_forallb (patterns : list regex) (rawCmdline : string) :
  forallb (fun p => negb (MatchString p rawCmdline)) patterns = true ->
  Forall (fun p => MatchString p rawCmdline = false) patterns.
Proof.
  induction patterns as [|p rest IH]; simpl; [constructor|].
  intros H. apply andb_prop in H. destruct H as [Hp Hrest].
  constructor; [apply negb_true_iff; exact Hp | exact (IH Hrest)].
Qed.

(** C1.  With the custom words [*password*], [consul_token] and [*api_key]
    added to the default list, the command line of the test is scrubbed to
    the expected five tokens. *)
Theorem ScrubCmdline_custom_words :
  ScrubCmdline
    (value (let* ds := NewDefaultDataScrubber in
            AddCustomSensitiveWords ds ["*password*"; "consul_token"; "*api_key"]))
    ["spidly"; "--mypasswords=123,456"; "consul_token"; "1234"; "--dd_api_key=1234"]
  = ["spidly"; "--mypasswords=********"; "consul_token"; "********";
     "--dd_api_key=********"].
Proof. vm_compute. reflexivity. Qed.

(** The default scrubber holds the ten matchers of the default words, and
    building it writes no warning. *)
Lemma NewDefaultDataScrubber_patterns :
  SensitivePatterns (value NewDefaultDataScrubber)
  = value (compileStringsToRegex defaultSensitiveWords)
  /\ length (SensitivePatterns (value NewDefaultDataScrubber)) = 10%nat
  /\ written NewDefaultDataScrubber = []
  /\ Enabled (value NewDefaultDataScrubber) = true.
Proof. vm_compute. auto. Qed.



(** C3.  A disabled scrubber returns its input; so does an enabled one when
    none of its patterns matches the tokens joined by single spaces. *)
Theorem ScrubCmdline_identity (ds : DataScrubber.t) (cmdline : list string) :
  (Enabled ds = false -> ScrubCmdline ds cmdline = cmdline)
  /\ (Enabled ds = true ->
      Forall (fun p => MatchString p (Str.Join cmdline " ") = false)
             (SensitivePatterns ds) ->
      ScrubCmdline ds cmdline = cmdline).
Proof.
  unfold ScrubCmdline. split.
  - intros ->. reflexivity.
  - intros -> H. simpl. rewrite (scrub_loop_no_match _ _ _ H). reflexivity.
Qed.

Lemma ScrubCmdline_identity_witness :
  let disabled := set_Enabled false (value NewDefaultDataScrubber) in
  ScrubCmdline disabled ["agent"; "--password=1234"] = ["agent"; "--password=1234"]
  /\ ScrubCmdline (value NewDefaultDataScrubber) ["spidly"; "--debug_port=2043"]
     = ["spidly"; "--debug_port=2043"].
Proof.
  split.
  - apply (proj1 (ScrubCmdline_identity _ _)). vm_compute. reflexivity.
  - apply (proj2 (ScrubCmdline_identity _ _)); [vm_compute; reflexivity|].
    apply no_match_forallb. vm_compute. reflexivity.
Defined.

(** ** Reasoning about a logging computation, one statement at a time *)

Definition post {A} (m : Log A) (Q : A -> list entry -> Prop) : Prop :=
  Q (value m) (written m).

Lemma post_ret {A} (a : A) (Q : A -> list entry -> Prop) : Q a [] -> post (ret a) Q.
Proof. exact (fun H => H). Qed.

Lemma post_let {A B} (e : A) (k : A -> Log B) (P : A -> Prop)
      (Q : B -> list entry -> Prop) :
  P e -> (forall x, P x -> post (k x) Q) -> post (let x := e in k x) Q.
Proof. intros He Hk. exact (Hk e He). Qed.

Lemma post_bind {A B} (m : Log A) (f : A -> Log B) (P : A -> list entry -> Prop)
      (Q : B -> list entry -> Prop) :
  post m P ->
  (forall a l1, P a l1 -> post (f a) (fun b l2 => Q b (l1 ++ l2))) ->
  post (bind m f) Q.
Proof.
  unfold post. intros Hm Hf. rewrite value_bind, written_bind. exact (Hf _ _ Hm).
Qed.

Lemma post_value {A} (m : Log A) (Q : A -> Prop) :
  post m (fun a _ => Q a) -> Q (value m).
Proof. exact (fun H => H). Qed.

(** Projections of records, of updated records and of logging results. *)
Ltac fields :=
  cbn [AgentConfig.Enabled AgentConfig.set_Enabled AgentConfig.APIKey
       AgentConfig.set_APIKey AgentConfig.HostName AgentConfig.set_HostName
       AgentConfig.APIEndpoint AgentConfig.set_APIEndpoint AgentConfig.LogFile
       AgentConfig.set_LogFile AgentConfig.LogLevel AgentConfig.set_LogLevel
       AgentConfig.LogToConsole AgentConfig.set_LogToConsole
       AgentConfig.QueueSize AgentConfig.set_QueueSize AgentConfig.Blacklist
       AgentConfig.set_Blacklist AgentConfig.Scrubber AgentConfig.set_Scrubber
       AgentConfig.MaxProcFDs AgentConfig.set_MaxProcFDs
       AgentConfig.MaxPerMessage AgentConfig.set_MaxPerMessage
       AgentConfig.AllowRealTime AgentConfig.set_AllowRealTime
       AgentConfig.Transport AgentConfig.set_Transport AgentConfig.DDAgentPy
       AgentConfig.set_DDAgentPy AgentConfig.DDAgentBin
       AgentConfig.set_DDAgentBin AgentConfig.DDAgentPyEnv
       AgentConfig.set_DDAgentPyEnv AgentConfig.StatsdHost
       AgentConfig.set_StatsdHost AgentConfig.StatsdPort
       AgentConfig.set_StatsdPort AgentConfig.EnabledChecks
       AgentConfig.set_EnabledChecks AgentConfig.CheckIntervals
       AgentConfig.set_CheckIntervals AgentConfig.ContainerBlacklist
       AgentConfig.set_ContainerBlacklist AgentConfig.ContainerWhitelist
       AgentConfig.set_ContainerWhitelist AgentConfig.CollectDockerNetwork
       AgentConfig.set_CollectDockerNetwork AgentConfig.ContainerCacheDuration
       AgentConfig.set_ContainerCacheDuration AgentConfig.proxy
       AgentConfig.set_proxy AgentConfig.Windows AgentConfig.set_Windows
       WindowsConfig.ArgsRefreshInterval WindowsConfig.AddNewArgs
       WindowsConfig.set_ArgsRefreshInterval WindowsConfig.set_AddNewArgs
       DataScrubber.Enabled DataScrubber.SensitivePatterns
       DataScrubber.StripAllArguments DataScrubber.set_Enabled
       DataScrubber.set_SensitivePatterns DataScrubber.set_StripAllArguments
       value written ret log fst snd app].

(** [side] proves that one statement establishes the intermediate assertion. *)
Ltac side :=
  unfold post; cbv beta zeta;
  repeat case_match;
  unfold addWords, on_scrubber;
  repeat (rewrite ?value_bind, ?written_bind; cbv beta);
  rewrite ?value_ret, ?written_ret;
  fields; auto; try congruence; try lia.

(** One statement of the program: a [let] or a [bind], with the assertion
    [P] on the configuration it leaves. *)
Ltac statement_by P tac :=
  lazymatch goal with
  | |- post (let x := ?e in @?k x) ?Q =>
      refine (post_let e k P Q _ _); [solve [tac] | intros ? ?]
  | |- post (bind ?m ?f) ?Q =>
      refine (post_bind m f (fun a _ => P a) Q _ _); [solve [tac] | intros ? ? ?]
  end;
  cbv beta.

Ltac statement P := statement_by P side.

(** A statement that binds something else than the configuration. *)
Ltac pass :=
  lazymatch goal with
  | |- post (let x := ?e in @?k x) ?Q =>
      refine (post_let e k (fun _ => True) Q _ _); [exact I | intros ? _]
  | |- post (bind ?m ?f) ?Q =>
      refine (post_bind m f (fun _ _ => True) Q _ _); [exact I | intros ? ? _]
  end;
  cbv beta.

(** Unfold a definition and keep its [let]s. *)
Tactic Notation "open" reference(f) := cbv delta [f]; cbv beta.

Section ProxyProperties.

Variable sys : Sys.

Import AgentConfig.

Lemma getProxySettings_no_host (m : IniSection) :
  Key_MustString m "proxy_host" "" = "" ->
  getProxySettings sys m = (None, None).
Proof. intros H. unfold getProxySettings. rewrite H. reflexivity. Qed.

Lemma constructProxy_constant host scheme port user pass p :
  fst (constructProxy sys host scheme port user pass) = Some p ->
  exists u, p = http_ProxyURL u.
Proof.
  unfold constructProxy. destruct (url_Parse sys _); simpl; [|discriminate].
  intros [= <-]. eauto.
Qed.

(** C7.  With [proxy_host = myhost] and nothing else set (the port reads as
    the sentinel -1), the selector sends every request to the URL that
    [http://myhost:3128] parses to; an empty host gives no proxy and no
    error; and whatever the settings, a selector that is returned gives
    one answer for all requests. *)
Theorem getProxySettings_myhost (m : IniSection) (u : URL) :
  Key_MustString m "proxy_host" "" = "myhost" ->
  Key_MustInt m "proxy_port" (-1) = (-1)%Z ->
  Key_MustString m "proxy_user" "" = "" ->
  Key_MustString m "proxy_password" "" = "" ->
  url_Parse sys "http://myhost:3128" = inl u ->
  (exists p, getProxySettings sys m = (Some p, None)
             /\ forall req, p req = (Some u, None))
  /\ (forall m', Key_MustString m' "proxy_host" "" = "" ->
                 getProxySettings sys m' = (None, None))
  /\ (forall m' p, fst (getProxySettings sys m') = Some p ->
                   forall req1 req2, p req1 = p req2).
Proof.
  intros Hhost Hport Huser Hpass Hparse. split; [|split].
  - exists (http_ProxyURL u). split; [|reflexivity].
    unfold getProxySettings. rewrite Hhost, Hport, Huser, Hpass. cbn.
    unfold constructProxy. cbn.
    change ("http" +:+ "://" +:+ "myhost" +:+ ":" +:+ "3128") with "http://myhost:3128".
    rewrite Hparse. reflexivity.
  - apply getProxySettings_no_host.
  - intros m' p Hp req1 req2. unfold getProxySettings in Hp.
    repeat case_match; simpl in Hp; try discriminate.
    all: apply constructProxy_constant in Hp; destruct Hp as [u' ->]; reflexivity.
Qed.

(** C10.  Without [PROXY_HOST] (unset, or set to the empty string)
    [proxyFromEnv] hands back its argument with no error, whatever the
    other three variables hold, and the environment stage leaves the proxy
    of the configuration as it was. *)
Theorem proxyFromEnv_without_host (env : Env) (defaultVal : option proxyFunc) :
  env !! "PROXY_HOST" = None \/ env !! "PROXY_HOST" = Some "" ->
  proxyFromEnv sys env defaultVal = (defaultVal, None)
  /\ forall c, proxy (value (mergeEnvironmentVariables sys env c)) = proxy c.
Proof.
  intros H.
  assert (Hhost : Getenv env "PROXY_HOST" = "").
  { unfold Getenv. destruct H as [-> | ->]; reflexivity. }
  assert (Hp : forall d, proxyFromEnv sys env d = (d, None)).
  { intros d. unfold proxyFromEnv. rewrite Hhost. reflexivity. }
  split; [apply Hp|].
  intros c.
  apply (post_value _ (fun c' => proxy c' = proxy c)).
  open mergeEnvironmentVariables.
  do 2 statement (fun x => proxy x = proxy c). do 2 pass.
  do 5 statement (fun x => proxy x = proxy c).
  refine (post_bind _ _ (fun a _ => proxy a = proxy c) _ _ _).
  { unfold post. rewrite Hp. cbn. assumption. }
  intros ? ? ?. cbv beta.
  repeat statement (fun x => proxy x = proxy c).
  apply post_ret. assumption.
Qed.

Definition proxy_error_entry : entry :=
  Entry Error "error parsing proxy settings, not using a proxy: %s".

(** What the last steps of [NewAgentConfig] do when no proxy is configured:
    the transport is the one they were given. *)
Lemma finishConfig_without_proxy (env : Env) (cfg c : AgentConfig.t) :
  proxy cfg = None ->
  value (finishConfig sys env cfg) = inl c ->
  proxy c = None /\ Transport c = Transport cfg.
Proof.
  intros Hp. revert c.
  change (post (finishConfig sys env cfg)
               (fun r _ => forall c, r = inl c ->
                                     proxy c = None /\ Transport c = Transport cfg)).
  open finishConfig.
  statement (fun x => proxy x = None /\ Transport x = Transport cfg).
  destruct (NewLoggerLevel sys _ _ _); [apply post_ret; intros c' [=]|].
  statement_by (fun x => proxy x = None /\ Transport x = Transport cfg)
               ltac:(unfold post; repeat case_match;
                     repeat (rewrite ?value_bind; cbv beta);
                     repeat case_match; fields; auto).
  statement_by (fun x => proxy x = None /\ Transport x = Transport cfg)
               ltac:(cbv beta in *;
                     match goal with
                     | H : proxy _ = None /\ _ |- _ =>
                         let Hq := fresh in
                         let Ht := fresh in
                         destruct H as [Hq Ht]; rewrite Hq; cbv beta iota;
                         split; [exact Hq | exact Ht]
                     end).
  repeat statement (fun x => proxy x = None /\ Transport x = Transport cfg).
  apply post_ret. intros c' [= <-]. assumption.
Qed.

(** C8, amended.  When the proxy settings of the environment do not parse
    into a URL, the environment stage still returns a configuration and an
    error-level entry is logged.  The proxy selector of the configuration is
    set to nil, whatever an earlier stage had resolved, so the last steps of
    the resolution install no selector on the transport.  The transport
    itself is changed neither by the environment stage nor by those last
    steps: a proxy that it already carries stays in use. *)
Theorem mergeEnvironmentVariables_proxy_error
        (env : Env) (c : AgentConfig.t) (err : error) :
  snd (proxyFromEnv sys env (proxy c)) = Some err ->
  let c' := value (mergeEnvironmentVariables sys env c) in
  proxy c' = None
  /\ In proxy_error_entry (written (mergeEnvironmentVariables sys env c))
  /\ Transport c' = Transport c
  /\ (forall env' cfg, value (finishConfig sys env' c') = inl cfg ->
                       proxy cfg = None /\ Transport cfg = Transport c).
Proof.
  intros Herr. cbv zeta.
  assert (H : proxy (value (mergeEnvironmentVariables sys env c)) = None
              /\ Transport (value (mergeEnvironmentVariables sys env c)) = Transport c
              /\ In proxy_error_entry (written (mergeEnvironmentVariables sys env c))).
  { change (post (mergeEnvironmentVariables sys env c)
                 (fun c' l => proxy c' = None /\ Transport c' = Transport c
                              /\ In proxy_error_entry l)).
    open mergeEnvironmentVariables.
    do 2 statement (fun x => proxy x = proxy c /\ Transport x = Transport c). do 2 pass.
    do 5 statement (fun x => proxy x = proxy c /\ Transport x = Transport c).
    refine (post_bind _ _ (fun a l => proxy a = None /\ Transport a = Transport c
                                      /\ In proxy_error_entry l) _ _ _).
    { unfold post.
      match goal with
      | H : proxy _ = proxy c /\ Transport _ = Transport c |- _ =>
          destruct H as [Hp Ht]; rewrite Hp
      end.
      destruct (proxyFromEnv sys env (proxy c)) as [p e]. simpl in Herr. subst e.
      rewrite value_bind, written_bind. fields.
      split; [reflexivity | split; [exact Ht | left; reflexivity]]. }
    intros ? ? (? & ? & ?). cbv beta.
    repeat statement (fun x => proxy x = None /\ Transport x = Transport c).
    apply post_ret.
    match goal with H : _ /\ _ |- _ => destruct H as [? ?] end.
    split; [assumption | split; [assumption|]].
    rewrite !in_app_iff. tauto. }
  destruct H as (Hp & Ht & Hl).
  split; [exact Hp | split; [exact Hl | split; [exact Ht|]]].
  intros env' cfg Hc.
  destruct (finishConfig_without_proxy env' _ cfg Hp Hc) as [Hq Hu].
  split; [exact Hq | rewrite Hu; exact Ht].
Qed.

End ProxyProperties.

Definition myhost_section : IniSection := {[ "proxy_host" := "myhost" ]}.

Definition myhost_url : URL := mkURL "http" "" None "myhost:3128" "" "" "".

Lemma getProxySettings_myhost_witness :
  Key_MustString myhost_section "proxy_host" "" = "myhost"
  /\ Key_MustInt myhost_section "proxy_port" (-1) = (-1)%Z
  /\ exists p, getProxySettings Host.sys myhost_section = (Some p, None)
               /\ forall req, p req = (Some myhost_url, None).
Proof.
  split; [vm_compute; reflexivity|]. split; [vm_compute; reflexivity|].
  apply (getProxySettings_myhost Host.sys myhost_section myhost_url);
    vm_compute; reflexivity.
Defined.

(** A proxy an earlier stage resolved, and an environment that names a port
    and a user but no host. *)
Definition file_proxy : proxyFunc := http_ProxyURL (mkURL "http" "" None "fileproxy:3128" "" "" "").

Definition env_without_host : Env :=
  {[ "PROXY_PORT" := "3129"; "PROXY_USER" := "aaditya"; "PROXY_PASSWORD" := "password_12" ]}.

Lemma proxyFromEnv_without_host_witness :
  env_without_host !! "PROXY_HOST" = None
  /\ proxyFromEnv Host.sys env_without_host (Some file_proxy) = (Some file_proxy, None).
Proof.
  split; [vm_compute; reflexivity|].
  apply (proxyFromEnv_without_host Host.sys env_without_host (Some file_proxy)).
  left. vm_compute. reflexivity.
Defined.

(** The zero value of [AgentConfig], and a configuration that holds nothing
    but the proxy of an earlier stage. *)
Definition blank_config : AgentConfig.t :=
  AgentConfig.Make false "" "" (mkURL "" "" None "" "" "" "") "" "" false 0 []
                   (DataScrubber.Make false [] false) 0 0 false (mkTransport false None)
                   "" "" [] "" 0 [] ∅ [] [] false 0 None (WindowsConfig.Make 0 false).

Definition config_with_file_proxy : AgentConfig.t :=
  AgentConfig.set_proxy (Some file_proxy) blank_config.

(** A legacy file that configures a proxy, and an environment whose proxy
    host holds a space, which [url.Parse] rejects in a host name. *)
Definition ini_with_proxy : File :=
  {[ "Main" := {[ "api_key" := "apikey_12"; "proxy_host" := "fileproxy" ]} ]}.

Definition env_bad_proxy : Env := {[ "PROXY_HOST" := "my host" ]}.

(** C8, as stated, fails: the proxy resolved from the legacy file is there
    when the environment is empty, and is gone, from the configuration and
    from the transport, when the environment holds proxy settings that do
    not parse. *)
Lemma bad_env_proxy_clears_file_proxy :
  (exists cfg, value (NewAgentConfig Host.sys ∅ (Some ini_with_proxy) None) = Ok cfg
               /\ is_Some (AgentConfig.proxy cfg))
  /\ (exists cfg,
         value (NewAgentConfig Host.sys env_bad_proxy (Some ini_with_proxy) None) = Ok cfg
         /\ AgentConfig.proxy cfg = None
         /\ Proxy (AgentConfig.Transport cfg) = None)
  /\ ~ (forall c, is_Some (AgentConfig.proxy c) ->
          AgentConfig.proxy (value (mergeEnvironmentVariables Host.sys env_bad_proxy c))
          = AgentConfig.proxy c).
Proof.
  split; [|split].
  - vm_compute. eexists. split; [reflexivity | eexists; reflexivity].
  - vm_compute. eexists. split; [reflexivity | split; reflexivity].
  - intros H.
    specialize (H config_with_file_proxy (ex_intro _ file_proxy eq_refl)).
    vm_compute in H. discriminate H.
Qed.

(** A configuration whose transport already carries a proxy, as the one
    the structured-file stage creates can. *)
Definition config_with_transport_proxy : AgentConfig.t :=
  AgentConfig.set_Transport (mkTransport true (Some file_proxy)) config_with_file_proxy.

Lemma mergeEnvironmentVariables_proxy_error_witness :
  snd (proxyFromEnv Host.sys env_bad_proxy (AgentConfig.proxy config_with_transport_proxy))
  = Some "invalid character in host name"
  /\ AgentConfig.proxy
       (value (mergeEnvironmentVariables Host.sys env_bad_proxy config_with_transport_proxy))
     = None
  /\ In proxy_error_entry
        (written (mergeEnvironmentVariables Host.sys env_bad_proxy
                                            config_with_transport_proxy))
  /\ Proxy (AgentConfig.Transport
              (value (mergeEnvironmentVariables Host.sys env_bad_proxy
                                                config_with_transport_proxy)))
     = Some file_proxy.
Proof.
  assert (Herr : snd (proxyFromEnv Host.sys env_bad_proxy
                        (AgentConfig.proxy config_with_transport_proxy))
                 = Some "invalid character in host name")
    by (vm_compute; reflexivity).
  destruct (mergeEnvironmentVariables_proxy_error Host.sys env_bad_proxy
              config_with_transport_proxy _ Herr) as (Hp & Hl & Ht & _).
  refine (conj Herr (conj Hp (conj Hl _))).
  rewrite Ht. reflexivity.
Defined.

(** ** The structured-file stage *)

Section YamlProperties.

Variable sys : Sys.

Import AgentConfig.

(** The check intervals after the structured-file stage: every interval
    the file sets is written, in the order of the source. *)
Definition yamlIntervals (yc : YamlAgentConfig.t) (m : gmap string Z) : gmap string Z :=
  let m :=
    if negb (YamlAgentConfig.Process_Intervals_Container yc =? 0)%Z
    then <["container" :=
             duration (YamlAgentConfig.Process_Intervals_Container yc) Second]> m
    else m in
  let m :=
    if negb (YamlAgentConfig.Process_Intervals_ContainerRealTime yc =? 0)%Z
    then <["rtcontainer" :=
             duration (YamlAgentConfig.Process_Intervals_ContainerRealTime yc) Second]> m
    else m in
  let m :=
    if negb (YamlAgentConfig.Process_Intervals_Process yc =? 0)%Z
    then <["process" :=
             duration (YamlAgentConfig.Process_Intervals_Process yc) Second]> m
    else m in
  if negb (YamlAgentConfig.Process_Intervals_ProcessRealTime yc =? 0)%Z
  then <["rtprocess" :=
           duration (YamlAgentConfig.Process_Intervals_Process yc) Second]> m
  else m.

Lemma mergeYamlConfig_CheckIntervals (agentConf : AgentConfig.t)
      (yc : YamlAgentConfig.t) (c : AgentConfig.t) :
  value (mergeYamlConfig sys agentConf yc) = inl c ->
  CheckIntervals c = yamlIntervals yc (CheckIntervals agentConf).
Proof.
  revert c.
  change (post (mergeYamlConfig sys agentConf yc)
               (fun r _ => forall c, r = inl c ->
                  CheckIntervals c = yamlIntervals yc (CheckIntervals agentConf))).
  unfold yamlIntervals.
  set (m0 := CheckIntervals agentConf).
  set (m1 := if negb (YamlAgentConfig.Process_Intervals_Container yc =? 0)%Z
             then _ else m0).
  set (m2 := if negb (YamlAgentConfig.Process_Intervals_ContainerRealTime yc =? 0)%Z
             then _ else m1).
  set (m3 := if negb (YamlAgentConfig.Process_Intervals_Process yc =? 0)%Z
             then _ else m2).
  set (m4 := if negb (YamlAgentConfig.Process_Intervals_ProcessRealTime yc =? 0)%Z
             then _ else m3).
  cbv zeta.
  open mergeYamlConfig.
  do 2 statement (fun x => CheckIntervals x = m0).
  lazymatch goal with
  | |- post (let x := ?e in @?k x) ?Q =>
      refine (post_let e k (fun r => forall c, r = inl c -> CheckIntervals c = m0) Q _ _)
  end.
  { repeat case_match; intros c' [= <-]; fields; assumption. }
  intros [c1 | err] Hend; cbv beta.
  2: { apply post_ret. intros c' [=]. }
  specialize (Hend c1 eq_refl).
  do 2 statement (fun x => CheckIntervals x = m0).
  statement_by (fun x => CheckIntervals x = m1) ltac:(unfold m1; side).
  statement_by (fun x => CheckIntervals x = m2) ltac:(unfold m2; side).
  statement_by (fun x => CheckIntervals x = m3) ltac:(unfold m3; side).
  statement_by (fun x => CheckIntervals x = m4) ltac:(unfold m4; side).
  pass.
  repeat statement (fun x => CheckIntervals x = m4).
  apply post_ret. intros c' [= <-]. assumption.
Qed.

(** C9.  When the structured file sets [process_realtime] to a value
    other than zero, the [rtprocess] interval becomes the [process] field
    of the file, in seconds, and not the value that was set.  The other
    intervals are what they are when [process_realtime] is left out; they
    are those of the incoming configuration when the file sets no other
    interval. *)
Theorem mergeYamlConfig_rtprocess_interval (agentConf : AgentConfig.t)
        (yc : YamlAgentConfig.t) (c : AgentConfig.t) :
  YamlAgentConfig.Process_Intervals_ProcessRealTime yc <> 0%Z ->
  value (mergeYamlConfig sys agentConf yc) = inl c ->
  CheckIntervals c !! "rtprocess"
  = Some (duration (YamlAgentConfig.Process_Intervals_Process yc) Second)
  /\ (forall c0 k,
        value (mergeYamlConfig sys agentConf
                 (YamlAgentConfig.set_Process_Intervals_ProcessRealTime 0 yc)) = inl c0 ->
        k <> "rtprocess" ->
        CheckIntervals c !! k = CheckIntervals c0 !! k)
  /\ (YamlAgentConfig.Process_Intervals_Container yc = 0%Z ->
      YamlAgentConfig.Process_Intervals_ContainerRealTime yc = 0%Z ->
      YamlAgentConfig.Process_Intervals_Process yc = 0%Z ->
      forall k, k <> "rtprocess" ->
                CheckIntervals c !! k = CheckIntervals agentConf !! k).
Proof.
  intros Hn Hc.
  apply mergeYamlConfig_CheckIntervals in Hc.
  assert (Hb : negb (YamlAgentConfig.Process_Intervals_ProcessRealTime yc =? 0)%Z = true).
  { apply negb_true_iff. apply Z.eqb_neq. exact Hn. }
  unfold yamlIntervals in Hc. cbv zeta in Hc. rewrite Hb in Hc.
  split; [|split].
  - rewrite Hc. apply lookup_insert_eq.
  - intros c0 k Hc0 Hk.
    apply mergeYamlConfig_CheckIntervals in Hc0.
    unfold yamlIntervals in Hc0. cbv zeta in Hc0.
    cbn [YamlAgentConfig.set_Process_Intervals_ProcessRealTime
           YamlAgentConfig.Process_Intervals_Container
           YamlAgentConfig.Process_Intervals_ContainerRealTime
           YamlAgentConfig.Process_Intervals_Process
           YamlAgentConfig.Process_Intervals_ProcessRealTime] in Hc0.
    change (negb (0 =? 0)%Z) with false in Hc0. cbv iota in Hc0.
    rewrite Hc, Hc0. apply lookup_insert_ne. congruence.
  - intros H1 H2 H3 k Hk.
    rewrite Hc, H1, H2, H3. cbn [Z.eqb negb].
    apply lookup_insert_ne. congruence.
Qed.

End YamlProperties.

(** A structured file that sets the process interval to 30 and the
    real-time process interval to 5, merged into the default intervals. *)
Definition config_with_default_intervals : AgentConfig.t :=
  AgentConfig.set_CheckIntervals defaultCheckIntervals blank_config.

Definition yaml_with_realtime : YamlAgentConfig.t :=
  YamlAgentConfig.Make "apikey_20" false "" "" 0 0 30 5 [] None [] false 0 0 0 "" [] "" 0 None.

Definition merged_with_realtime : AgentConfig.t :=
  match value (mergeYamlConfig Host.sys config_with_default_intervals yaml_with_realtime) with
  | inl c => c
  | inr _ => blank_config
  end.

Lemma mergeYamlConfig_rtprocess_interval_witness :
  value (mergeYamlConfig Host.sys config_with_default_intervals yaml_with_realtime)
  = inl merged_with_realtime
  /\ AgentConfig.CheckIntervals merged_with_realtime !! "rtprocess"
     = Some (30 * Second)%Z
  /\ AgentConfig.CheckIntervals merged_with_realtime !! "rtprocess"
     <> Some (5 * Second)%Z.
Proof.
  assert (H : value (mergeYamlConfig Host.sys config_with_default_intervals
                       yaml_with_realtime) = inl merged_with_realtime)
    by (vm_compute; reflexivity).
  split; [exact H|].
  destruct (mergeYamlConfig_rtprocess_interval Host.sys config_with_default_intervals
              yaml_with_realtime merged_with_realtime) as [Hrt _];
    [discriminate | exact H |].
  rewrite Hrt. split; [reflexivity | discriminate].
Defined.

(** ** Resolution as a whole *)

Section ResolutionProperties.

Variable sys : Sys.

Import AgentConfig.

(** The structured-file stage assigns the API key of the file whether or
    not the file has one. *)
Lemma mergeYamlConfig_APIKey (agentConf : AgentConfig.t) (yc : YamlAgentConfig.t)
      (c : AgentConfig.t) :
  value (mergeYamlConfig sys agentConf yc) = inl c ->
  APIKey c = YamlAgentConfig.APIKey yc.
Proof.
  revert c.
  change (post (mergeYamlConfig sys agentConf yc)
               (fun r _ => forall c, r = inl c -> APIKey c = YamlAgentConfig.APIKey yc)).
  open mergeYamlConfig.
  do 2 statement (fun x => APIKey x = YamlAgentConfig.APIKey yc).
  lazymatch goal with
  | |- post (let x := ?e in @?k x) ?Q =>
      refine (post_let e k
                (fun r => forall c, r = inl c -> APIKey c = YamlAgentConfig.APIKey yc)
                Q _ _)
  end.
  { repeat case_match; intros c' [= <-]; fields; assumption. }
  intros [c1 | err] Hend; cbv beta.
  2: { apply post_ret. intros c' [=]. }
  specialize (Hend c1 eq_refl).
  do 6 statement (fun x => APIKey x = YamlAgentConfig.APIKey yc).
  pass.
  repeat statement (fun x => APIKey x = YamlAgentConfig.APIKey yc).
  apply post_ret. intros c' [= <-]. assumption.
Qed.

(** *** The ceiling on [MaxPerMessage] *)

Definition below_ceiling (c : AgentConfig.t) : Prop :=
  (MaxPerMessage c <= maxMessageBatch)%Z.

Lemma NewDefaultAgentConfig_MaxPerMessage (env : Env) (c : AgentConfig.t) (env' : Env) :
  value (NewDefaultAgentConfig sys env) = Ok (c, env') -> MaxPerMessage c = 100%Z.
Proof.
  unfold NewDefaultAgentConfig. destruct (url_Parse sys defaultEndpoint); [|discriminate].
  rewrite value_bind. cbv beta zeta. rewrite value_ret.
  intros [= <- _]. case_match; reflexivity.
Qed.

Lemma iniConfig_MaxPerMessage (agentIni : File) (section : IniSection)
      (cfg c : AgentConfig.t) :
  value (iniConfig sys agentIni section cfg) = inl c -> below_ceiling c.
Proof.
  revert c.
  change (post (iniConfig sys agentIni section cfg)
               (fun r _ => forall c, r = inl c -> below_ceiling c)).
  open iniConfig.
  destruct (Get agentIni "Main" "api_key"); [|apply post_ret; intros c' [=]].
  do 9 pass.
  destruct (url_Parse sys _); [|apply post_ret; intros c' [=]].
  do 14 pass.
  statement_by below_ceiling
               ltac:(unfold post, below_ceiling, maxMessageBatch in *;
                     case_match;
                     [ match goal with H : (_ <=? _)%Z = true |- _ =>
                                         apply Z.leb_le in H end
                     | rewrite value_bind ];
                     fields; lia).
  pass.
  repeat statement below_ceiling.
  apply post_ret. intros c' [= <-]. assumption.
Qed.

Lemma mergeYamlConfig_MaxPerMessage (agentConf : AgentConfig.t)
      (yc : YamlAgentConfig.t) (c : AgentConfig.t) :
  below_ceiling agentConf ->
  value (mergeYamlConfig sys agentConf yc) = inl c -> below_ceiling c.
Proof.
  intros H0. revert c.
  change (post (mergeYamlConfig sys agentConf yc)
               (fun r _ => forall c, r = inl c -> below_ceiling c)).
  open mergeYamlConfig.
  do 2 statement below_ceiling.
  lazymatch goal with
  | |- post (let x := ?e in @?k x) ?Q =>
      refine (post_let e k (fun r => forall c, r = inl c -> below_ceiling c) Q _ _)
  end.
  { repeat case_match; intros c' [= <-]; fields; assumption. }
  intros [c1 | err] Hend; cbv beta.
  2: { apply post_ret. intros c' [=]. }
  specialize (Hend c1 eq_refl).
  do 6 statement below_ceiling.
  pass.
  do 6 statement below_ceiling.
  statement_by below_ceiling
               ltac:(unfold post, below_ceiling, maxMessageBatch in *;
                     repeat case_match;
                     rewrite ?value_bind; fields;
                     try match goal with H : (_ <=? _)%Z = true |- _ =>
                                           apply Z.leb_le in H end;
                     auto; lia).
  repeat statement below_ceiling.
  apply post_ret. intros c' [= <-]. assumption.
Qed.

Lemma mergeEnvironmentVariables_MaxPerMessage (env : Env) (c : AgentConfig.t) :
  MaxPerMessage (value (mergeEnvironmentVariables sys env c)) = MaxPerMessage c.
Proof.
  apply (post_value _ (fun c' => MaxPerMessage c' = MaxPerMessage c)).
  open mergeEnvironmentVariables.
  do 2 statement (fun x => MaxPerMessage x = MaxPerMessage c). do 2 pass.
  repeat statement (fun x => MaxPerMessage x = MaxPerMessage c).
  apply post_ret. assumption.
Qed.

Lemma finishConfig_MaxPerMessage (env : Env) (cfg c : AgentConfig.t) :
  value (finishConfig sys env cfg) = inl c -> MaxPerMessage c = MaxPerMessage cfg.
Proof.
  revert c.
  change (post (finishConfig sys env cfg)
               (fun r _ => forall c, r = inl c -> MaxPerMessage c = MaxPerMessage cfg)).
  open finishConfig.
  statement (fun x => MaxPerMessage x = MaxPerMessage cfg).
  destruct (NewLoggerLevel sys _ _ _); [apply post_ret; intros c' [=]|].
  statement_by (fun x => MaxPerMessage x = MaxPerMessage cfg)
               ltac:(unfold post; repeat case_match;
                     repeat (rewrite ?value_bind; cbv beta);
                     repeat case_match; fields; auto).
  repeat statement (fun x => MaxPerMessage x = MaxPerMessage cfg).
  apply post_ret. intros c' [= <-]. assumption.
Qed.

(** Whatever the sources hold, a configuration that [NewAgentConfig]
    returns has [MaxPerMessage] at most 100. *)
Lemma NewAgentConfig_MaxPerMessage_ceiling (env : Env) (agentIni : option File)
      (agentYaml : option YamlAgentConfig.t) (cfg : AgentConfig.t) :
  value (NewAgentConfig sys env agentIni agentYaml) = Ok cfg ->
  (MaxPerMessage cfg <= 100)%Z.
Proof.
  unfold NewAgentConfig. rewrite value_bind.
  destruct (value (NewDefaultAgentConfig sys env)) as [[c0 env']| |] eqn:E0;
    [|discriminate|discriminate].
  apply NewDefaultAgentConfig_MaxPerMessage in E0.
  cbv beta iota zeta. rewrite value_bind.
  match goal with
  | |- context [value ?m] =>
      lazymatch m with
      | match agentIni with _ => _ end =>
          assert (H1 : forall c, value m = inl c -> below_ceiling c)
      end
  end.
  { intros c. destruct agentIni as [f|]; simpl.
    - destruct (GetSection f "Main").
      + apply iniConfig_MaxPerMessage.
      + intros [= <-]. unfold below_ceiling, maxMessageBatch. lia.
    - intros [= <-]. unfold below_ceiling, maxMessageBatch. lia. }
  match type of H1 with
  | forall c, value ?m = _ -> _ => destruct (value m) as [c1|e1]; [|discriminate]
  end.
  specialize (H1 c1 eq_refl).
  cbv beta iota. rewrite value_bind.
  assert (H2 : forall c,
             value (match agentYaml with
                    | Some yc => mergeYamlConfig sys c1 yc
                    | None => ret (inl c1)
                    end) = inl c -> below_ceiling c).
  { intros c. destruct agentYaml as [yc|].
    - apply mergeYamlConfig_MaxPerMessage. exact H1.
    - intros [= <-]. exact H1. }
  destruct (value (match agentYaml with
                   | Some yc => mergeYamlConfig sys c1 yc
                   | None => ret (inl c1)
                   end)) as [c2|e2]; [|discriminate].
  specialize (H2 c2 eq_refl).
  cbv beta iota. rewrite !value_bind.
  destruct (value (finishConfig sys env' _)) as [c3|e3] eqn:E3; [|discriminate].
  apply finishConfig_MaxPerMessage in E3.
  rewrite mergeEnvironmentVariables_MaxPerMessage in E3.
  intros [= <-]. rewrite E3. exact H2.
Qed.

End ResolutionProperties.

(** *** The API key across the stages *)

Definition ini_with_key : File := {[ "Main" := {[ "api_key" := "apikey_12" ]} ]}.

(** A structured file that sets [queue_size: 10] and no [api_key], as
    [NewYamlIfExists] hands it over (its two [*bool] fields preset to true). *)
Definition yaml_without_key : YamlAgentConfig.t :=
  YamlAgentConfig.Make "" false "" "" 0 0 0 0 [] (Some true) [] false 10 0 0 "" [] "" 0
                       (Some true).

(** C4 at the failing input.  The API key of the legacy file is resolved
    when there is no structured file; with a structured file that leaves
    [api_key] out, the resolved key is empty, while the queue size the
    structured file does set takes effect. *)
Theorem NewAgentConfig_yaml_without_api_key :
  (exists cfg,
      value (NewAgentConfig Host.sys ∅ (Some ini_with_key) None) = Ok cfg
      /\ AgentConfig.APIKey cfg = "apikey_12"
      /\ AgentConfig.QueueSize cfg = 20%Z)
  /\ (exists cfg,
         value (NewAgentConfig Host.sys ∅ (Some ini_with_key) (Some yaml_without_key))
         = Ok cfg
         /\ AgentConfig.APIKey cfg = ""
         /\ AgentConfig.QueueSize cfg = 10%Z).
Proof.
  split; vm_compute; eexists; (split; [reflexivity | split; reflexivity]).
Qed.

(** *** The message limit across the stages *)

Definition ini_with_limit (proc_limit : string) : File :=
  {[ "Main" := {[ "api_key" := "apikey_12" ]};
     "process.config" := {[ "proc_limit" := proc_limit ]} ]}.

(** A structured file that sets [max_per_message: 500]. *)
Definition yaml_with_limit : YamlAgentConfig.t :=
  YamlAgentConfig.Make "apikey_20" false "" "" 0 0 0 0 [] (Some true) [] false 0 0 500 ""
                       [] "" 0 (Some true).

Definition limit_warning : entry :=
  Entry Warn
        "Overriding the configured item count per message limit because it exceeds maximum".

(** C5 at the failing input.  A legacy [proc_limit] of 500 alone resolves to
    100, and so does a structured [max_per_message] of 500 alone; but with a
    legacy [proc_limit] of 50, the structured [max_per_message] of 500 is
    warned about and the resolved limit stays 50. *)
Theorem NewAgentConfig_yaml_limit_not_clamped :
  (exists cfg,
      value (NewAgentConfig Host.sys ∅ (Some (ini_with_limit "500")) None) = Ok cfg
      /\ AgentConfig.MaxPerMessage cfg = 100%Z)
  /\ (exists cfg,
         value (NewAgentConfig Host.sys ∅ None (Some yaml_with_limit)) = Ok cfg
         /\ AgentConfig.MaxPerMessage cfg = 100%Z)
  /\ (exists cfg,
         value (NewAgentConfig Host.sys ∅ (Some (ini_with_limit "50"))
                               (Some yaml_with_limit)) = Ok cfg
         /\ AgentConfig.MaxPerMessage cfg = 50%Z)
  /\ In limit_warning
        (written (NewAgentConfig Host.sys ∅ (Some (ini_with_limit "50"))
                                 (Some yaml_with_limit))).
Proof.
  split; [|split; [|split]].
  - vm_compute. eexists. split; reflexivity.
  - vm_compute. eexists. split; reflexivity.
  - vm_compute. eexists. split; reflexivity.
  - vm_compute. left. reflexivity.
Qed.

(** * Further properties of the code *)

(** ** Tokens and the joined command line *)

Lemma append_nil (b : string) : "" +:+ b = b.
Proof. reflexivity. Qed.

Lemma append_cons (x : ascii) (a b : string) : String x a +:+ b = String x (a +:+ b).
Proof. reflexivity. Qed.

Lemma append_assoc (a b c : string) : (a +:+ b) +:+ c = a +:+ (b +:+ c).
Proof.
  induction a as [|x a IH]; [reflexivity|].
  rewrite !append_cons, IH. reflexivity.
Qed.

Lemma append_empty_r (a : string) : a +:+ "" = a.
Proof.
  induction a as [|x a IH]; [reflexivity|].
  rewrite append_cons, IH. reflexivity.
Qed.

Lemma of_bytes_snoc (l : list ascii) (c : ascii) :
  Str.of_bytes (l ++ [c]) = Str.of_bytes l +:+ String c "".
Proof.
  induction l as [|b l IH]; [reflexivity|].
  change (Str.of_bytes ((b :: l) ++ [c])) with (String b (Str.of_bytes (l ++ [c]))).
  rewrite IH. reflexivity.
Qed.

Lemma split_from_cons (cur : list ascii) (s : string) (sep : ascii) :
  exists e rest, Str.split_from cur s sep = e :: rest.
Proof.
  revert cur. induction s as [|c s IH]; intros cur; simpl; [eauto|].
  destruct (Str.byte_eqb c sep); [eauto | apply IH].
Qed.

Lemma Join_cons (e : string) (rest : list string) (sep : string) :
  rest <> [] -> Str.Join (e :: rest) sep = e +:+ sep +:+ Str.Join rest sep.
Proof. destruct rest; [congruence | reflexivity]. Qed.

Lemma Join_split_from (s : string) (sep : ascii) :
  forall cur,
    Str.Join (Str.split_from cur s sep) (String sep "") = Str.of_bytes (rev cur) +:+ s.
Proof.
  induction s as [|c s IH]; intros cur; simpl.
  - rewrite append_empty_r. reflexivity.
  - destruct (Str.byte_eqb c sep) eqn:E.
    + apply Ascii.eqb_eq in E. subst c.
      destruct (split_from_cons [] s sep) as [e [rest Hs]].
      rewrite Join_cons by (rewrite Hs; discriminate).
      rewrite IH. reflexivity.
    + rewrite IH. change (rev (c :: cur)) with (rev cur ++ [c]).
      rewrite of_bytes_snoc, append_assoc. reflexivity.
Qed.

(** Splitting on a byte and joining on it again gives the string back. *)
Lemma Join_Split (s : string) (sep : ascii) :
  Str.Join (Str.Split s sep) (String sep "") = s.
Proof. unfold Str.Split. rewrite Join_split_from. reflexivity. Qed.

Lemma scrub_loop_changed (patterns : list regex) (rawCmdline : string) :
  snd (scrub_loop patterns rawCmdline true) = true.
Proof.
  revert rawCmdline. induction patterns as [|p rest IH]; intros raw; simpl; [reflexivity|].
  destruct (MatchString p raw); apply IH.
Qed.

Lemma scrub_loop_unchanged (patterns : list regex) (rawCmdline : string) :
  snd (scrub_loop patterns rawCmdline false) = false ->
  scrub_loop patterns rawCmdline false = (rawCmdline, false)
  /\ Forall (fun p => MatchString p rawCmdline = false) patterns.
Proof.
  induction patterns as [|p rest IH]; simpl; [auto|].
  destruct (MatchString p rawCmdline) eqn:E.
  - simpl. rewrite scrub_loop_changed. discriminate.
  - intros H. destruct (IH H) as [H1 H2]. auto.
Qed.

(** X1.  For an enabled scrubber the tokens that [ScrubCmdline] returns,
    joined by single spaces, are the command line the patterns rewrote; and
    the caller's own slice is returned exactly when no pattern matched at its
    turn, so that a token holding a space is split only when something was
    masked. *)
Theorem ScrubCmdline_joined (ds : DataScrubber.t) (cmdline : list string) :
  DataScrubber.Enabled ds = true ->
  Str.Join (ScrubCmdline ds cmdline) " "
  = fst (scrub_loop (SensitivePatterns ds) (Str.Join cmdline " ") false)
  /\ (snd (scrub_loop (SensitivePatterns ds) (Str.Join cmdline " ") false) = false ->
      ScrubCmdline ds cmdline = cmdline)
  /\ (snd (scrub_loop (SensitivePatterns ds) (Str.Join cmdline " ") false) = true ->
      ScrubCmdline ds cmdline
      = Str.Split (fst (scrub_loop (SensitivePatterns ds) (Str.Join cmdline " ") false))
                  " "%char).
Proof.
  intros He. unfold ScrubCmdline. rewrite He. simpl negb. cbv iota.
  destruct (scrub_loop (SensitivePatterns ds) (Str.Join cmdline " ") false)
    as [raw' changed] eqn:E.
  simpl fst. simpl snd. split; [|split].
  - destruct changed.
    + apply (Join_Split raw' " "%char).
    + assert (H : snd (scrub_loop (SensitivePatterns ds) (Str.Join cmdline " ") false)
                  = false) by (rewrite E; reflexivity).
      apply scrub_loop_unchanged in H. destruct H as [H _].
      rewrite H in E. injection E as <-. reflexivity.
  - intros ->. reflexivity.
  - intros ->. reflexivity.
Qed.

Lemma ScrubCmdline_joined_witness :
  ScrubCmdline (value NewDefaultDataScrubber) ["agent -password"; "1234 5"]
  = ["agent"; "-password"; "********"; "5"]
  /\ Str.Join (ScrubCmdline (value NewDefaultDataScrubber) ["agent -password"; "1234 5"]) " "
     = "agent -password ******** 5".
Proof.
  destruct (ScrubCmdline_joined (value NewDefaultDataScrubber)
                                ["agent -password"; "1234 5"] eq_refl) as (Hj & _ & Hc).
  split.
  - rewrite Hc; vm_compute; reflexivity.
  - rewrite Hj. vm_compute. reflexivity.
Defined.

(** ** What a match of a sensitive pattern looks like

    [Matches r x caps]: the runes [x] are matched by [r], capturing [caps]
    (the last group first).  Whatever the backtracking search of [run]
    finds is such a match. *)

Inductive Matches : regex -> list Utf8.token -> captures -> Prop :=
| Matches_Empty : Matches Empty [] []
| Matches_Atom a t :
    atom_matches a (Utf8.tok_rune t) = true -> Matches (Atom a) [t] []
| Matches_Repeat a min max x :
    Forall (fun t => atom_matches a (Utf8.tok_rune t) = true) x ->
    min <= length x ->
    (forall m, max = Some m -> length x <= m) ->
    Matches (Repeat a min max) x []
| Matches_Cat r1 r2 x1 x2 c1 c2 :
    Matches r1 x1 c1 -> Matches r2 x2 c2 -> Matches (Cat r1 r2) (x1 ++ x2) (c2 ++ c1)
| Matches_Alt_l r1 r2 x c : Matches r1 x c -> Matches (Alt r1 r2) x c
| Matches_Alt_r r1 r2 x c : Matches r2 x c -> Matches (Alt r1 r2) x c
| Matches_Capture name r x c :
    Matches r x c -> Matches (Capture name r) x ((name, Utf8.source x) :: c).

Lemma repeat_atom_sound (a : atom) (s : list Utf8.token) :
  forall min max k res,
    repeat_atom a min max s k = Some res ->
    exists x s',
      s = x ++ s' /\ Matches (Repeat a min max) x [] /\ k s' = Some res.
Proof.
  induction s as [|t s IH]; intros min max k res H.
  - assert (Hm : min = 0 /\ k [] = Some res).
    { destruct max as [[|m]|]; destruct min; simpl in H; try discriminate; auto. }
    destruct Hm as [-> Hk]. exists [], []. split; [reflexivity|]. split; [|exact Hk].
    constructor; [constructor | simpl; lia | intros; simpl; lia].
  - assert (Hstop : match min with O => k (t :: s) | S _ => None end = Some res ->
                    exists x s', t :: s = x ++ s'
                                 /\ Matches (Repeat a min max) x [] /\ k s' = Some res).
    { intros Hs. destruct min; [|discriminate]. exists [], (t :: s).
      split; [reflexivity|]. split; [|exact Hs].
      constructor; [constructor | simpl; lia | intros; simpl; lia]. }
    assert (Hmore : atom_matches a (Utf8.tok_rune t) = true ->
                    max <> Some 0 ->
                    orelse (repeat_atom a (Nat.pred min) (Nat.pred <$> max) s k)
                           (match min with O => k (t :: s) | S _ => None end) = Some res ->
                    exists x s', t :: s = x ++ s'
                                 /\ Matches (Repeat a min max) x [] /\ k s' = Some res).
    { intros Ht Hmax Ho. unfold orelse in Ho.
      destruct (repeat_atom a (Nat.pred min) (Nat.pred <$> max) s k) eqn:E.
      - injection Ho as ->. destruct (IH _ _ _ _ E) as (x & s' & -> & Hx & Hk).
        exists (t :: x), s'. split; [reflexivity|]. split; [|exact Hk].
        inversion Hx as [| |? ? ? ? HF Hmin Hbound| | | |]; subst.
        constructor.
        + constructor; assumption.
        + simpl. lia.
        + intros m ->. destruct m as [|m]; [congruence|].
          specialize (Hbound m eq_refl). simpl. lia.
      - exact (Hstop Ho). }
    destruct max as [[|m]|]; simpl in H.
    + exact (Hstop H).
    + destruct (atom_matches a (Utf8.tok_rune t)) eqn:Ht;
        [apply Hmore; [reflexivity | discriminate | exact H] | exact (Hstop H)].
    + destruct (atom_matches a (Utf8.tok_rune t)) eqn:Ht;
        [apply Hmore; [reflexivity | discriminate | exact H] | exact (Hstop H)].
Qed.

Lemma run_sound (r : regex) :
  forall s caps k res,
    run r s caps k = Some res ->
    exists x s' new,
      s = x ++ s' /\ Matches r x new /\ k s' (new ++ caps) = Some res.
Proof.
  induction r as [|a|a min max|r1 IH1 r2 IH2|r1 IH1 r2 IH2|name r1 IH1];
    intros s caps k res H; simpl in H.
  - exists [], s, []. split; [reflexivity|]. split; [constructor | exact H].
  - destruct s as [|t s']; [discriminate|].
    destruct (atom_matches a (Utf8.tok_rune t)) eqn:Ht; [|discriminate].
    exists [t], s', []. split; [reflexivity|]. split; [constructor; exact Ht | exact H].
  - apply repeat_atom_sound in H. destruct H as (x & s' & -> & Hx & Hk).
    exists x, s', []. auto.
  - apply IH1 in H. destruct H as (x1 & s1 & c1 & -> & H1 & H).
    apply IH2 in H. destruct H as (x2 & s2 & c2 & -> & H2 & H).
    exists (x1 ++ x2), s2, (c2 ++ c1).
    split; [rewrite <- app_assoc; reflexivity|].
    split; [constructor; assumption|]. rewrite <- app_assoc. exact H.
  - unfold orelse in H. destruct (run r1 s caps k) eqn:E.
    + injection H as ->. apply IH1 in E. destruct E as (x & s' & c & -> & Hm & Hk).
      exists x, s', c. split; [reflexivity|]. split; [apply Matches_Alt_l; exact Hm | exact Hk].
    + apply IH2 in H. destruct H as (x & s' & c & -> & Hm & Hk).
      exists x, s', c. split; [reflexivity|]. split; [apply Matches_Alt_r; exact Hm | exact Hk].
  - apply IH1 in H. destruct H as (x & s' & c & -> & Hm & Hk).
    exists x, s', ((name, Utf8.source x) :: c).
    split; [reflexivity|]. split; [constructor; exact Hm|].
    rewrite length_app in Hk.
    replace (length x + length s' - length s') with (length x) in Hk by lia.
    rewrite take_app_length in Hk. exact Hk.
Qed.

(** A greedy star in front of a continuation that cannot fail takes every
    rune it can. *)
Lemma repeat_atom_greedy (a : atom) (k : list Utf8.token -> option Regexp.result) :
  (forall s, is_Some (k s)) ->
  forall s, exists x s',
      s = x ++ s'
      /\ repeat_atom a 0 None s k = k s'
      /\ Forall (fun t => atom_matches a (Utf8.tok_rune t) = true) x
      /\ match s' with
         | [] => True
         | t :: _ => atom_matches a (Utf8.tok_rune t) = false
         end.
Proof.
  intros Hk. induction s as [|t s IH].
  - exists [], []. repeat split; constructor.
  - simpl. destruct (atom_matches a (Utf8.tok_rune t)) eqn:Ht.
    + destruct IH as (x & s' & -> & Hr & HF & Hs').
      exists (t :: x), s'. split; [reflexivity|]. split.
      * rewrite Hr. destruct (Hk s') as [res ->]. reflexivity.
      * split; [constructor; assumption | exact Hs'].
    + exists [], (t :: s). repeat split; [constructor | exact Ht].
Qed.

Lemma run_Cat (r1 r2 : regex) s caps k :
  run (Cat r1 r2) s caps k = run r1 s caps (fun s1 c1 => run r2 s1 c1 k).
Proof. reflexivity. Qed.

Lemma literal_matches (c r : Utf8.rune) :
  atom_matches (ALit false c) r = true -> r = c.
Proof. simpl. intros H. apply N.eqb_eq in H. congruence. Qed.

Lemma compileWord_pattern (word : string) (r : regex) :
  compileWord word = inl r -> exists enhanced, r = pattern enhanced.
Proof.
  unfold compileWord. repeat case_match; try discriminate. intros [= <-]. eauto.
Qed.

(** X2.  Wherever the matcher of an accepted word matches, the match is a
    key that starts with a space, a delimiter (spaces, or one [=]) and a
    value; the value runs up to the next white space or the end of the line,
    so nothing of it is left behind; and the text put in its place is the
    key and the delimiter as they were, followed by eight stars. *)
Theorem sensitive_match_masks_whole_value
        (word : string) (r : regex) (s : list Utf8.token)
        (caps : captures) (rest : list Utf8.token) :
  compileWord word = inl r ->
  match_here r s = Some (caps, rest) ->
  exists key delimiter val,
    s = key ++ delimiter ++ val ++ rest
    /\ expand mask caps = Utf8.source key +:+ Utf8.source delimiter +:+ "********"
    /\ (exists t key', key = t :: key' /\ Utf8.tok_rune t = space_rune)
    /\ ((delimiter <> [] /\ Forall (fun t => Utf8.tok_rune t = space_rune) delimiter)
        \/ exists t, delimiter = [t] /\ Utf8.tok_rune t = equals_rune)
    /\ Forall (fun t => perl_space (Utf8.tok_rune t) = false) val
    /\ match rest with
       | [] => True
       | t :: _ => perl_space (Utf8.tok_rune t) = true
       end.
Proof.
  intros Hw H. apply compileWord_pattern in Hw. destruct Hw as [enhanced ->].
  unfold match_here, pattern in H.
  rewrite run_Cat in H. apply run_sound in H.
  destruct H as (key & s1 & c1 & -> & Hkey & H).
  rewrite run_Cat in H. apply run_sound in H.
  destruct H as (delimiter & s2 & c2 & -> & Hdel & H).
  change (repeat_atom (AClass false true [CSpace]) 0 None s2
            (fun s' => Some (("value", Utf8.source (take (length s2 - length s') s2))
                               :: c2 ++ c1 ++ [], s')) = Some (caps, rest)) in H.
  destruct (repeat_atom_greedy (AClass false true [CSpace])
              (fun s' => Some (("value", Utf8.source (take (length s2 - length s') s2))
                                 :: c2 ++ c1 ++ [], s'))
              (fun s' => ex_intro _ _ eq_refl) s2)
    as (val & rest' & -> & Hr & Hval & Hrest).
  rewrite Hr in H. injection H as <- <-.
  exists key, delimiter, val. split; [reflexivity|].
  inversion Hkey as [| | | | | |? ? ? cK HK]; subst.
  inversion HK as [| | |? ? xm xe cm ce Hm He| | |]; subst.
  inversion Hm as [| | | | | |? ? ? cM HM]; subst.
  inversion Hdel as [| | | | | |? ? ? cD HD]; subst.
  assert (HcD : cD = []).
  { inversion HD as [| | | |? ? ? ? HD1|? ? ? ? HD2|]; subst;
      [inversion HD1 | inversion HD2]; reflexivity. }
  subst cD.
  split; [|split; [|split; [|split]]].
  - reflexivity.
  - inversion HM as [| | | |? ? ? ? HM1|? ? ? ? HM2|]; subst.
    + inversion HM1 as [| |? ? ? ? HF Hmin _| | | |]; subst.
      destruct xm as [|t xm']; [simpl in Hmin; lia|].
      exists t, (xm' ++ xe). split; [reflexivity|].
      inversion HF; subst. apply literal_matches. assumption.
    + inversion HM2 as [| | |? ? x1 x2 ? ? HA HR| | |]; subst.
      inversion HA as [|? t Ht| | | | |]; subst.
      exists t, (x2 ++ xe). split; [reflexivity|]. apply literal_matches. exact Ht.
  - inversion HD as [| | | |? ? ? ? HD1|? ? ? ? HD2|]; subst.
    + left. inversion HD1 as [| |? ? ? ? HF Hmin _| | | |]; subst. split.
      * destruct delimiter; [simpl in Hmin; lia | discriminate].
      * eapply Forall_impl; [exact HF|]. intros t Ht. apply literal_matches. exact Ht.
    + right. inversion HD2 as [|? t Ht| | | | |]; subst.
      exists t. split; [reflexivity | apply literal_matches; exact Ht].
  - eapply Forall_impl; [exact Hval|]. intros t Ht. simpl in Ht.
    destruct (perl_space (Utf8.tok_rune t)); [discriminate | reflexivity].
  - destruct rest' as [|t rest']; [exact I|]. simpl in Hrest.
    destruct (perl_space (Utf8.tok_rune t)); [reflexivity | discriminate].
Qed.

Definition password_matcher : regex :=
  pattern (default [] (enhancedWord (Str.bytes "password"))).

Definition password_groups : captures :=
  [("value", "123,456"); ("delimiter", "="); ("key", " --password"); ("", " --")].

Lemma sensitive_match_masks_whole_value_witness :
  compileWord "password" = inl password_matcher
  /\ match_here password_matcher (Utf8.tokens " --password=123,456 next")
     = Some (password_groups, Utf8.tokens " next")
  /\ expand mask password_groups = " --password=********"
  /\ exists key delimiter val,
      Utf8.tokens " --password=123,456 next"
      = key ++ delimiter ++ val ++ Utf8.tokens " next"
      /\ expand mask password_groups
         = Utf8.source key +:+ Utf8.source delimiter +:+ "********".
Proof.
  assert (Hw : compileWord "password" = inl password_matcher)
    by (vm_compute; reflexivity).
  assert (Hm : match_here password_matcher (Utf8.tokens " --password=123,456 next")
               = Some (password_groups, Utf8.tokens " next"))
    by (vm_compute; reflexivity).
  split; [exact Hw|]. split; [exact Hm|]. split; [vm_compute; reflexivity|].
  destruct (sensitive_match_masks_whole_value _ _ _ _ _ Hw Hm)
    as (key & delimiter & val & Hs & He & _).
  exists key, delimiter, val. split; assumption.
Defined.

(** ** Adding custom words *)

Lemma omap_app_list {A B} (f : A -> option B) (l1 l2 : list A) :
  omap f (l1 ++ l2) = omap f l1 ++ omap f l2.
Proof.
  induction l1 as [|x l1 IH]; [reflexivity|].
  change ((x :: l1) ++ l2) with (x :: (l1 ++ l2)).
  rewrite !omap_cons_case, IH. destruct (f x); reflexivity.
Qed.

(** X3.  [AddCustomSensitiveWords] only appends: the patterns already there
    stay in front, in order, followed by the matchers of the accepted new
    words; the two flags are not touched; and adding two batches one after
    the other gives the same scrubber, and the same warnings, as adding
    their concatenation at once. *)
Theorem AddCustomSensitiveWords_appends (ds : DataScrubber.t) (ws1 ws2 : list string) :
  let once := AddCustomSensitiveWords ds ws1 in
  let twice := bind once (fun ds1 => AddCustomSensitiveWords ds1 ws2) in
  SensitivePatterns (value once) = SensitivePatterns ds ++ omap matcher_of ws1
  /\ DataScrubber.Enabled (value once) = DataScrubber.Enabled ds
  /\ DataScrubber.StripAllArguments (value once) = DataScrubber.StripAllArguments ds
  /\ value twice = value (AddCustomSensitiveWords ds (ws1 ++ ws2))
  /\ written twice = written (AddCustomSensitiveWords ds (ws1 ++ ws2)).
Proof.
  assert (Hv : forall d ws,
             value (AddCustomSensitiveWords d ws)
             = set_SensitivePatterns (SensitivePatterns d ++ omap matcher_of ws) d).
  { intros d ws. unfold AddCustomSensitiveWords.
    rewrite value_bind, value_ret, compileStringsToRegex_value. reflexivity. }
  assert (Hl : forall d ws, written (AddCustomSensitiveWords d ws) = omap warning_of ws).
  { intros d ws. unfold AddCustomSensitiveWords.
    rewrite written_bind, written_ret, app_nil_r, compileStringsToRegex_written.
    reflexivity. }
  cbv zeta. rewrite value_bind, written_bind, !Hv, !Hl, !omap_app_list.
  repeat split.
  unfold set_SensitivePatterns. cbn [SensitivePatterns DataScrubber.Enabled
                                       DataScrubber.StripAllArguments].
  rewrite app_assoc. reflexivity.
Qed.

(** ** Proxy settings: the host text and the two sources *)

Lemma HasPrefix_split (p : string) :
  forall s, Str.HasPrefix s p = true -> s = p +:+ Str.drop (String.length p) s.
Proof.
  induction p as [|a p IH]; intros s H.
  - destruct s; reflexivity.
  - destruct s as [|b s]; [discriminate|]. simpl in H.
    apply andb_prop in H. destruct H as [Hab Hp].
    apply Ascii.eqb_eq in Hab. subst b.
    rewrite append_cons. simpl. f_equal. apply IH. exact Hp.
Qed.

Lemma Index_unfold (s sub : string) :
  Str.Index s sub
  = if Str.HasPrefix s sub then Some 0
    else match s with
         | EmptyString => None
         | String _ rest => S <$> Str.Index rest sub
         end.
Proof. destruct s; reflexivity. Qed.

Lemma Index_split (sub : string) :
  forall v i,
    Str.Index v sub = Some i ->
    v = Str.take i v +:+ sub +:+ Str.drop (i + String.length sub) v.
Proof.
  induction v as [|c v IH]; intros i H; rewrite Index_unfold in H.
  - destruct (Str.HasPrefix "" sub) eqn:E; [|discriminate].
    injection H as <-. apply HasPrefix_split in E. exact E.
  - destruct (Str.HasPrefix (String c v) sub) eqn:E.
    + injection H as <-. apply HasPrefix_split in E. exact E.
    + destruct (Str.Index v sub) as [j|] eqn:Ej; [|discriminate].
      injection H as <-. simpl. rewrite append_cons. f_equal. apply IH. reflexivity.
Qed.

Section ProxySources.

Variable sys : Sys.

(** The result of [constructProxy] once the URL text is known. *)
Definition proxy_of_text (text : string) : option proxyFunc * option error :=
  match url_Parse sys text with
  | inr err => (None, Some err)
  | inl u => (Some (http_ProxyURL u), None)
  end.

Definition ini_port (m : IniSection) : Z :=
  if (Key_MustInt m "proxy_port" (-1) =? -1)%Z then defaultProxyPort
  else Key_MustInt m "proxy_port" (-1).

(** X4.  Without a user, the URL that [getProxySettings] parses is the
    configured host text as written, scheme included, followed by a colon
    and the port; a host without a scheme gets [http://] in front. *)
Theorem getProxySettings_text (m : IniSection) (v : string) :
  Key_MustString m "proxy_host" "" = v ->
  Key_MustString m "proxy_user" "" = "" ->
  (forall i, Str.Index v "://" = Some (S i) ->
             Str.drop (S i + 3) v <> "" ->
             getProxySettings sys m
             = proxy_of_text (v +:+ ":" +:+ strconv.Itoa (ini_port m)))
  /\ (Str.Index v "://" = None -> v <> "" ->
      getProxySettings sys m
      = proxy_of_text ("http://" +:+ v +:+ ":" +:+ strconv.Itoa (ini_port m))).
Proof.
  intros Hv Hu.
  assert (Hport : (if negb (Key_MustInt m "proxy_port" (-1) =? -1)%Z
                   then Key_MustInt m "proxy_port" (-1) else defaultProxyPort)
                  = ini_port m).
  { unfold ini_port. destruct (Key_MustInt m "proxy_port" (-1) =? -1)%Z; reflexivity. }
  split.
  - intros i Hi Hd. unfold getProxySettings. rewrite Hv, Hu, Hi, Hport.
    assert (Hne : nonempty v = true).
    { destruct v; [simpl in Hi; discriminate | reflexivity]. }
    rewrite Hne.
    assert (Hh : Str.is_empty (Str.drop (S i + 3) v) = false).
    { destruct (Str.drop (S i + 3) v); [congruence | reflexivity]. }
    rewrite Hh. unfold constructProxy, proxy_of_text. cbn [nonempty Str.is_empty negb].
    assert (Hs : nonempty (Str.take (S i) v) = true).
    { destruct v; [discriminate Hne | reflexivity]. }
    rewrite Hs.
    rewrite (Index_split "://" v (S i) Hi) at 3.
    change (String.length "://") with 3. rewrite !append_assoc. reflexivity.
  - intros Hi Hne. unfold getProxySettings. rewrite Hv, Hu, Hi, Hport.
    assert (Hn : nonempty v = true) by (destruct v; [congruence | reflexivity]).
    rewrite Hn.
    assert (He : Str.is_empty v = false) by (destruct v; [congruence | reflexivity]).
    rewrite He. unfold constructProxy, proxy_of_text. cbn [nonempty Str.is_empty negb].
    rewrite ?append_assoc. reflexivity.
Qed.

(** X5.  The environment and the legacy file resolve the same proxy from the
    same four settings, as long as the port is left out or is a number other
    than -1. *)
Theorem proxyFromEnv_agrees_with_file (env : Env) (m : IniSection) :
  Getenv env "PROXY_HOST" = Key_MustString m "proxy_host" "" ->
  Getenv env "PROXY_USER" = Key_MustString m "proxy_user" "" ->
  Getenv env "PROXY_PASSWORD" = Key_MustString m "proxy_password" "" ->
  Getenv env "PROXY_PORT" = Key_String m "proxy_port" ->
  (Key_String m "proxy_port" = ""
   \/ (snd (strconv.Atoi (Key_String m "proxy_port")) = true
       /\ fst (strconv.Atoi (Key_String m "proxy_port")) <> (-1)%Z)) ->
  proxyFromEnv sys env None = getProxySettings sys m.
Proof.
  intros Hh Hu Hp Hport Hok.
  unfold proxyFromEnv, getProxySettings. rewrite Hh, Hu, Hp, Hport.
  assert (Hsame : (if nonempty (Key_String m "proxy_port")
                   then fst (strconv.Atoi (Key_String m "proxy_port"))
                   else defaultProxyPort)
                  = (if negb (Key_MustInt m "proxy_port" (-1) =? -1)%Z
                     then Key_MustInt m "proxy_port" (-1) else defaultProxyPort)).
  { unfold Key_MustInt. destruct Hok as [-> | [Hs Hf]].
    - reflexivity.
    - destruct (strconv.Atoi (Key_String m "proxy_port")) as [n ok] eqn:E.
      simpl in Hs, Hf. subst ok.
      assert (Hne : nonempty (Key_String m "proxy_port") = true).
      { destruct (Key_String m "proxy_port"); [vm_compute in E; discriminate | reflexivity]. }
      rewrite Hne. simpl fst.
      destruct (n =? -1)%Z eqn:En; [apply Z.eqb_eq in En; contradiction | reflexivity]. }
  rewrite Hsame. reflexivity.
Qed.

(** X6.  Where they differ: a port that is not a number is replaced by the
    default 3128 when it comes from the legacy file, and by 0 when it comes
    from the environment. *)
Theorem proxy_port_not_a_number (env : Env) (m : IniSection) (host port : string)
        (defaultVal : option proxyFunc) :
  Str.Index host "://" = None -> host <> "" -> port <> "" ->
  strconv.Atoi port = (0%Z, false) ->
  Getenv env "PROXY_HOST" = host -> Getenv env "PROXY_PORT" = port ->
  Getenv env "PROXY_USER" = "" ->
  Key_MustString m "proxy_host" "" = host -> Key_String m "proxy_port" = port ->
  Key_MustString m "proxy_user" "" = "" ->
  proxyFromEnv sys env defaultVal = proxy_of_text ("http://" +:+ host +:+ ":0")
  /\ getProxySettings sys m = proxy_of_text ("http://" +:+ host +:+ ":3128").
Proof.
  intros Hi Hne Hpne Ha He1 He2 He3 Hm1 Hm2 Hm3.
  assert (Hn : nonempty host = true) by (destruct host; [congruence | reflexivity]).
  assert (Hem : Str.is_empty host = false) by (destruct host; [congruence | reflexivity]).
  assert (Hpn : nonempty port = true) by (destruct port; [congruence | reflexivity]).
  split.
  - unfold proxyFromEnv. rewrite He1, He2, He3, Hn, Hi, Hem, Hpn, Ha.
    unfold constructProxy, proxy_of_text. cbn [nonempty Str.is_empty negb fst].
    rewrite ?append_assoc. reflexivity.
  - unfold getProxySettings, Key_MustInt. rewrite Hm1, Hm2, Hm3, Hn, Hi, Hem, Ha.
    unfold constructProxy, proxy_of_text. cbn [nonempty Str.is_empty negb Z.eqb].
    rewrite ?append_assoc. reflexivity.
Qed.

End ProxySources.

Definition https_section : IniSection :=
  {[ "proxy_host" := "https://myhost"; "proxy_port" := "3129" ]}.

Lemma getProxySettings_text_witness :
  Str.Index "https://myhost" "://" = Some 5
  /\ getProxySettings Host.sys https_section
     = proxy_of_text Host.sys "https://myhost:3129".
Proof.
  split; [vm_compute; reflexivity|].
  destruct (getProxySettings_text Host.sys https_section "https://myhost") as [H _];
    [vm_compute; reflexivity | vm_compute; reflexivity |].
  rewrite (H 4); [| vm_compute; reflexivity | vm_compute; discriminate].
  vm_compute. reflexivity.
Defined.

Definition example_proxy_env : Env :=
  {[ "PROXY_HOST" := "https://example.com"; "PROXY_PORT" := "4567";
     "PROXY_USER" := "foo"; "PROXY_PASSWORD" := "bar" ]}.

Definition example_proxy_section : IniSection :=
  {[ "proxy_host" := "https://example.com"; "proxy_port" := "4567";
     "proxy_user" := "foo"; "proxy_password" := "bar" ]}.

Lemma proxyFromEnv_agrees_with_file_witness :
  strconv.Atoi (Key_String example_proxy_section "proxy_port") = (4567%Z, true)
  /\ proxyFromEnv Host.sys example_proxy_env None
     = getProxySettings Host.sys example_proxy_section.
Proof.
  split; [vm_compute; reflexivity|].
  apply (proxyFromEnv_agrees_with_file Host.sys example_proxy_env example_proxy_section);
    try (vm_compute; reflexivity).
  right. split; [vm_compute; reflexivity | vm_compute; discriminate].
Defined.

Definition bad_port_env : Env :=
  {[ "PROXY_HOST" := "example.com"; "PROXY_PORT" := "abc" ]}.

Definition bad_port_section : IniSection :=
  {[ "proxy_host" := "example.com"; "proxy_port" := "abc" ]}.

Lemma proxy_port_not_a_number_witness :
  strconv.Atoi "abc" = (0%Z, false)
  /\ proxyFromEnv Host.sys bad_port_env None
     = proxy_of_text Host.sys "http://example.com:0"
  /\ getProxySettings Host.sys bad_port_section
     = proxy_of_text Host.sys "http://example.com:3128".
Proof.
  split; [vm_compute; reflexivity|].
  apply (proxy_port_not_a_number Host.sys bad_port_env bad_port_section
                                 "example.com" "abc" None);
    try (vm_compute; reflexivity); discriminate.
Defined.

(** ** The environment stage, variable by variable *)

Lemma bytes_of_bytes (l : list ascii) : Str.bytes (Str.of_bytes l) = l.
Proof. apply list_ascii_of_string_of_list_ascii. Qed.

Lemma split_from_first (sep : ascii) (s : string) :
  forall cur, ~ In sep cur ->
              ~ In sep (Str.bytes (hd "" (Str.split_from cur s sep))).
Proof.
  induction s as [|c s IH]; intros cur Hcur; simpl.
  - rewrite bytes_of_bytes. rewrite <- in_rev. exact Hcur.
  - destruct (Str.byte_eqb c sep) eqn:E.
    + simpl. rewrite bytes_of_bytes. rewrite <- in_rev. exact Hcur.
    + apply IH. intros [H | H]; [|exact (Hcur H)].
      subst c. unfold Str.byte_eqb in E. rewrite Ascii.eqb_refl in E. discriminate.
Qed.

Lemma take_drop (w : nat) (s : string) : Str.take w s +:+ Str.drop w s = s.
Proof.
  revert s. induction w as [|w IH]; intros [|c s]; try reflexivity.
  simpl. rewrite append_cons, IH. reflexivity.
Qed.

(** A rune is read from one to four bytes, all of them there. *)
Lemma DecodeRune_width (c0 : ascii) (rest : string) :
  (1 <= snd (Utf8.DecodeRune c0 rest) <= S (String.length rest))%nat.
Proof.
  unfold Utf8.DecodeRune. cbv zeta.
  repeat case_match; subst; simpl; lia.
Qed.

(** The runes read from a string, written back, are the string. *)
Lemma source_tokens_from (s : string) :
  forall skip, (skip <= String.length s)%nat ->
               Utf8.source (Utf8.tokens_from skip s) = Str.drop skip s.
Proof.
  induction s as [|c rest IH]; intros skip Hs.
  - destruct skip; reflexivity.
  - destruct skip as [|n].
    + cbn [Utf8.tokens_from].
      pose proof (DecodeRune_width c rest) as Hw.
      destruct (Utf8.DecodeRune c rest) as [r w]. cbn [snd] in Hw.
      cbn [Utf8.source fold_right Utf8.tok_src].
      change (fold_right (fun t acc => Utf8.tok_src t +:+ acc) ""
                         (Utf8.tokens_from (w - 1) rest))
        with (Utf8.source (Utf8.tokens_from (w - 1) rest)).
      rewrite IH by (simpl in Hw; lia).
      destruct w as [|w]; [lia|].
      replace (S w - 1)%nat with w by lia.
      change (Str.drop w rest) with (Str.drop (S w) (String c rest)).
      apply take_drop.
    + cbn [Utf8.tokens_from]. simpl in Hs. rewrite IH by lia. reflexivity.
Qed.

Lemma source_tokens (s : string) : Utf8.source (Utf8.tokens s) = s.
Proof.
  unfold Utf8.tokens. rewrite source_tokens_from by lia. destruct s; reflexivity.
Qed.

Lemma bytes_append (a b : string) : Str.bytes (a +:+ b) = Str.bytes a ++ Str.bytes b.
Proof.
  induction a as [|c a IH]; [reflexivity|].
  rewrite append_cons. simpl. rewrite <- IH. reflexivity.
Qed.

Lemma source_bytes (c : ascii) (ts : list Utf8.token) :
  In c (Str.bytes (Utf8.source ts)) <->
  exists t, In t ts /\ In c (Str.bytes (Utf8.tok_src t)).
Proof.
  induction ts as [|t ts IH].
  - simpl. split; [intros [] | intros (t & [] & _)].
  - change (Utf8.source (t :: ts)) with (Utf8.tok_src t +:+ Utf8.source ts).
    rewrite bytes_append, in_app_iff, IH. split.
    + intros [H | (t' & H1 & H2)]; [exists t | exists t']; simpl; auto.
    + intros (t' & [<- | H1] & H2); [left; exact H2 | right; eauto].
Qed.

Lemma drop_while_In (f : Utf8.rune -> bool) (t : Utf8.token) (ts : list Utf8.token) :
  In t (Strings.drop_while f ts) -> In t ts.
Proof.
  induction ts as [|t0 ts IH]; simpl; [auto|].
  destruct (f (Utf8.tok_rune t0)); [intros H; right; exact (IH H) | auto].
Qed.

Lemma TrimLeftFunc_bytes (f : Utf8.rune -> bool) (c : ascii) (s : string) :
  In c (Str.bytes (Strings.TrimLeftFunc f s)) -> In c (Str.bytes s).
Proof.
  unfold Strings.TrimLeftFunc. intros H.
  rewrite <- (source_tokens s). apply source_bytes in H. apply source_bytes.
  destruct H as (t & Ht & Hc). exists t. split; [|exact Hc].
  exact (drop_while_In f t _ Ht).
Qed.

Lemma TrimRightFunc_bytes (f : Utf8.rune -> bool) (c : ascii) (s : string) :
  In c (Str.bytes (Strings.TrimRightFunc f s)) -> In c (Str.bytes s).
Proof.
  unfold Strings.TrimRightFunc. intros H.
  rewrite <- (source_tokens s). apply source_bytes in H. apply source_bytes.
  destruct H as (t & Ht & Hc). exists t. split; [|exact Hc].
  apply in_rev in Ht. apply drop_while_In in Ht. apply in_rev in Ht. exact Ht.
Qed.

(** Trimming only removes bytes. *)
Lemma TrimSpace_bytes (c : ascii) (s : string) :
  In c (Str.bytes (Strings.TrimSpace s)) -> In c (Str.bytes s).
Proof.
  unfold Strings.TrimSpace, Strings.TrimFunc. intros H.
  apply TrimRightFunc_bytes in H. apply TrimLeftFunc_bytes in H. exact H.
Qed.

Lemma first_entry_no_comma (v : string) :
  ~ In ","%char (Str.bytes (hd "" (Strings.TrimSpace <$> Str.Split v ","%char))).
Proof.
  unfold Str.Split.
  destruct (split_from_cons [] v ","%char) as [e [rest He]].
  pose proof (split_from_first ","%char v [] (fun H => H)) as Hf.
  rewrite He in *. simpl in *. intros H. apply TrimSpace_bytes in H. exact (Hf H).
Qed.

Section EnvironmentStage.

Variable sys : Sys.

Import AgentConfig.

(** The API key the environment names: [DD_API_KEY] if it is set, else
    [API_KEY]. *)
Definition env_api_key (env : Env) : string :=
  if nonempty (Getenv env "DD_API_KEY") then Getenv env "DD_API_KEY"
  else Getenv env "API_KEY".

(** X7.  [DD_API_KEY] is preferred to [API_KEY]; the key taken from the
    environment is the first comma-separated entry with the white space
    around it removed, so it never holds a comma; and with neither variable
    set the key of the configuration is kept. *)
Theorem mergeEnvironmentVariables_APIKey (env : Env) (c : AgentConfig.t) :
  (nonempty (env_api_key env) = true ->
   APIKey (value (mergeEnvironmentVariables sys env c))
   = hd "" (Strings.TrimSpace <$> Str.Split (env_api_key env) ","%char)
   /\ ~ In ","%char (Str.bytes (APIKey (value (mergeEnvironmentVariables sys env c)))))
  /\ (nonempty (env_api_key env) = false ->
      APIKey (value (mergeEnvironmentVariables sys env c)) = APIKey c).
Proof.
  set (final := if nonempty (env_api_key env)
                then hd "" (Strings.TrimSpace <$> Str.Split (env_api_key env) ","%char)
                else APIKey c).
  assert (H : APIKey (value (mergeEnvironmentVariables sys env c)) = final).
  { apply (post_value _ (fun c' => APIKey c' = final)).
    open mergeEnvironmentVariables.
    do 2 statement (fun x => APIKey x = APIKey c).
    statement_by (fun a : string =>
                    a = if nonempty (Getenv env "API_KEY")
                        then Getenv env "API_KEY" else "") side.
    statement_by (fun a : string => a = env_api_key env)
                 ltac:(unfold post, env_api_key; cbv zeta; repeat case_match;
                       rewrite ?value_bind, ?value_ret; fields; subst;
                       repeat case_match; try reflexivity; try congruence;
                       match goal with
                       | H : nonempty ?x = false |- _ => destruct x; [reflexivity | discriminate H]
                       end).
    subst.
    statement_by (fun x => APIKey x = final)
                 ltac:(unfold final; repeat case_match; fields; congruence).
    repeat statement (fun x => APIKey x = final).
    apply post_ret. assumption. }
  rewrite H. unfold final. split; intros ->; [|reflexivity].
  split; [reflexivity | apply first_entry_no_comma].
Qed.

(** X8.  [DD_PROCESS_AGENT_ENABLED] has three states: an affirmative value
    enables the agent with the process checks, any other non-empty value
    disables it and leaves the checks alone, and an unset or empty variable
    changes nothing; [DD_CONNECTIONS_CHECK] then appends the connections
    check.  No other variable touches these two fields. *)
Theorem mergeEnvironmentVariables_Enabled (env : Env) (c : AgentConfig.t) :
  let res := value (mergeEnvironmentVariables sys env c) in
  let connections :=
    if fst (isAffirmative (Getenv env "DD_CONNECTIONS_CHECK")) then ["connections"]
    else [] in
  match isAffirmative (Getenv env "DD_PROCESS_AGENT_ENABLED") with
  | (true, _) =>
      Enabled res = true /\ EnabledChecks res = processChecks ++ connections
  | (false, None) =>
      Enabled res = false /\ EnabledChecks res = EnabledChecks c ++ connections
  | (false, Some _) =>
      Enabled res = Enabled c /\ EnabledChecks res = EnabledChecks c ++ connections
  end.
Proof.
  cbv zeta.
  set (e1 := match isAffirmative (Getenv env "DD_PROCESS_AGENT_ENABLED") with
             | (true, _) => true
             | (false, None) => false
             | (false, Some _) => Enabled c
             end).
  set (k1 := match isAffirmative (Getenv env "DD_PROCESS_AGENT_ENABLED") with
             | (true, _) => processChecks
             | _ => EnabledChecks c
             end).
  set (conn := if fst (isAffirmative (Getenv env "DD_CONNECTIONS_CHECK"))
               then ["connections"] else []).
  assert (H : Enabled (value (mergeEnvironmentVariables sys env c)) = e1
              /\ EnabledChecks (value (mergeEnvironmentVariables sys env c)) = k1 ++ conn).
  { apply (post_value _ (fun c' => Enabled c' = e1 /\ EnabledChecks c' = k1 ++ conn)).
    open mergeEnvironmentVariables.
    statement_by (fun x => Enabled x = e1 /\ EnabledChecks x = k1)
                 ltac:(unfold e1, k1; repeat case_match; fields;
                       try discriminate; auto).
    statement_by (fun x => Enabled x = e1 /\ EnabledChecks x = k1)
                 ltac:(unfold post; cbv zeta; repeat case_match;
                       rewrite ?value_bind, ?value_ret; fields; assumption).
    do 2 pass.
    do 18 (statement_by (fun x => Enabled x = e1 /\ EnabledChecks x = k1)
                        ltac:(unfold post; cbv beta zeta; repeat case_match;
                              unfold addWords, on_scrubber;
                              repeat (rewrite ?value_bind; cbv beta);
                              rewrite ?value_ret; fields; assumption)).
    statement_by (fun x => Enabled x = e1 /\ EnabledChecks x = k1 ++ conn)
                 ltac:(unfold conn; repeat case_match; fields;
                       match goal with H : _ /\ _ |- _ => destruct H as [? ->] end;
                       rewrite ?app_nil_r; auto).
    apply post_ret. assumption. }
  destruct H as [He Hk]. unfold e1, k1 in *.
  destruct (isAffirmative (Getenv env "DD_PROCESS_AGENT_ENABLED")) as [[|] [err|]];
    auto.
Qed.

Definition env_custom_words (env : Env) : list string :=
  if nonempty (Getenv env "DD_CUSTOM_SENSITIVE_WORDS")
  then Str.Split (Getenv env "DD_CUSTOM_SENSITIVE_WORDS") ","%char
  else [].

(** X9.  What the environment stage does to the scrubber: [DD_SCRUB_ARGS]
    switches it on (affirmative), off (any other non-empty value) or leaves
    it (unset); the matchers of the accepted words of
    [DD_CUSTOM_SENSITIVE_WORDS] are appended to the patterns; and
    [DD_STRIP_PROCESS_ARGS] can set the strip flag but not clear it.  After
    a non-affirmative [DD_SCRUB_ARGS] every command line is returned as it
    is, whatever words were added. *)
Theorem mergeEnvironmentVariables_Scrubber (env : Env) (c : AgentConfig.t) :
  let ds := Scrubber (value (mergeEnvironmentVariables sys env c)) in
  DataScrubber.Enabled ds
  = match isAffirmative (Getenv env "DD_SCRUB_ARGS") with
    | (true, _) => true
    | (false, None) => false
    | (false, Some _) => DataScrubber.Enabled (Scrubber c)
    end
  /\ SensitivePatterns ds
     = SensitivePatterns (Scrubber c) ++ omap matcher_of (env_custom_words env)
  /\ DataScrubber.StripAllArguments ds
     = (fst (isAffirmative (Getenv env "DD_STRIP_PROCESS_ARGS"))
        || DataScrubber.StripAllArguments (Scrubber c))
  /\ (isAffirmative (Getenv env "DD_SCRUB_ARGS") = (false, None) ->
      forall cmdline, ScrubCmdline ds cmdline = cmdline).
Proof.
  cbv zeta.
  set (e1 := match isAffirmative (Getenv env "DD_SCRUB_ARGS") with
             | (true, _) => true
             | (false, None) => false
             | (false, Some _) => DataScrubber.Enabled (Scrubber c)
             end).
  set (p0 := SensitivePatterns (Scrubber c)).
  set (p1 := p0 ++ omap matcher_of (env_custom_words env)).
  set (s0 := DataScrubber.StripAllArguments (Scrubber c)).
  set (s1 := fst (isAffirmative (Getenv env "DD_STRIP_PROCESS_ARGS")) || s0).
  assert (H : Scrubber (value (mergeEnvironmentVariables sys env c))
              = DataScrubber.Make e1 p1 s1).
  { apply (post_value _ (fun c' => Scrubber c' = DataScrubber.Make e1 p1 s1)).
    open mergeEnvironmentVariables.
    do 2 statement (fun x => Scrubber x = Scrubber c). do 2 pass.
    do 7 statement (fun x => Scrubber x = Scrubber c).
    statement_by (fun x => Scrubber x = DataScrubber.Make e1 p0 s0)
                 ltac:(unfold e1, p0, s0, on_scrubber; repeat case_match; fields;
                       match goal with H : Scrubber _ = Scrubber c |- _ => rewrite H end;
                       destruct (Scrubber c); try discriminate; reflexivity).
    statement_by (fun x => Scrubber x = DataScrubber.Make e1 p1 s0)
                 ltac:(unfold post, p1, env_custom_words, addWords,
                         AddCustomSensitiveWords;
                       cbv zeta; repeat case_match;
                       repeat (rewrite ?value_bind; cbv beta);
                       rewrite ?value_ret, ?compileStringsToRegex_value; fields;
                       match goal with H : Scrubber _ = _ |- _ => rewrite H end;
                       rewrite ?app_nil_r; reflexivity).
    statement_by (fun x => Scrubber x = DataScrubber.Make e1 p1 s1)
                 ltac:(unfold s1, on_scrubber; repeat case_match; fields;
                       match goal with H : Scrubber _ = _ |- _ => rewrite H end;
                       reflexivity).
    repeat statement (fun x => Scrubber x = DataScrubber.Make e1 p1 s1).
    apply post_ret. assumption. }
  rewrite H. cbn [DataScrubber.Enabled SensitivePatterns DataScrubber.StripAllArguments].
  repeat split.
  intros Hoff cmdline. unfold ScrubCmdline, e1.
  cbn [DataScrubber.Enabled]. rewrite Hoff. reflexivity.
Qed.

End EnvironmentStage.

(** ** The structured-file stage, field by field *)

Section StructuredStage.

Variable sys : Sys.

Import AgentConfig.

(** X10.  [process_config.enabled] has four states: an affirmative value
    enables the agent with the process checks; [disabled], in any case of
    letters, switches the agent off; any other non-empty value, [false]
    included, enables the agent with the container checks only; and an
    empty value changes nothing. *)
Theorem mergeYamlConfig_Enabled (agentConf : AgentConfig.t) (yc : YamlAgentConfig.t)
        (c : AgentConfig.t) :
  value (mergeYamlConfig sys agentConf yc) = inl c ->
  let s := YamlAgentConfig.Process_Enabled yc in
  if fst (isAffirmative s)
  then Enabled c = true /\ EnabledChecks c = processChecks
  else if String.eqb (Strings.ToLower s) "disabled"
       then Enabled c = false /\ EnabledChecks c = EnabledChecks agentConf
       else if nonempty s
            then Enabled c = true /\ EnabledChecks c = containerChecks
            else Enabled c = Enabled agentConf /\ EnabledChecks c = EnabledChecks agentConf.
Proof.
  cbv zeta. intros Hc.
  set (s := YamlAgentConfig.Process_Enabled yc).
  set (e1 := if fst (isAffirmative s) then true
             else if String.eqb (Strings.ToLower s) "disabled" then false
                  else if nonempty s then true else Enabled agentConf).
  set (k1 := if fst (isAffirmative s) then processChecks
             else if String.eqb (Strings.ToLower s) "disabled" then EnabledChecks agentConf
                  else if nonempty s then containerChecks else EnabledChecks agentConf).
  assert (H : Enabled c = e1 /\ EnabledChecks c = k1).
  { revert c Hc.
    change (post (mergeYamlConfig sys agentConf yc)
                 (fun r _ => forall c, r = inl c -> Enabled c = e1 /\ EnabledChecks c = k1)).
    open mergeYamlConfig.
    statement (fun x => Enabled x = Enabled agentConf
                        /\ EnabledChecks x = EnabledChecks agentConf).
    statement_by (fun x => Enabled x = e1 /\ EnabledChecks x = k1)
                 ltac:(unfold e1, k1, s, isAffirmative, nonempty;
                       match goal with H : _ /\ _ |- _ => destruct H as [? ?] end;
                       destruct (YamlAgentConfig.Process_Enabled yc);
                       cbn [Str.is_empty Strings.ToLower String.eqb fst negb andb is_nil];
                       repeat case_match; fields; auto; try discriminate).
    lazymatch goal with
    | |- post (let x := ?e in @?k x) ?Q =>
        refine (post_let e k
                  (fun r => forall c, r = inl c -> Enabled c = e1 /\ EnabledChecks c = k1)
                  Q _ _)
    end.
    { repeat case_match; intros ? [= <-]; fields; assumption. }
    intros [c1 | err] Hend; cbv beta; [|apply post_ret; intros ? [=]].
    specialize (Hend c1 eq_refl).
    do 6 statement (fun x => Enabled x = e1 /\ EnabledChecks x = k1).
    pass.
    repeat statement (fun x => Enabled x = e1 /\ EnabledChecks x = k1).
    apply post_ret. intros c' [= <-]. assumption. }
  destruct H as [He Hk]. unfold e1, k1 in *.
  repeat case_match; auto.
Qed.

(** X11.  A queue size or a limit on file descriptors that the structured
    file gives as zero or as a negative number is ignored, and a positive one
    is taken: the stage never makes either field zero or negative. *)
Theorem mergeYamlConfig_positive_fields (agentConf : AgentConfig.t)
        (yc : YamlAgentConfig.t) (c : AgentConfig.t) :
  value (mergeYamlConfig sys agentConf yc) = inl c ->
  QueueSize c = (if (0 <? YamlAgentConfig.Process_QueueSize yc)%Z
                 then YamlAgentConfig.Process_QueueSize yc else QueueSize agentConf)
  /\ MaxProcFDs c = (if (0 <? YamlAgentConfig.Process_MaxProcFDs yc)%Z
                     then YamlAgentConfig.Process_MaxProcFDs yc else MaxProcFDs agentConf)
  /\ ((0 < QueueSize agentConf)%Z -> (0 < QueueSize c)%Z)
  /\ ((0 < MaxProcFDs agentConf)%Z -> (0 < MaxProcFDs c)%Z).
Proof.
  intros Hc.
  set (q := if (0 <? YamlAgentConfig.Process_QueueSize yc)%Z
            then YamlAgentConfig.Process_QueueSize yc else QueueSize agentConf).
  set (f := if (0 <? YamlAgentConfig.Process_MaxProcFDs yc)%Z
            then YamlAgentConfig.Process_MaxProcFDs yc else MaxProcFDs agentConf).
  assert (H : QueueSize c = q /\ MaxProcFDs c = f).
  { revert c Hc.
    change (post (mergeYamlConfig sys agentConf yc)
                 (fun r _ => forall c, r = inl c -> QueueSize c = q /\ MaxProcFDs c = f)).
    open mergeYamlConfig.
    do 2 statement
       (fun x => QueueSize x = QueueSize agentConf /\ MaxProcFDs x = MaxProcFDs agentConf).
    lazymatch goal with
    | |- post (let x := ?e in @?k x) ?Q =>
        refine (post_let e k (fun r => forall c, r = inl c ->
                     QueueSize c = QueueSize agentConf
                     /\ MaxProcFDs c = MaxProcFDs agentConf) Q _ _)
    end.
    { repeat case_match; intros ? [= <-]; fields; assumption. }
    intros [c1 | err] Hend; cbv beta; [|apply post_ret; intros ? [=]].
    specialize (Hend c1 eq_refl).
    do 6 statement
       (fun x => QueueSize x = QueueSize agentConf /\ MaxProcFDs x = MaxProcFDs agentConf).
    pass.
    do 4 statement
       (fun x => QueueSize x = QueueSize agentConf /\ MaxProcFDs x = MaxProcFDs agentConf).
    statement_by (fun x => QueueSize x = q /\ MaxProcFDs x = MaxProcFDs agentConf)
                 ltac:(unfold q; repeat case_match; fields;
                       match goal with H : _ /\ _ |- _ => destruct H as [? ?] end;
                       auto).
    statement_by (fun x => QueueSize x = q /\ MaxProcFDs x = f)
                 ltac:(unfold f; repeat case_match; fields;
                       match goal with H : _ /\ _ |- _ => destruct H as [? ?] end;
                       auto).
    repeat statement (fun x => QueueSize x = q /\ MaxProcFDs x = f).
    apply post_ret. intros c' [= <-]. assumption. }
  destruct H as [Hq Hf]. rewrite Hq, Hf. unfold q, f.
  repeat split.
  - destruct (0 <? YamlAgentConfig.Process_QueueSize yc)%Z eqn:E;
      [apply Z.ltb_lt in E; intros _; exact E | auto].
  - destruct (0 <? YamlAgentConfig.Process_MaxProcFDs yc)%Z eqn:E;
      [apply Z.ltb_lt in E; intros _; exact E | auto].
Qed.

(** *** The blacklist *)

Definition compiled_or_nil (b : string) : option string :=
  if regexp_Compile_ok sys b then Some b else None.

Lemma yamlBlacklist_value (patterns : list string) :
  value (yamlBlacklist sys patterns) = compiled_or_nil <$> patterns.
Proof.
  induction patterns as [|b rest IH]; [reflexivity|].
  change (yamlBlacklist sys (b :: rest))
    with (bind (when (negb (regexp_Compile_ok sys b))
                     (log Warn "Invalid blacklist pattern: %s"))
               (fun _ => bind (yamlBlacklist sys rest)
                              (fun blacklist =>
                                 ret ((if regexp_Compile_ok sys b then Some b else None)
                                        :: blacklist)))).
  rewrite !value_bind, value_ret, IH. reflexivity.
Qed.

Lemma mergeYamlConfig_Blacklist (agentConf : AgentConfig.t) (yc : YamlAgentConfig.t)
      (c : AgentConfig.t) :
  value (mergeYamlConfig sys agentConf yc) = inl c ->
  Blacklist c = compiled_or_nil <$> YamlAgentConfig.Process_BlacklistPatterns yc.
Proof.
  revert c.
  set (bl := compiled_or_nil <$> YamlAgentConfig.Process_BlacklistPatterns yc).
  change (post (mergeYamlConfig sys agentConf yc)
               (fun r _ => forall c, r = inl c -> Blacklist c = bl)).
  open mergeYamlConfig.
  do 2 pass.
  lazymatch goal with
  | |- post (let x := ?e in @?k x) ?Q =>
      refine (post_let e k (fun _ => True) Q _ _); [exact I | intros [c1 | err] _]
  end; cbv beta; [|apply post_ret; intros ? [=]].
  do 6 pass.
  refine (post_bind _ _ (fun a _ => a = bl) _ _ _).
  { unfold post. apply yamlBlacklist_value. }
  intros blacklist ? ->. cbv beta.
  repeat statement (fun x => Blacklist x = bl).
  apply post_ret. intros c' [= <-]. assumption.
Qed.

End StructuredStage.

(** ** [IsBlacklisted] *)

Section Blacklisting.

Variable sys : Sys.

(** [matches b cmd]: the method [MatchString] of the pattern compiled from
    [b], applied to [cmd]. *)
Variable matches : string -> string -> bool.

(** The loop of [IsBlacklisted].  Calling [MatchString] on a nil pattern
    dereferences a nil pointer. *)
Fixpoint blacklist_loop (cmd : string) (blacklist : list (option string)) : outcome bool :=
  match blacklist with
  | [] => Ok false
  | None :: _ => Panicked "invalid memory address or nil pointer dereference"
  | Some b :: rest => if matches b cmd then Ok true else blacklist_loop cmd rest
  end.

Definition IsBlacklisted (cmdline : list string) (blacklist : list (option string))
  : outcome bool :=
  blacklist_loop (Str.Join cmdline " ") blacklist.

Lemma blacklist_loop_compiled (cmd : string) (patterns : list string) :
  blacklist_loop cmd (Some <$> patterns) = Ok (existsb (fun b => matches b cmd) patterns).
Proof.
  induction patterns as [|b rest IH]; [reflexivity|].
  change (Some <$> b :: rest) with (Some b :: (Some <$> rest)).
  simpl. destruct (matches b cmd); [reflexivity | exact IH].
Qed.

Lemma blacklist_loop_nil (cmd : string) (patterns : list string) :
  (exists b, In b patterns /\ regexp_Compile_ok sys b = false) ->
  (forall b, In b patterns -> regexp_Compile_ok sys b = true -> matches b cmd = false) ->
  exists msg, blacklist_loop cmd (compiled_or_nil sys <$> patterns) = Panicked msg.
Proof.
  induction patterns as [|b rest IH]; intros [b0 [Hin Hbad]] Hno.
  - destruct Hin.
  - change (compiled_or_nil sys <$> b :: rest)
      with (compiled_or_nil sys b :: (compiled_or_nil sys <$> rest)).
    unfold compiled_or_nil at 1. destruct (regexp_Compile_ok sys b) eqn:Eb.
    + simpl. rewrite (Hno b (or_introl eq_refl) Eb).
      apply IH.
      * destruct Hin as [<- | Hin]; [congruence | eauto].
      * intros b' Hb'. apply Hno. right. exact Hb'.
    + simpl. eauto.
Qed.

(** X12.  A blacklist built from the legacy file holds compiled patterns
    only, and [IsBlacklisted] answers whether one of them matches the joined
    command line.  A blacklist built from the structured file keeps a nil
    entry for each pattern that does not compile: on a command line that no
    valid pattern matches, [IsBlacklisted] then panics instead of answering. *)
Theorem IsBlacklisted_nil_entry
        (agentConf : AgentConfig.t) (yc : YamlAgentConfig.t) (c : AgentConfig.t)
        (cmdline : list string) :
  value (mergeYamlConfig sys agentConf yc) = inl c ->
  (forall blacklistPats,
      IsBlacklisted cmdline (iniBlacklist sys blacklistPats)
      = Ok (existsb (fun b => regexp_Compile_ok sys b && matches b (Str.Join cmdline " "))
                    blacklistPats))
  /\ length (AgentConfig.Blacklist c)
     = length (YamlAgentConfig.Process_BlacklistPatterns yc)
  /\ ((exists b, In b (YamlAgentConfig.Process_BlacklistPatterns yc)
                 /\ regexp_Compile_ok sys b = false) ->
      (forall b, In b (YamlAgentConfig.Process_BlacklistPatterns yc) ->
                 regexp_Compile_ok sys b = true ->
                 matches b (Str.Join cmdline " ") = false) ->
      exists msg, IsBlacklisted cmdline (AgentConfig.Blacklist c) = Panicked msg).
Proof.
  intros Hc. apply mergeYamlConfig_Blacklist in Hc. split; [|split].
  - intros pats. unfold IsBlacklisted, iniBlacklist. rewrite blacklist_loop_compiled.
    f_equal. induction pats as [|b rest IH]; [reflexivity|].
    simpl. destruct (regexp_Compile_ok sys b); simpl; rewrite IH; reflexivity.
  - rewrite Hc. apply length_fmap.
  - intros Hbad Hno. unfold IsBlacklisted. rewrite Hc.
    apply blacklist_loop_nil; assumption.
Qed.

End Blacklisting.

(** A host on which patterns with an unclosed bracket do not compile, and a
    matcher that looks for the pattern text at the head of the line. *)
Definition strict_sys : Sys :=
  mkSys (url_Parse Host.sys) (Userinfo_String Host.sys)
        (fun b => negb (String.eqb b "["))
        (GetContainers_ok Host.sys) (containerized_with_host Host.sys)
        (defaultLogFilePath Host.sys) (defaultDDAgentPy Host.sys)
        (defaultDDAgentPyEnv Host.sys) (defaultDDAgentBin Host.sys)
        (Datadog_GetString Host.sys) (Datadog_GetInt Host.sys)
        (CreateHTTPTransport Host.sys) (NewLoggerLevel Host.sys)
        (IsFargateInstance Host.sys) (GetTaskMetadata Host.sys)
        (Run Host.sys) (Hostname Host.sys).

Definition prefix_matches (b cmd : string) : bool := Str.HasPrefix cmd b.

Definition yaml_with_bad_pattern : YamlAgentConfig.t :=
  YamlAgentConfig.Make "apikey_20" false "" "" 0 0 0 0 ["getty"; "["] None [] false 0 0 0 ""
                       [] "" 0 None.

Definition merged_with_bad_pattern : AgentConfig.t :=
  match value (mergeYamlConfig strict_sys blank_config yaml_with_bad_pattern) with
  | inl c => c
  | inr _ => blank_config
  end.

Lemma IsBlacklisted_nil_entry_witness :
  value (mergeYamlConfig strict_sys blank_config yaml_with_bad_pattern)
  = inl merged_with_bad_pattern
  /\ AgentConfig.Blacklist merged_with_bad_pattern = [Some "getty"; None]
  /\ IsBlacklisted prefix_matches ["getty"; "-foo"] (AgentConfig.Blacklist merged_with_bad_pattern)
     = Ok true
  /\ exists msg, IsBlacklisted prefix_matches ["sshd"; "-D"]
                               (AgentConfig.Blacklist merged_with_bad_pattern)
                 = Panicked msg.
Proof.
  assert (H : value (mergeYamlConfig strict_sys blank_config yaml_with_bad_pattern)
              = inl merged_with_bad_pattern) by (vm_compute; reflexivity).
  split; [exact H|]. split; [vm_compute; reflexivity|].
  split; [vm_compute; reflexivity|].
  destruct (IsBlacklisted_nil_entry strict_sys prefix_matches blank_config
              yaml_with_bad_pattern merged_with_bad_pattern ["sshd"; "-D"] H)
    as (_ & _ & Hp).
  apply Hp.
  - exists "[". split; [right; left; reflexivity | reflexivity].
  - intros b [<- | [<- | []]]; intros _; vm_compute; try reflexivity.
Defined.

(** ** What every resolved configuration satisfies *)

Section Resolved.

Variable sys : Sys.

Import AgentConfig.

(** The two optional stages of [NewAgentConfig]. *)
Definition legacyStage (agentIni : option File) (cfg : AgentConfig.t)
  : Log (result AgentConfig.t) :=
  match agentIni, agentIni ≫= fun f => GetSection f "Main" with
  | Some f, Some m => iniConfig sys f m cfg
  | _, _ => ret (inl cfg)
  end.

Definition structuredStage (agentYaml : option YamlAgentConfig.t) (cfg : AgentConfig.t)
  : Log (result AgentConfig.t) :=
  match agentYaml with
  | Some yc => mergeYamlConfig sys cfg yc
  | None => ret (inl cfg)
  end.

(** [NewAgentConfig], stage by stage. *)
Lemma NewAgentConfig_stages (env : Env) (agentIni : option File)
      (agentYaml : option YamlAgentConfig.t) :
  value (NewAgentConfig sys env agentIni agentYaml)
  = match value (NewDefaultAgentConfig sys env) with
    | Panicked err => Panicked err
    | Failed err => Failed err
    | Ok (c0, env') =>
        match value (legacyStage agentIni c0) with
        | inr err => Failed err
        | inl c1 =>
            match value (structuredStage agentYaml c1) with
            | inr err => Failed err
            | inl c2 =>
                match value (finishConfig sys env'
                               (value (mergeEnvironmentVariables sys env' c2))) with
                | inr err => Failed err
                | inl cfg => Ok cfg
                end
            end
        end
    end.
Proof.
  unfold NewAgentConfig, legacyStage, structuredStage. rewrite value_bind.
  destruct (value (NewDefaultAgentConfig sys env)) as [[c0 env']| |]; try reflexivity.
  cbv beta iota zeta. rewrite value_bind.
  match goal with
  | |- context [value ?m] =>
      lazymatch m with
      | match agentIni with _ => _ end => destruct (value m) as [c1|e1]; [|reflexivity]
      end
  end.
  cbv beta iota. rewrite value_bind.
  match goal with
  | |- context [value ?m] =>
      lazymatch m with
      | match agentYaml with _ => _ end => destruct (value m) as [c2|e2]; [|reflexivity]
      end
  end.
  cbv beta iota. rewrite !value_bind.
  destruct (value (finishConfig sys env' _)); reflexivity.
Qed.

Lemma NewAgentConfig_Ok (env : Env) (agentIni : option File)
      (agentYaml : option YamlAgentConfig.t) (cfg : AgentConfig.t) :
  value (NewAgentConfig sys env agentIni agentYaml) = Ok cfg ->
  exists c0 env' c1 c2,
    value (NewDefaultAgentConfig sys env) = Ok (c0, env')
    /\ value (legacyStage agentIni c0) = inl c1
    /\ value (structuredStage agentYaml c1) = inl c2
    /\ value (finishConfig sys env' (value (mergeEnvironmentVariables sys env' c2)))
       = inl cfg.
Proof.
  rewrite NewAgentConfig_stages.
  destruct (value (NewDefaultAgentConfig sys env)) as [[c0 env']| |] eqn:E0;
    try discriminate.
  destruct (value (legacyStage agentIni c0)) as [c1|] eqn:E1; try discriminate.
  destruct (value (structuredStage agentYaml c1)) as [c2|] eqn:E2; try discriminate.
  destruct (value (finishConfig sys env' _)) as [c3|] eqn:E3; try discriminate.
  intros [= <-]. exists c0, env', c1, c2. auto.
Qed.

(** What [finishConfig] leaves behind. *)
Lemma finishConfig_result (env : Env) (cfg c : AgentConfig.t) :
  value (finishConfig sys env cfg) = inl c ->
  WindowsConfig.ArgsRefreshInterval (Windows c) <> 0%Z
  /\ Strings.ToLower (LogLevel c) <> "warning"
  /\ proxy c = proxy cfg
  /\ (forall p, proxy cfg = Some p -> Proxy (Transport c) = Some p)
  /\ (proxy cfg = None -> Transport c = Transport cfg)
  /\ (nonempty (HostName cfg) = true -> HostName c = HostName cfg)
  /\ CheckIntervals c = CheckIntervals cfg
  /\ Scrubber c = Scrubber cfg.
Proof.
  revert c.
  set (Q := fun c : AgentConfig.t =>
              WindowsConfig.ArgsRefreshInterval (Windows c) <> 0%Z
              /\ Strings.ToLower (LogLevel c) <> "warning"
              /\ proxy c = proxy cfg
              /\ (forall p, proxy cfg = Some p -> Proxy (Transport c) = Some p)
              /\ (proxy cfg = None -> Transport c = Transport cfg)
              /\ (nonempty (HostName cfg) = true -> HostName c = HostName cfg)
              /\ CheckIntervals c = CheckIntervals cfg
              /\ Scrubber c = Scrubber cfg).
  change (post (finishConfig sys env cfg) (fun r _ => forall c, r = inl c -> Q c)).
  open finishConfig.
  pose (P1 := fun x : AgentConfig.t =>
                Strings.ToLower (LogLevel x) <> "warning"
                /\ proxy x = proxy cfg /\ Transport x = Transport cfg
                /\ HostName x = HostName cfg
                /\ CheckIntervals x = CheckIntervals cfg /\ Scrubber x = Scrubber cfg).
  lazymatch goal with
  | |- post (let x := ?e in @?k x) ?Q' => refine (post_let e k P1 Q' _ _)
  end.
  { unfold P1. destruct (String.eqb (Strings.ToLower (LogLevel cfg)) "warning") eqn:E; fields.
    - repeat split; try reflexivity. vm_compute. discriminate.
    - apply String.eqb_neq in E. repeat split; try reflexivity. exact E. }
  intros x Hx. cbv beta.
  destruct (NewLoggerLevel sys _ _ _); [apply post_ret; intros c' [=]|].
  pose (P2 := fun y : AgentConfig.t =>
                Strings.ToLower (LogLevel y) <> "warning"
                /\ proxy y = proxy cfg /\ Transport y = Transport cfg
                /\ (nonempty (HostName cfg) = true -> HostName y = HostName cfg)
                /\ CheckIntervals y = CheckIntervals cfg /\ Scrubber y = Scrubber cfg).
  lazymatch goal with
  | |- post (bind ?m ?f) ?Q' => refine (post_bind m f (fun a _ => P2 a) Q' _ _)
  end.
  { unfold post, P1, P2 in *. destruct Hx as (H1 & H2 & H3 & H4 & H5 & H6).
    unfold nonempty. rewrite <- H4.
    destruct (Str.is_empty (HostName x)) eqn:Eh.
    - repeat case_match; repeat (rewrite ?value_bind; cbv beta); repeat case_match;
        rewrite ?value_ret; fields; repeat split; auto; discriminate.
    - rewrite value_ret. repeat split; auto. }
  intros y l1 Hy. cbv beta.
  pose (P3 := fun z : AgentConfig.t =>
                Strings.ToLower (LogLevel z) <> "warning"
                /\ proxy z = proxy cfg
                /\ (forall p, proxy cfg = Some p -> Proxy (Transport z) = Some p)
                /\ (proxy cfg = None -> Transport z = Transport cfg)
                /\ (nonempty (HostName cfg) = true -> HostName z = HostName cfg)
                /\ CheckIntervals z = CheckIntervals cfg /\ Scrubber z = Scrubber cfg).
  lazymatch goal with
  | |- post (let x := ?e in @?k x) ?Q' => refine (post_let e k P3 Q' _ _)
  end.
  { unfold P2, P3 in *. destruct Hy as (H1 & H2 & H3 & H4 & H5 & H6).
    rewrite H2. destruct (proxy cfg) as [p|]; fields; repeat split; auto;
      try discriminate; intros p' [= <-]; reflexivity. }
  intros z Hz. cbv beta.
  lazymatch goal with
  | |- post (bind ?m ?f) ?Q' => refine (post_bind m f (fun a _ => Q a) Q' _ _)
  end.
  { unfold post, P3, Q in *. destruct Hz as (H1 & H2 & H3 & H4 & H5 & H6 & H7).
    destruct (WindowsConfig.ArgsRefreshInterval (Windows z) =? 0)%Z eqn:E.
    - rewrite value_bind, value_ret. fields. repeat split; auto; discriminate.
    - rewrite value_ret. apply Z.eqb_neq in E. repeat split; auto. }
  intros w l2 Hw. cbv beta.
  apply post_ret. intros c' [= <-]. exact Hw.
Qed.

(** X13.  A configuration that [NewAgentConfig] returns can be used by the
    checks as it is: the refresh interval that they use as a divisor is not
    zero, the log level is not the Python spelling [warning] in any case of
    letters, and a proxy that was resolved is the proxy of the transport. *)
Theorem NewAgentConfig_ready (env : Env) (agentIni : option File)
        (agentYaml : option YamlAgentConfig.t) (cfg : AgentConfig.t) :
  value (NewAgentConfig sys env agentIni agentYaml) = Ok cfg ->
  WindowsConfig.ArgsRefreshInterval (Windows cfg) <> 0%Z
  /\ Strings.ToLower (LogLevel cfg) <> "warning"
  /\ (forall p, proxy cfg = Some p -> Proxy (Transport cfg) = Some p).
Proof.
  intros H. apply NewAgentConfig_Ok in H.
  destruct H as (c0 & env' & c1 & c2 & _ & _ & _ & H).
  apply finishConfig_result in H.
  destruct H as (H1 & H2 & H3 & H4 & _). repeat split; auto.
  intros p Hp. apply H4. rewrite <- H3. exact Hp.
Qed.

End Resolved.

(** ** The stages on concrete sources *)

(** U+00A0, the no-break space, and U+0130, the capital I with a dot. *)
Definition no_break_space : string :=
  String (ascii_of_nat 194) (String (ascii_of_nat 160) "").

Definition dotted_I : string :=
  String (ascii_of_nat 196) (String (ascii_of_nat 176) "").

Definition env_two_keys : Env :=
  {[ "API_KEY" := "old_key";
     "DD_API_KEY" := " " +:+ no_break_space +:+ "key1" +:+ no_break_space +:+ " , key2" ]}.

Lemma mergeEnvironmentVariables_APIKey_witness :
  nonempty (env_api_key env_two_keys) = true
  /\ AgentConfig.APIKey (value (mergeEnvironmentVariables Host.sys env_two_keys blank_config))
     = "key1".
Proof.
  split; [vm_compute; reflexivity|].
  destruct (mergeEnvironmentVariables_APIKey Host.sys env_two_keys blank_config) as [H _].
  destruct (H ltac:(vm_compute; reflexivity)) as [-> _].
  vm_compute. reflexivity.
Defined.

Definition env_scrub_off : Env :=
  {[ "DD_SCRUB_ARGS" := "false"; "DD_CUSTOM_SENSITIVE_WORDS" := "token" ]}.

Lemma mergeEnvironmentVariables_Scrubber_witness :
  isAffirmative (Getenv env_scrub_off "DD_SCRUB_ARGS") = (false, None)
  /\ ScrubCmdline
       (AgentConfig.Scrubber
          (value (mergeEnvironmentVariables Host.sys env_scrub_off blank_config)))
       ["agent"; "--token=1234"]
     = ["agent"; "--token=1234"].
Proof.
  split; [vm_compute; reflexivity|].
  destruct (mergeEnvironmentVariables_Scrubber Host.sys env_scrub_off blank_config)
    as (_ & _ & _ & H).
  apply H. vm_compute. reflexivity.
Defined.

(** A structured file that says [enabled: false], with a queue size below
    zero and a limit of 300 file descriptors, merged into the defaults. *)
Definition default_config : AgentConfig.t :=
  match value (NewDefaultAgentConfig Host.sys ∅) with
  | Ok (c, _) => c
  | _ => blank_config
  end.

Definition yaml_process_false : YamlAgentConfig.t :=
  YamlAgentConfig.Make "apikey_20" false "false" "" 0 0 0 0 [] None [] false (-5) 300 0 ""
                       [] "" 0 None.

Definition merged_process_false : AgentConfig.t :=
  match value (mergeYamlConfig Host.sys default_config yaml_process_false) with
  | inl c => c
  | inr _ => blank_config
  end.

(** The same file with [enabled: DİSABLED], the I dotted. *)
Definition yaml_process_dotted : YamlAgentConfig.t :=
  YamlAgentConfig.Make "apikey_20" false ("D" +:+ dotted_I +:+ "SABLED") "" 0 0 0 0 []
                       None [] false (-5) 300 0 "" [] "" 0 None.

Definition merged_process_dotted : AgentConfig.t :=
  match value (mergeYamlConfig Host.sys default_config yaml_process_dotted) with
  | inl c => c
  | inr _ => blank_config
  end.

Lemma mergeYamlConfig_Enabled_witness :
  (value (mergeYamlConfig Host.sys default_config yaml_process_false)
   = inl merged_process_false
   /\ AgentConfig.Enabled merged_process_false = true
   /\ AgentConfig.EnabledChecks merged_process_false = containerChecks)
  /\ (value (mergeYamlConfig Host.sys default_config yaml_process_dotted)
      = inl merged_process_dotted
      /\ AgentConfig.Enabled merged_process_dotted = false
      /\ AgentConfig.EnabledChecks merged_process_dotted
         = AgentConfig.EnabledChecks default_config).
Proof.
  assert (H : value (mergeYamlConfig Host.sys default_config yaml_process_false)
              = inl merged_process_false) by (vm_compute; reflexivity).
  assert (H' : value (mergeYamlConfig Host.sys default_config yaml_process_dotted)
               = inl merged_process_dotted) by (vm_compute; reflexivity).
  exact (conj (conj H (mergeYamlConfig_Enabled Host.sys default_config yaml_process_false
                                               merged_process_false H))
              (conj H' (mergeYamlConfig_Enabled Host.sys default_config yaml_process_dotted
                                                merged_process_dotted H'))).
Defined.

Lemma mergeYamlConfig_positive_fields_witness :
  value (mergeYamlConfig Host.sys default_config yaml_process_false)
  = inl merged_process_false
  /\ (0 < AgentConfig.QueueSize default_config)%Z
  /\ AgentConfig.QueueSize merged_process_false = 20%Z
  /\ AgentConfig.MaxProcFDs merged_process_false = 300%Z
  /\ (0 < AgentConfig.QueueSize merged_process_false)%Z.
Proof.
  assert (H : value (mergeYamlConfig Host.sys default_config yaml_process_false)
              = inl merged_process_false) by (vm_compute; reflexivity).
  assert (H0 : (0 < AgentConfig.QueueSize default_config)%Z) by (vm_compute; reflexivity).
  destruct (mergeYamlConfig_positive_fields Host.sys default_config yaml_process_false
                                            merged_process_false H)
    as (Hq & Hf & Hq' & _).
  exact (conj H (conj H0 (conj Hq (conj Hf (Hq' H0))))).
Defined.

(** A legacy file with the Python spelling of the log level, a proxy and a
    refresh interval of zero. *)
Definition ini_python_style : File :=
  {[ "Main" := {[ "api_key" := "apikey_12"; "log_level" := "WARNING";
                  "proxy_host" := "fileproxy" ]};
     "process.config" := {[ "windows_args_refresh_interval" := "0" ]} ]}.

Definition resolved_python_style : AgentConfig.t :=
  match value (NewAgentConfig Host.sys ∅ (Some ini_python_style) None) with
  | Ok c => c
  | _ => blank_config
  end.

(** An environment that spells the level [WARNİNG], the I dotted. *)
Definition env_dotted_warning : Env :=
  {[ "LOG_LEVEL" := "WARN" +:+ dotted_I +:+ "NG" ]}.

Definition resolved_dotted_warning : AgentConfig.t :=
  match value (NewAgentConfig Host.sys env_dotted_warning (Some ini_python_style) None) with
  | Ok c => c
  | _ => blank_config
  end.

Lemma NewAgentConfig_ready_witness :
  value (NewAgentConfig Host.sys env_dotted_warning (Some ini_python_style) None)
  = Ok resolved_dotted_warning
  /\ WindowsConfig.ArgsRefreshInterval (AgentConfig.Windows resolved_dotted_warning)
     = (-1)%Z
  /\ AgentConfig.LogLevel resolved_dotted_warning = "warn"
  /\ AgentConfig.proxy resolved_dotted_warning = Some file_proxy
  /\ Proxy (AgentConfig.Transport resolved_dotted_warning) = Some file_proxy.
Proof.
  assert (H : value (NewAgentConfig Host.sys env_dotted_warning (Some ini_python_style) None)
              = Ok resolved_dotted_warning) by (vm_compute; reflexivity).
  assert (Hp : AgentConfig.proxy resolved_dotted_warning = Some file_proxy)
    by (vm_compute; reflexivity).
  destruct (NewAgentConfig_ready Host.sys env_dotted_warning (Some ini_python_style) None
                                 resolved_dotted_warning H) as (_ & _ & Ht).
  exact (conj H (conj eq_refl (conj eq_refl (conj Hp (Ht file_proxy Hp))))).
Defined.

(** ** Invariants of the whole resolution *)

(** Walk through a stage with the assertion [P] on the configuration:
    every statement that binds the configuration keeps [P] (by [tac]),
    the other bindings are left to [other], and an early return of an error
    ends the walk. *)
Ltac walk_with P tac other :=
  repeat first
    [ lazymatch goal with |- post (ret _) _ => apply post_ret end;
      first [ assumption
            | intros ? [= <-]; assumption
            | intros ? ?; discriminate ]
    | statement_by P tac
    | other
    | lazymatch goal with
      | |- post (match ?x with _ => _ end) _ => destruct x
      end ].

Ltac walk P tac := walk_with P tac pass.

Section ResolvedInvariants.

Variable sys : Sys.

Import AgentConfig.

(** *** The default patterns stay in front *)

Definition patterns_from (p : list regex) (c : AgentConfig.t) : Prop :=
  exists extra, SensitivePatterns (Scrubber c) = p ++ extra.

Ltac patterns_side :=
  unfold post, patterns_from, addWords, on_scrubber, AddCustomSensitiveWords in *;
  cbv beta zeta;
  repeat case_match;
  repeat (rewrite ?value_bind; cbv beta);
  rewrite ?value_ret;
  fields;
  match goal with
  | H : exists e, _ = _ |- _ =>
      let e := fresh "e" in
      let He := fresh "He" in
      destruct H as [e He];
      first [ eexists; exact He
            | rewrite He, <- app_assoc; eexists; reflexivity ]
  end.

Lemma iniConfig_patterns (p : list regex) (agentIni : File) (section : IniSection)
      (cfg c : AgentConfig.t) :
  patterns_from p cfg ->
  value (iniConfig sys agentIni section cfg) = inl c -> patterns_from p c.
Proof.
  intros H0. revert c.
  change (post (iniConfig sys agentIni section cfg)
               (fun r _ => forall c, r = inl c -> patterns_from p c)).
  open iniConfig.
  walk (patterns_from p) patterns_side.
Qed.

Lemma mergeYamlConfig_patterns (p : list regex) (agentConf : AgentConfig.t)
      (yc : YamlAgentConfig.t) (c : AgentConfig.t) :
  patterns_from p agentConf ->
  value (mergeYamlConfig sys agentConf yc) = inl c -> patterns_from p c.
Proof.
  intros H0. revert c.
  change (post (mergeYamlConfig sys agentConf yc)
               (fun r _ => forall c, r = inl c -> patterns_from p c)).
  open mergeYamlConfig.
  do 2 statement_by (patterns_from p) patterns_side.
  lazymatch goal with
  | |- post (let x := ?e in @?k x) ?Q =>
      refine (post_let e k (fun r => forall c, r = inl c -> patterns_from p c) Q _ _)
  end.
  { repeat case_match; intros c' [= <-]; fields; assumption. }
  intros [c1 | err] Hend; cbv beta; [|apply post_ret; intros c' [=]].
  specialize (Hend c1 eq_refl).
  walk (patterns_from p) patterns_side.
Qed.

Lemma mergeEnvironmentVariables_patterns (p : list regex) (env : Env)
      (c : AgentConfig.t) :
  patterns_from p c ->
  patterns_from p (value (mergeEnvironmentVariables sys env c)).
Proof.
  intros H0.
  apply (post_value _ (patterns_from p)).
  open mergeEnvironmentVariables.
  walk (patterns_from p) patterns_side.
Qed.

Lemma Getenv_Setenv_ne (env : Env) (a v k : string) :
  a <> k -> Getenv (Setenv env a v) k = Getenv env k.
Proof.
  intros H. unfold Getenv, Setenv, Env in *. rewrite lookup_insert_ne by exact H.
  reflexivity.
Qed.

(** [if os.Getenv(a) == "" { os.Setenv(a, v) }] changes no variable that
    is set. *)
Lemma Setenv_if_empty (env : Env) (a v k : string) :
  let env' := if Str.is_empty (Getenv env a) then Setenv env a v else env in
  (k <> a -> Getenv env' k = Getenv env k)
  /\ (nonempty (Getenv env k) = true -> Getenv env' k = Getenv env k).
Proof.
  cbv zeta. destruct (Str.is_empty (Getenv env a)) eqn:E; [|split; reflexivity].
  split.
  - intros H. apply Getenv_Setenv_ne. congruence.
  - intros H. destruct (decide (a = k)) as [<- | Hne].
    + unfold nonempty in H. rewrite E in H. discriminate H.
    + apply Getenv_Setenv_ne. exact Hne.
Qed.

Lemma NewDefaultAgentConfig_result (env : Env) (c : AgentConfig.t) (env' : Env) :
  value (NewDefaultAgentConfig sys env) = Ok (c, env') ->
  Scrubber c = DataScrubber.Make true (omap matcher_of defaultSensitiveWords) false
  /\ CheckIntervals c = defaultCheckIntervals
  /\ Blacklist c = []
  /\ HostName c = ""
  /\ APIKey c = ""
  /\ (forall k, k <> "HOST_PROC" -> k <> "HOST_SYS" -> Getenv env' k = Getenv env k)
  /\ (forall k, nonempty (Getenv env k) = true -> Getenv env' k = Getenv env k).
Proof.
  unfold NewDefaultAgentConfig. destruct (url_Parse sys defaultEndpoint); [|discriminate].
  rewrite value_bind. cbv beta zeta. rewrite value_ret.
  unfold NewDefaultDataScrubber. rewrite value_bind, value_ret.
  rewrite compileStringsToRegex_value.
  intros [= <- <-].
  repeat split; try (case_match; reflexivity).
  - intros k H1 H2. destruct (containerized_with_host sys); [|reflexivity].
    pose proof (Setenv_if_empty env "HOST_PROC" "/host/proc" k) as [Ha _].
    cbv zeta in Ha.
    pose proof (Setenv_if_empty
                  (if Str.is_empty (Getenv env "HOST_PROC")
                   then Setenv env "HOST_PROC" "/host/proc" else env)
                  "HOST_SYS" "/host/sys" k) as [Hb _].
    cbv zeta in Hb. rewrite (Hb H2). exact (Ha H1).
  - intros k Hk. destruct (containerized_with_host sys); [|reflexivity].
    pose proof (Setenv_if_empty env "HOST_PROC" "/host/proc" k) as [_ Ha].
    cbv zeta in Ha. specialize (Ha Hk).
    pose proof (Setenv_if_empty
                  (if Str.is_empty (Getenv env "HOST_PROC")
                   then Setenv env "HOST_PROC" "/host/proc" else env)
                  "HOST_SYS" "/host/sys" k) as [_ Hb].
    cbv zeta in Hb. rewrite Hb; [exact Ha | rewrite Ha; exact Hk].
Qed.

(** X14.  Whatever the three sources say, the scrubber of a resolved
    configuration still holds the matchers of the default sensitive words,
    in front and in order: custom words of the legacy file, of the
    structured file and of the environment are only added behind them. *)
Theorem NewAgentConfig_keeps_default_patterns
        (env : Env) (agentIni : option File) (agentYaml : option YamlAgentConfig.t)
        (cfg : AgentConfig.t) :
  value (NewAgentConfig sys env agentIni agentYaml) = Ok cfg ->
  exists custom,
    SensitivePatterns (Scrubber cfg) = omap matcher_of defaultSensitiveWords ++ custom.
Proof.
  intros H. apply NewAgentConfig_Ok in H.
  destruct H as (c0 & env' & c1 & c2 & H0 & H1 & H2 & H3).
  set (p := omap matcher_of defaultSensitiveWords).
  apply NewDefaultAgentConfig_result in H0. destruct H0 as (Hs & _).
  assert (P0 : patterns_from p c0).
  { exists []. rewrite Hs. cbn [SensitivePatterns]. rewrite app_nil_r. reflexivity. }
  assert (P1 : patterns_from p c1).
  { unfold legacyStage in H1. destruct agentIni as [f|]; cbn in H1.
    - destruct (GetSection f "Main").
      + exact (iniConfig_patterns p _ _ _ _ P0 H1).
      + injection H1 as <-. exact P0.
    - injection H1 as <-. exact P0. }
  assert (P2 : patterns_from p c2).
  { unfold structuredStage in H2. destruct agentYaml as [yc|].
    - exact (mergeYamlConfig_patterns p _ _ _ P1 H2).
    - injection H2 as <-. exact P1. }
  apply finishConfig_result in H3.
  destruct H3 as (_ & _ & _ & _ & _ & _ & _ & ->).
  apply mergeEnvironmentVariables_patterns. exact P2.
Qed.

(** *** Every default check keeps an interval *)

Definition has_checks (m0 : gmap string Z) (c : AgentConfig.t) : Prop :=
  forall name, is_Some (m0 !! name) -> is_Some (CheckIntervals c !! name).

Lemma iniCheckIntervals_is_Some (agentIni : File) (m : gmap string Z) (name : string) :
  is_Some (m !! name) -> is_Some (value (iniCheckIntervals agentIni m) !! name).
Proof.
  intros H. unfold iniCheckIntervals.
  induction (map_to_list m) as [|[checkName defaultInterval] l IH]; [exact H|].
  cbn [foldr]. rewrite value_bind. cbv beta zeta.
  case_match.
  - rewrite value_bind, value_ret. apply lookup_insert_is_Some'. right. exact IH.
  - rewrite value_ret. exact IH.
Qed.

Lemma yamlIntervals_is_Some (yc : YamlAgentConfig.t) (m : gmap string Z) (name : string) :
  is_Some (m !! name) -> is_Some (yamlIntervals yc m !! name).
Proof.
  intros H. unfold yamlIntervals. cbv zeta.
  repeat case_match; repeat (apply lookup_insert_is_Some'; right); exact H.
Qed.

Ltac checks_side :=
  unfold post, has_checks, addWords, on_scrubber in *;
  cbv beta zeta;
  repeat case_match;
  repeat (rewrite ?value_bind; cbv beta);
  rewrite ?value_ret;
  fields; auto.

Lemma iniConfig_has_checks (m0 : gmap string Z) (agentIni : File)
      (section : IniSection) (cfg c : AgentConfig.t) :
  has_checks m0 cfg ->
  value (iniConfig sys agentIni section cfg) = inl c -> has_checks m0 c.
Proof.
  intros H0. revert c.
  change (post (iniConfig sys agentIni section cfg)
               (fun r _ => forall c, r = inl c -> has_checks m0 c)).
  open iniConfig.
  walk_with (has_checks m0) checks_side
            ltac:(first
                    [ lazymatch goal with
                      | |- post (bind (iniCheckIntervals _ (CheckIntervals ?x)) ?f) ?Q =>
                          refine (post_bind _ f
                                    (fun m _ => forall name, is_Some (m0 !! name) ->
                                                             is_Some (m !! name)) Q _ _);
                          [ unfold post; intros name Hn;
                            apply iniCheckIntervals_is_Some;
                            match goal with
                            | H : has_checks m0 x |- _ => exact (H name Hn)
                            end
                          | intros ? ? ? ]
                      end
                    | pass ]).
Qed.

Lemma mergeEnvironmentVariables_kept (env : Env) (c : AgentConfig.t) :
  let c' := value (mergeEnvironmentVariables sys env c) in
  CheckIntervals c' = CheckIntervals c /\ Blacklist c' = Blacklist c.
Proof.
  cbv zeta.
  apply (post_value _ (fun c' => CheckIntervals c' = CheckIntervals c
                                 /\ Blacklist c' = Blacklist c)).
  open mergeEnvironmentVariables.
  walk (fun c' => CheckIntervals c' = CheckIntervals c /\ Blacklist c' = Blacklist c)
       ltac:(checks_side).
Qed.

Definition defaultChecks : list string :=
  ["process"; "rtprocess"; "container"; "rtcontainer"; "connections"].

(** X15.  After a resolution that succeeds, each of the five checks that
    have a default interval still has one, whatever the files set or left
    out: [CheckInterval] finds it and does not log that an interval is
    missing. *)
Theorem NewAgentConfig_check_intervals
        (env : Env) (agentIni : option File) (agentYaml : option YamlAgentConfig.t)
        (cfg : AgentConfig.t) (checkName : string) :
  value (NewAgentConfig sys env agentIni agentYaml) = Ok cfg ->
  In checkName defaultChecks ->
  CheckIntervals cfg !! checkName = Some (value (CheckInterval cfg checkName))
  /\ written (CheckInterval cfg checkName) = [].
Proof.
  intros H Hin. apply NewAgentConfig_Ok in H.
  destruct H as (c0 & env' & c1 & c2 & H0 & H1 & H2 & H3).
  apply NewDefaultAgentConfig_result in H0. destruct H0 as (_ & Hd & _).
  assert (P0 : has_checks defaultCheckIntervals c0).
  { intros name Hn. rewrite Hd. exact Hn. }
  assert (P1 : has_checks defaultCheckIntervals c1).
  { unfold legacyStage in H1. destruct agentIni as [f|]; cbn in H1.
    - destruct (GetSection f "Main").
      + exact (iniConfig_has_checks _ _ _ _ _ P0 H1).
      + injection H1 as <-. exact P0.
    - injection H1 as <-. exact P0. }
  assert (P2 : has_checks defaultCheckIntervals c2).
  { unfold structuredStage in H2. destruct agentYaml as [yc|].
    - intros name Hn. rewrite (mergeYamlConfig_CheckIntervals sys _ _ _ H2).
      apply yamlIntervals_is_Some. exact (P1 name Hn).
    - injection H2 as <-. exact P1. }
  apply finishConfig_result in H3.
  destruct H3 as (_ & _ & _ & _ & _ & _ & Hk & _).
  destruct (mergeEnvironmentVariables_kept env' c2) as [He _].
  assert (Hsome : is_Some (CheckIntervals cfg !! checkName)).
  { rewrite Hk, He. apply P2.
    unfold defaultChecks in Hin. simpl in Hin.
    destruct Hin as [<- | [<- | [<- | [<- | [<- | []]]]]]; vm_compute; eauto. }
  destruct Hsome as [d Hd']. unfold CheckInterval. rewrite Hd'. split; reflexivity.
Qed.

(** *** The host name *)

Lemma iniConfig_HostName (agentIni : File) (section : IniSection)
      (cfg c : AgentConfig.t) :
  value (iniConfig sys agentIni section cfg) = inl c -> HostName c = HostName cfg.
Proof.
  revert c.
  change (post (iniConfig sys agentIni section cfg)
               (fun r _ => forall c, r = inl c -> HostName c = HostName cfg)).
  open iniConfig.
  walk (fun x => HostName x = HostName cfg) checks_side.
Qed.

Lemma mergeYamlConfig_HostName (agentConf : AgentConfig.t) (yc : YamlAgentConfig.t)
      (c : AgentConfig.t) :
  value (mergeYamlConfig sys agentConf yc) = inl c -> HostName c = HostName agentConf.
Proof.
  revert c.
  change (post (mergeYamlConfig sys agentConf yc)
               (fun r _ => forall c, r = inl c -> HostName c = HostName agentConf)).
  open mergeYamlConfig.
  do 2 statement (fun x => HostName x = HostName agentConf).
  lazymatch goal with
  | |- post (let x := ?e in @?k x) ?Q =>
      refine (post_let e k (fun r => forall c, r = inl c -> HostName c = HostName agentConf)
                       Q _ _)
  end.
  { repeat case_match; intros c' [= <-]; fields; assumption. }
  intros [c1 | err] Hend; cbv beta; [|apply post_ret; intros c' [=]].
  specialize (Hend c1 eq_refl).
  walk (fun x => HostName x = HostName agentConf) checks_side.
Qed.

Lemma mergeEnvironmentVariables_HostName (env : Env) (c : AgentConfig.t) :
  HostName (value (mergeEnvironmentVariables sys env c))
  = if nonempty (Getenv env "DD_HOSTNAME") then Getenv env "DD_HOSTNAME" else HostName c.
Proof.
  set (h := if nonempty (Getenv env "DD_HOSTNAME")
            then Getenv env "DD_HOSTNAME" else HostName c).
  apply (post_value _ (fun c' => HostName c' = h)).
  open mergeEnvironmentVariables.
  statement (fun x => HostName x = HostName c).
  statement_by (fun x => HostName x = h)
               ltac:(unfold post, h; cbv zeta; case_match;
                     rewrite ?value_bind, ?value_ret; fields; auto).
  walk (fun x => HostName x = h) checks_side.
Qed.

Lemma finishConfig_Fargate (env : Env) (cfg c : AgentConfig.t) (taskARN : string) :
  value (finishConfig sys env cfg) = inl c ->
  HostName cfg = "" ->
  IsFargateInstance sys = true ->
  GetTaskMetadata sys = inl taskARN ->
  HostName c = "fargate_task:" +:+ taskARN.
Proof.
  intros Hc He Hf Ha. revert c Hc.
  change (post (finishConfig sys env cfg)
               (fun r _ => forall c, r = inl c ->
                                     HostName c = "fargate_task:" +:+ taskARN)).
  open finishConfig.
  statement (fun x => HostName x = HostName cfg).
  destruct (NewLoggerLevel sys _ _ _); [apply post_ret; intros c' [=]|].
  statement_by (fun x => HostName x = "fargate_task:" +:+ taskARN)
               ltac:(unfold post;
                     match goal with H : HostName _ = HostName cfg |- _ =>
                                       rewrite H, He end;
                     cbn [Str.is_empty]; rewrite Hf, Ha, value_ret; reflexivity).
  walk (fun x => HostName x = "fargate_task:" +:+ taskARN) checks_side.
Qed.

(** X16.  Two cases in which the files have no say in the host name of a
    resolved configuration: a non-empty [DD_HOSTNAME] is taken as it is,
    and with [DD_HOSTNAME] empty or unset a Fargate instance whose task
    metadata can be read is named [fargate_task:] followed by the ARN of
    its task.  (In the remaining case the name comes from [getHostname].) *)
Theorem NewAgentConfig_HostName
        (env : Env) (agentIni : option File) (agentYaml : option YamlAgentConfig.t)
        (cfg : AgentConfig.t) :
  value (NewAgentConfig sys env agentIni agentYaml) = Ok cfg ->
  (nonempty (Getenv env "DD_HOSTNAME") = true -> HostName cfg = Getenv env "DD_HOSTNAME")
  /\ (Getenv env "DD_HOSTNAME" = "" ->
      IsFargateInstance sys = true ->
      forall taskARN, GetTaskMetadata sys = inl taskARN ->
                      HostName cfg = "fargate_task:" +:+ taskARN).
Proof.
  intros H. apply NewAgentConfig_Ok in H.
  destruct H as (c0 & env' & c1 & c2 & H0 & H1 & H2 & H3).
  apply NewDefaultAgentConfig_result in H0.
  destruct H0 as (_ & _ & _ & Hh0 & _ & Henv & _).
  assert (Hv : Getenv env' "DD_HOSTNAME" = Getenv env "DD_HOSTNAME")
    by (apply Henv; discriminate).
  assert (Hh1 : HostName c1 = "").
  { unfold legacyStage in H1. destruct agentIni as [f|]; cbn in H1.
    - destruct (GetSection f "Main").
      + rewrite (iniConfig_HostName _ _ _ _ H1). exact Hh0.
      + injection H1 as <-. exact Hh0.
    - injection H1 as <-. exact Hh0. }
  assert (Hh2 : HostName c2 = "").
  { unfold structuredStage in H2. destruct agentYaml as [yc|].
    - rewrite (mergeYamlConfig_HostName _ _ _ H2). exact Hh1.
    - injection H2 as <-. exact Hh1. }
  pose proof (mergeEnvironmentVariables_HostName env' c2) as He. rewrite Hv in He.
  split.
  - intros Hset. rewrite Hset in He.
    apply finishConfig_result in H3.
    destruct H3 as (_ & _ & _ & _ & _ & Hk & _).
    rewrite Hk; [exact He | rewrite He; exact Hset].
  - intros Hunset Hf taskARN Ha. rewrite Hunset in He. cbn in He.
    apply (finishConfig_Fargate _ _ _ _ H3); [rewrite He; exact Hh2 | exact Hf | exact Ha].
Qed.

(** *** Resolution without files *)

Lemma NewDefaultAgentConfig_Ok (env : Env) (u : URL) :
  url_Parse sys defaultEndpoint = inl u ->
  exists c0 env', value (NewDefaultAgentConfig sys env) = Ok (c0, env').
Proof.
  intros Hp. unfold NewDefaultAgentConfig. rewrite Hp.
  rewrite value_bind. cbv beta zeta. rewrite value_ret. eauto.
Qed.

Lemma finishConfig_succeeds (env : Env) (cfg : AgentConfig.t) :
  (forall level file console, NewLoggerLevel sys level file console = None) ->
  exists c, value (finishConfig sys env cfg) = inl c.
Proof.
  intros Hlog. unfold finishConfig. cbv zeta. rewrite Hlog.
  rewrite !value_bind, value_ret. eauto.
Qed.

(** X17.  With no file at all, resolution can only stop where the logger
    is set up: a host that parses the default endpoint and accepts every
    log setting gets a configuration for any environment, also one whose
    proxy, endpoint or port settings are malformed.  And where the default
    endpoint does not parse, resolution panics before it reads a source. *)
Theorem NewAgentConfig_without_files (env : Env) :
  (forall err, url_Parse sys defaultEndpoint = inr err ->
               forall agentIni agentYaml,
                 value (NewAgentConfig sys env agentIni agentYaml) = Panicked err)
  /\ (forall u, url_Parse sys defaultEndpoint = inl u ->
                (forall level file console, NewLoggerLevel sys level file console = None) ->
                exists cfg, value (NewAgentConfig sys env None None) = Ok cfg).
Proof.
  split.
  - intros err Hp agentIni agentYaml. rewrite NewAgentConfig_stages.
    unfold NewDefaultAgentConfig. rewrite Hp. reflexivity.
  - intros u Hp Hlog.
    destruct (NewDefaultAgentConfig_Ok env u Hp) as (c0 & env' & H0).
    rewrite NewAgentConfig_stages, H0.
    unfold legacyStage, structuredStage. rewrite !value_ret.
    destruct (finishConfig_succeeds
                env' (value (mergeEnvironmentVariables sys env' c0)) Hlog) as [cfg ->].
    eauto.
Qed.

(** *** Errors of the legacy file *)

(** X18.  An error of the legacy file is final.  When the file has a
    [Main] section, a missing [api_key] or an endpoint that does not parse
    makes [NewAgentConfig] fail, whatever the structured file and the
    environment hold: a key or an endpoint given there is not looked at. *)
Theorem NewAgentConfig_legacy_errors
        (env : Env) (agentIni : File) (section : IniSection)
        (agentYaml : option YamlAgentConfig.t) (u : URL) :
  url_Parse sys defaultEndpoint = inl u ->
  GetSection agentIni "Main" = Some section ->
  (forall err, Get agentIni "Main" "api_key" = inr err ->
               value (NewAgentConfig sys env (Some agentIni) agentYaml) = Failed err)
  /\ (forall a err, Get agentIni "Main" "api_key" = inl a ->
                    url_Parse sys (GetDefault agentIni ns "endpoint" defaultEndpoint)
                    = inr err ->
                    value (NewAgentConfig sys env (Some agentIni) agentYaml)
                    = Failed "invalid endpoint URL: %s").
Proof.
  intros Hp Hs.
  destruct (NewDefaultAgentConfig_Ok env u Hp) as (c0 & env' & H0).
  split.
  - intros err Hget. rewrite NewAgentConfig_stages, H0.
    unfold legacyStage. cbn [mbind option_bind]. rewrite Hs.
    unfold iniConfig. rewrite Hget. reflexivity.
  - intros a err Hget Hurl. rewrite NewAgentConfig_stages, H0.
    unfold legacyStage. cbn [mbind option_bind]. rewrite Hs.
    unfold iniConfig. rewrite Hget. cbv zeta.
    rewrite value_bind. cbv beta. rewrite Hurl. reflexivity.
Qed.

(** *** The blacklist without a structured file *)

Definition compiled_only (c : AgentConfig.t) : Prop :=
  exists pats, Blacklist c = Some <$> pats
               /\ forallb (regexp_Compile_ok sys) pats = true.

Lemma filter_forallb {A} (f : A -> bool) (l : list A) :
  forallb f (List.filter f l) = true.
Proof.
  induction l as [|x l IH]; [reflexivity|].
  simpl. destruct (f x) eqn:E; [simpl; rewrite E; exact IH | exact IH].
Qed.

Ltac blacklist_side :=
  unfold post, compiled_only, iniBlacklist, addWords, on_scrubber in *;
  cbv beta zeta;
  repeat case_match;
  repeat (rewrite ?value_bind; cbv beta);
  rewrite ?value_ret;
  fields;
  first [ assumption
        | eexists; split; [reflexivity | apply filter_forallb] ].

Lemma iniConfig_compiled_only (agentIni : File) (section : IniSection)
      (cfg c : AgentConfig.t) :
  compiled_only cfg ->
  value (iniConfig sys agentIni section cfg) = inl c -> compiled_only c.
Proof.
  intros H0. revert c.
  change (post (iniConfig sys agentIni section cfg)
               (fun r _ => forall c, r = inl c -> compiled_only c)).
  open iniConfig.
  walk compiled_only blacklist_side.
Qed.

(** X19.  Without a structured file the blacklist of a resolved
    configuration holds compiled patterns only, each of which the regular
    expression library accepted, so that [IsBlacklisted] answers on every
    command line: whether one of the patterns matches the joined line. *)
Theorem NewAgentConfig_legacy_blacklist
        (matches : string -> string -> bool)
        (env : Env) (agentIni : option File) (cfg : AgentConfig.t) :
  value (NewAgentConfig sys env agentIni None) = Ok cfg ->
  exists pats,
    forallb (regexp_Compile_ok sys) pats = true
    /\ forall cmdline,
        IsBlacklisted matches cmdline (Blacklist cfg)
        = Ok (existsb (fun b => matches b (Str.Join cmdline " ")) pats).
Proof.
  intros H. apply NewAgentConfig_Ok in H.
  destruct H as (c0 & env' & c1 & c2 & H0 & H1 & H2 & H3).
  apply NewDefaultAgentConfig_result in H0. destruct H0 as (_ & _ & Hb & _).
  assert (P0 : compiled_only c0) by (exists []; rewrite Hb; split; reflexivity).
  assert (P1 : compiled_only c1).
  { unfold legacyStage in H1. destruct agentIni as [f|]; cbn in H1.
    - destruct (GetSection f "Main").
      + exact (iniConfig_compiled_only _ _ _ _ P0 H1).
      + injection H1 as <-. exact P0.
    - injection H1 as <-. exact P0. }
  cbn [structuredStage] in H2. rewrite value_ret in H2. injection H2 as <-.
  destruct (mergeEnvironmentVariables_kept env' c1) as [_ He].
  assert (Hk : Blacklist cfg = Blacklist c1).
  { rewrite <- He. revert cfg H3.
    change (post (finishConfig sys env' (value (mergeEnvironmentVariables sys env' c1)))
                 (fun r _ => forall c, r = inl c ->
                    Blacklist c
                    = Blacklist (value (mergeEnvironmentVariables sys env' c1)))).
    generalize (value (mergeEnvironmentVariables sys env' c1)). intros cfg0.
    open finishConfig.
    walk (fun x => Blacklist x = Blacklist cfg0)
         ltac:(unfold post; cbv beta zeta; repeat case_match;
               repeat (rewrite ?value_bind; cbv beta); repeat case_match;
               rewrite ?value_ret; fields; auto). }
  destruct P1 as (pats & Hp & Hok). exists pats. split; [exact Hok|].
  intros cmdline. unfold IsBlacklisted. rewrite Hk, Hp.
  apply blacklist_loop_compiled.
Qed.

(** *** The host name command *)

(** X20.  [getHostname] runs the agent binary with the argument
    [hostname] when a binary is configured, and the Python interpreter with
    the one-line script otherwise, in the environment [ddAgentEnv] followed
    by the environment of the process.  When the command succeeds and
    prints something other than white space, the answer is its output
    without the white space around it, and nothing is logged; when it fails
    or prints white space only, the answer is whatever [os.Hostname]
    returns, value or error, after one message. *)
Theorem getHostname_fallback (env : Env) (ddAgentPy ddAgentBin : string)
        (ddAgentEnv : list string) (err : option error) (stdout stderr : string) :
  Run sys (if nonempty ddAgentBin then ddAgentBin else ddAgentPy)
      (if nonempty ddAgentBin then ["hostname"] else ["-c"; getHostnameCmd])
      (ddAgentEnv ++ Environ env)
  = (err, stdout, stderr) ->
  let r := getHostname sys env ddAgentPy ddAgentBin ddAgentEnv in
  (err = None -> Strings.TrimSpace stdout <> "" ->
   r = ret (inl (Strings.TrimSpace stdout)))
  /\ (err <> None \/ Strings.TrimSpace stdout = "" ->
      value r = Hostname sys /\ length (written r) = 1%nat).
Proof.
  intros Hrun. cbv zeta.
  assert (Hr : getHostname sys env ddAgentPy ddAgentBin ddAgentEnv
               = match err with
                 | Some _ =>
                     log Info "error retrieving dd-agent hostname, falling back to os.Hostname(): %v" ;;
                     ret (Hostname sys)
                 | None =>
                     if Str.is_empty (Strings.TrimSpace stdout) then
                       log Info "error retrieving dd-agent hostname, falling back to os.Hostname(): %s" ;;
                       ret (Hostname sys)
                     else ret (inl (Strings.TrimSpace stdout))
                 end).
  { unfold getHostname. destruct (nonempty ddAgentBin); rewrite Hrun; reflexivity. }
  rewrite Hr. split.
  - intros -> Hne.
    destruct (Strings.TrimSpace stdout); [congruence | reflexivity].
  - intros [Herr | Hempty].
    + destruct err; [|congruence].
      rewrite value_bind, written_bind. split; reflexivity.
    + destruct err; [rewrite value_bind, written_bind; split; reflexivity|].
      rewrite Hempty. cbn [Str.is_empty]. rewrite value_bind, written_bind.
      split; reflexivity.
Qed.

End ResolvedInvariants.

(** ** [isAffirmative] *)

Lemma lower_byte_idempotent (c : ascii) :
  Strings.lower_byte (Strings.lower_byte c) = Strings.lower_byte c.
Proof. destruct c as [[] [] [] [] [] [] [] []]; reflexivity. Qed.

Lemma lower_bytes_idempotent (s : string) :
  Strings.lower_bytes (Strings.lower_bytes s) = Strings.lower_bytes s.
Proof.
  induction s as [|c s IH]; [reflexivity|].
  simpl. rewrite lower_byte_idempotent, IH. reflexivity.
Qed.

Lemma lower_byte_ascii (c : ascii) :
  (Str.code (Strings.lower_byte c) <? 128)%N = (Str.code c <? 128)%N.
Proof. destruct c as [[] [] [] [] [] [] [] []]; reflexivity. Qed.

Lemma isASCII_lower_bytes (s : string) :
  Strings.isASCII (Strings.lower_bytes s) = Strings.isASCII s.
Proof.
  unfold Strings.isASCII. induction s as [|c s IH]; [reflexivity|].
  simpl. rewrite lower_byte_ascii. f_equal. exact IH.
Qed.

(** A byte outside ASCII, or one of the letters [i] and [k]: the only ASCII
    letters that a rune outside ASCII is lower-cased to (U+0130 and the
    Kelvin sign U+212A). *)
Definition marked (c : ascii) : bool :=
  ((128 <=? Str.code c) || (Str.code c =? 105) || (Str.code c =? 107))%N.

Lemma lower_byte_marked (c : ascii) :
  marked c = true -> marked (Strings.lower_byte c) = true.
Proof.
  destruct c as [[] [] [] [] [] [] [] []]; intros H; vm_compute in H |- *;
    first [reflexivity | discriminate H].
Qed.

Lemma lower_bytes_marked (s : string) :
  existsb marked (Str.bytes s) = true ->
  existsb marked (Str.bytes (Strings.lower_bytes s)) = true.
Proof.
  induction s as [|c s IH]; [auto|].
  simpl. rewrite !orb_true_iff. intros [H | H]; [left | right; auto].
  apply lower_byte_marked. exact H.
Qed.

Lemma land_ones_low (n : N) (k : N) : N.land n (N.ones k) = (n mod 2 ^ k)%N.
Proof. apply N.land_ones. Qed.

Lemma cont_bound (c : ascii) (lo hi x : N) :
  Utf8.cont c lo hi = Some x -> (128 <= lo)%N -> (hi <= 191)%N -> (lo <= 128 + x)%N.
Proof.
  unfold Utf8.cont. cbv zeta.
  destruct ((lo <=? Str.code c) && (Str.code c <=? hi))%N eqn:E; [|discriminate].
  intros [= <-] Hlo Hhi. apply andb_true_iff in E. destruct E as [Ea Eb].
  apply N.leb_le in Ea. apply N.leb_le in Eb.
  change 63%N with (N.ones 6). rewrite N.land_ones. change (2 ^ 6)%N with 64%N.
  pose proof (N.div_mod (Str.code c) 64 ltac:(lia)) as D6.
  pose proof (N.mod_lt (Str.code c) 64 ltac:(lia)) as M6.
  generalize dependent (Str.code c mod 64)%N. generalize dependent (Str.code c / 64)%N.
  intros q6 m6 D6 M6. lia.
Qed.

Lemma accept_bounds (b0 : N) :
  (128 <= fst (Utf8.accept b0))%N /\ (snd (Utf8.accept b0) <= 191)%N
  /\ (b0 = 224 -> fst (Utf8.accept b0) = 160)%N
  /\ (b0 = 240 -> fst (Utf8.accept b0) = 144)%N.
Proof.
  unfold Utf8.accept.
  destruct (b0 =? 224)%N eqn:E1; [apply N.eqb_eq in E1; subst; cbn; lia|].
  destruct (b0 =? 237)%N eqn:E2; [apply N.eqb_eq in E2; subst; cbn; lia|].
  destruct (b0 =? 240)%N eqn:E3; [apply N.eqb_eq in E3; subst; cbn; lia|].
  destruct (b0 =? 244)%N eqn:E4; [apply N.eqb_eq in E4; subst; cbn; lia|].
  apply N.eqb_neq in E1. apply N.eqb_neq in E3. cbn. lia.
Qed.

(** A rune read at a byte outside ASCII is outside ASCII. *)
Lemma DecodeRune_high (c0 : ascii) (rest : string) :
  (128 <= Str.code c0)%N -> (128 <= fst (Utf8.DecodeRune c0 rest))%N.
Proof.
  intros H. unfold Utf8.DecodeRune. cbv zeta.
  generalize dependent (Str.code c0). intros b0 H.
  assert (Hbad : (128 <= fst (Utf8.RuneError, 1%nat))%N) by (cbn; unfold Utf8.RuneError; lia).
  destruct (b0 <? 128)%N eqn:E0; [apply N.ltb_lt in E0; lia|].
  destruct ((b0 <? 194) || (244 <? b0))%N eqn:E1; [exact Hbad|].
  apply orb_false_iff in E1. destruct E1 as [E1 E2].
  apply N.ltb_ge in E1. apply N.ltb_ge in E2.
  pose proof (accept_bounds b0) as (A1 & A2 & A3 & A4).
  destruct (Utf8.accept b0) as [lo hi]. cbn [fst snd] in A1, A2, A3, A4.
  destruct rest as [|c1 r1]; [exact Hbad|].
  destruct (Utf8.cont c1 lo hi) as [x1|] eqn:C1; [|exact Hbad].
  apply cont_bound in C1; [|exact A1|exact A2].
  destruct (b0 <? 224)%N eqn:E3.
  { apply N.ltb_lt in E3. cbn [fst].
    change 31%N with (N.ones 5). rewrite N.land_ones. change (2 ^ 5)%N with 32%N.
    pose proof (N.div_mod b0 32 ltac:(lia)) as D5.
    pose proof (N.mod_lt b0 32 ltac:(lia)) as M5.
    generalize dependent (b0 mod 32)%N. generalize dependent (b0 / 32)%N.
    intros q5 m5 D5 M5. lia. }
  apply N.ltb_ge in E3.
  destruct r1 as [|c2 r2]; [exact Hbad|].
  destruct (Utf8.cont c2 128 191) as [x2|] eqn:C2; [|exact Hbad].
  destruct (b0 <? 240)%N eqn:E4.
  { apply N.ltb_lt in E4. cbn [fst].
    change 15%N with (N.ones 4). rewrite N.land_ones. change (2 ^ 4)%N with 16%N.
    pose proof (N.div_mod b0 16 ltac:(lia)) as D4.
    pose proof (N.mod_lt b0 16 ltac:(lia)) as M4.
    generalize dependent (b0 mod 16)%N. generalize dependent (b0 / 16)%N.
    intros q4 m4 D4 M4.
    assert (Hx : (b0 = 224 /\ 32 <= x1 \/ 1 <= m4)%N) by lia.
    nia. }
  apply N.ltb_ge in E4.
  destruct r2 as [|c3 r3]; [exact Hbad|].
  destruct (Utf8.cont c3 128 191) as [x3|] eqn:C3; [|exact Hbad].
  cbn [fst].
  change 7%N with (N.ones 3). rewrite N.land_ones. change (2 ^ 3)%N with 8%N.
  pose proof (N.div_mod b0 8 ltac:(lia)) as D3.
  pose proof (N.mod_lt b0 8 ltac:(lia)) as M3.
  generalize dependent (b0 mod 8)%N. generalize dependent (b0 / 8)%N.
  intros q3 m3 D3 M3.
  assert (Hx : (b0 = 240 /\ 16 <= x1 \/ 1 <= m3)%N) by lia.
  nia.
Qed.

Lemma tokens_high (s : string) :
  Strings.isASCII s = false ->
  exists t, In t (Utf8.tokens s) /\ (128 <= Utf8.tok_rune t)%N.
Proof.
  unfold Strings.isASCII, Utf8.tokens. induction s as [|c rest IH]; [discriminate|].
  cbn [Str.bytes list_ascii_of_string forallb Utf8.tokens_from].
  destruct (Str.code c <? 128)%N eqn:E.
  - cbn [andb]. intros H. destruct (IH H) as (t & Ht & Hr).
    unfold Utf8.DecodeRune. cbv zeta. rewrite E.
    exists t. split; [right; exact Ht | exact Hr].
  - intros _. apply N.ltb_ge in E.
    pose proof (DecodeRune_high c rest E) as Hd.
    destruct (Utf8.DecodeRune c rest) as [r w]. cbn [fst] in Hd.
    eexists. split; [left; reflexivity | exact Hd].
Qed.

Lemma code_byte_of (n : N) : (n < 256)%N -> Str.code (Utf8.byte_of n) = n.
Proof. intros H. unfold Str.code, Utf8.byte_of. apply N_ascii_embedding. exact H. Qed.

(** The encoding of a rune outside ASCII starts with a byte outside ASCII. *)
Lemma EncodeRune_high (r : Utf8.rune) :
  (128 <= r)%N -> existsb marked (Str.bytes (Utf8.EncodeRune r)) = true.
Proof.
  intros H. unfold Utf8.EncodeRune. cbv zeta.
  set (r' := if ((55296 <=? r) && (r <=? 57343) || (1114111 <? r))%N
             then Utf8.RuneError else r).
  assert (Hr : (128 <= r' <= 1114111)%N).
  { unfold r', Utf8.RuneError.
    destruct ((55296 <=? r) && (r <=? 57343) || (1114111 <? r))%N eqn:E; [lia|].
    apply orb_false_iff in E. destruct E as [_ E]. apply N.ltb_ge in E. lia. }
  clearbody r'. clear H.
  assert (Hm : forall n, (128 <= n < 256)%N -> marked (Utf8.byte_of n) = true).
  { intros n Hn. unfold marked. rewrite code_byte_of by lia.
    apply orb_true_iff. left. apply orb_true_iff. left. apply N.leb_le. lia. }
  destruct (r' <? 128)%N eqn:E0; [apply N.ltb_lt in E0; lia|].
  destruct (r' <? 2048)%N eqn:E1.
  { apply N.ltb_lt in E1. cbn [Str.bytes list_ascii_of_string existsb].
    rewrite Hm; [reflexivity|].
    assert (Hd : (r' / 64 < 32)%N) by (apply N.Div0.div_lt_upper_bound; lia).
    revert Hd. generalize (r' / 64)%N. intros q Hd. lia. }
  destruct (r' <? 65536)%N eqn:E2.
  { apply N.ltb_lt in E2. cbn [Str.bytes list_ascii_of_string existsb].
    rewrite Hm; [reflexivity|].
    assert (Hd : (r' / 4096 < 16)%N) by (apply N.Div0.div_lt_upper_bound; lia).
    revert Hd. generalize (r' / 4096)%N. intros q Hd. lia. }
  cbn [Str.bytes list_ascii_of_string existsb].
  rewrite Hm; [reflexivity|].
  assert (Hd : (r' / 262144 < 5)%N) by (apply N.Div0.div_lt_upper_bound; lia).
    revert Hd. generalize (r' / 262144)%N. intros q Hd. lia.
Qed.

Definition lower_entry_ok (e : N * N * N * N) : bool :=
  let '(lo, hi, _, lower) := e in
  ((128 <=? lower) || ((lo =? hi) && ((lower =? 105) || (lower =? 107))))%N.

(** Outside ASCII, [unicode.ToLower] stays outside ASCII, but for the two
    runes that it maps to [i] and to [k]. *)
Lemma ToLower_rune_high (r : Utf8.rune) :
  (128 <= r)%N ->
  (128 <= Unicode.ToLower r)%N \/ Unicode.ToLower r = 105%N \/ Unicode.ToLower r = 107%N.
Proof.
  intros H. unfold Unicode.ToLower.
  destruct (r <? 128)%N eqn:E; [apply N.ltb_lt in E; lia|].
  destruct (find (Unicode.in_range r) Unicode.lowerRanges) as [[[[lo hi] stride] lower]|] eqn:F;
    [|left; exact H].
  apply find_some in F. destruct F as [Hin Hr].
  assert (Hok : forallb lower_entry_ok Unicode.lowerRanges = true) by (vm_compute; reflexivity).
  rewrite forallb_forall in Hok. specialize (Hok _ Hin).
  unfold lower_entry_ok in Hok. unfold Unicode.in_range in Hr.
  apply andb_true_iff in Hr. destruct Hr as [Hr _].
  apply andb_true_iff in Hr. destruct Hr as [H1 H2].
  apply N.leb_le in H1. apply N.leb_le in H2.
  apply orb_true_iff in Hok. destruct Hok as [Hok | Hok].
  - apply N.leb_le in Hok. left. lia.
  - apply andb_true_iff in Hok. destruct Hok as [He Hv].
    apply N.eqb_eq in He. apply orb_true_iff in Hv.
    replace (r - lo)%N with 0%N by lia. rewrite N.add_0_r.
    destruct Hv as [Hv | Hv]; apply N.eqb_eq in Hv; auto.
Qed.

Lemma Map_bytes (f : Utf8.rune -> Utf8.rune) (c : ascii) (ts : list Utf8.token) :
  In c (Str.bytes (fold_right (fun t acc => Utf8.EncodeRune (f (Utf8.tok_rune t)) +:+ acc)
                              "" ts)) <->
  exists t, In t ts /\ In c (Str.bytes (Utf8.EncodeRune (f (Utf8.tok_rune t)))).
Proof.
  induction ts as [|t ts IH].
  - simpl. split; [intros [] | intros (t & [] & _)].
  - cbn [fold_right]. rewrite bytes_append, in_app_iff, IH. split.
    + intros [H | (t' & H1 & H2)]; [exists t | exists t']; simpl; auto.
    + intros (t' & [<- | H1] & H2); [left; exact H2 | right; eauto].
Qed.

Lemma Map_marked (s : string) :
  Strings.isASCII s = false ->
  existsb marked (Str.bytes (Strings.Map Unicode.ToLower s)) = true.
Proof.
  intros H. destruct (tokens_high s H) as (t & Ht & Hr).
  assert (Hb : existsb marked (Str.bytes (Utf8.EncodeRune (Unicode.ToLower (Utf8.tok_rune t))))
               = true).
  { destruct (ToLower_rune_high _ Hr) as [Hh | [-> | ->]];
      [apply EncodeRune_high; exact Hh | reflexivity | reflexivity]. }
  apply existsb_exists in Hb. destruct Hb as (c & Hc & Hm).
  apply existsb_exists. exists c. split; [|exact Hm].
  unfold Strings.Map. apply Map_bytes. exists t. auto.
Qed.

Lemma isASCII_marked (s : string) :
  Strings.isASCII s = false -> existsb marked (Str.bytes s) = true.
Proof.
  unfold Strings.isASCII. induction s as [|c s IH]; [discriminate|].
  simpl. destruct (Str.code c <? 128)%N eqn:E; simpl.
  - intros H. rewrite (IH H). apply orb_true_r.
  - intros _. apply N.ltb_ge in E. unfold marked.
    replace (128 <=? Str.code c)%N with true by (symmetry; apply N.leb_le; exact E).
    reflexivity.
Qed.

Lemma ToLower_marked (s : string) :
  existsb marked (Str.bytes s) = true ->
  existsb marked (Str.bytes (Strings.ToLower s)) = true.
Proof.
  intros H. unfold Strings.ToLower. destruct (Strings.isASCII s) eqn:E.
  - apply lower_bytes_marked. exact H.
  - apply Map_marked. exact E.
Qed.

(** A string with a marked byte is none of the three words. *)
Lemma marked_not_affirmative (v : string) :
  existsb marked (Str.bytes v) = true ->
  (String.eqb v "true" || String.eqb v "yes" || String.eqb v "1") = false.
Proof.
  intros H.
  destruct (String.eqb v "true") eqn:E1;
    [apply String.eqb_eq in E1; subst; vm_compute in H; discriminate H|].
  destruct (String.eqb v "yes") eqn:E2;
    [apply String.eqb_eq in E2; subst; vm_compute in H; discriminate H|].
  destruct (String.eqb v "1") eqn:E3;
    [apply String.eqb_eq in E3; subst; vm_compute in H; discriminate H|].
  reflexivity.
Qed.

Lemma marked_nonempty (v : string) :
  existsb marked (Str.bytes v) = true -> Str.is_empty v = false.
Proof. destruct v; [discriminate | reflexivity]. Qed.

(** X21.  [isAffirmative] does not look at the case of the letters; it
    returns an error for the empty string and for no other value; and what
    it affirms are the three words [true], [yes] and [1]. *)
Theorem isAffirmative_case (s : string) :
  isAffirmative (Strings.ToLower s) = isAffirmative s
  /\ (is_nil (snd (isAffirmative s)) = false <-> s = "")
  /\ (fst (isAffirmative s) = true <->
      In (Strings.ToLower s) ["true"; "yes"; "1"]).
Proof.
  unfold isAffirmative. split; [|split].
  - destruct s as [|c s]; [reflexivity|].
    cbn [Str.is_empty]. cbv zeta.
    destruct (Strings.isASCII (String c s)) eqn:E.
    + assert (Hl : Strings.ToLower (String c s) = Strings.lower_bytes (String c s))
        by (unfold Strings.ToLower; rewrite E; reflexivity).
      assert (Hi : Strings.ToLower (Strings.lower_bytes (String c s))
                   = Strings.lower_bytes (String c s)).
      { unfold Strings.ToLower. rewrite isASCII_lower_bytes, E.
        apply lower_bytes_idempotent. }
      rewrite Hl, Hi. reflexivity.
    + pose proof (Map_marked _ E) as Hm.
      assert (Hl : Strings.ToLower (String c s) = Strings.Map Unicode.ToLower (String c s))
        by (unfold Strings.ToLower; rewrite E; reflexivity).
      rewrite Hl, (marked_nonempty _ Hm), (marked_not_affirmative _ Hm),
        (marked_not_affirmative _ (ToLower_marked _ Hm)).
      reflexivity.
  - destruct s as [|c s]; cbn; split; intros H; try reflexivity; discriminate H.
  - destruct s as [|c s].
    + cbn. split; [discriminate | intros [H | [H | [H | []]]]; discriminate H].
    + cbn [Str.is_empty fst]. cbv zeta.
      generalize (Strings.ToLower (String c s)). intros v.
      rewrite !orb_true_iff, !String.eqb_eq. cbn [In].
      intuition congruence.
Qed.

(** ** The invariants on concrete sources *)

Definition ini_custom_words : File :=
  {[ "Main" := {[ "api_key" := "apikey_12" ]};
     "process.config" := {[ "custom_sensitive_words" := "consul_token";
                            "blacklist" := "getty,[" ]} ]}.

Definition env_custom_word : Env := {[ "DD_CUSTOM_SENSITIVE_WORDS" := "dd_key" ]}.

Definition resolved_custom_words : AgentConfig.t :=
  match value (NewAgentConfig strict_sys env_custom_word (Some ini_custom_words) None) with
  | Ok c => c
  | _ => blank_config
  end.

Lemma NewAgentConfig_keeps_default_patterns_witness :
  value (NewAgentConfig strict_sys env_custom_word (Some ini_custom_words) None)
  = Ok resolved_custom_words
  /\ exists custom,
      SensitivePatterns (AgentConfig.Scrubber resolved_custom_words)
      = omap matcher_of defaultSensitiveWords ++ custom.
Proof.
  assert (H : value (NewAgentConfig strict_sys env_custom_word (Some ini_custom_words) None)
              = Ok resolved_custom_words) by (vm_compute; reflexivity).
  exact (conj H (NewAgentConfig_keeps_default_patterns
                   strict_sys env_custom_word (Some ini_custom_words) None
                   resolved_custom_words H)).
Defined.

Lemma NewAgentConfig_check_intervals_witness :
  value (NewAgentConfig Host.sys ∅ (Some ini_python_style) None)
  = Ok resolved_python_style
  /\ In "rtprocess" defaultChecks
  /\ AgentConfig.CheckIntervals resolved_python_style !! "rtprocess"
     = Some (value (CheckInterval resolved_python_style "rtprocess"))
  /\ written (CheckInterval resolved_python_style "rtprocess") = [].
Proof.
  assert (H : value (NewAgentConfig Host.sys ∅ (Some ini_python_style) None)
              = Ok resolved_python_style) by (vm_compute; reflexivity).
  assert (Hin : In "rtprocess" defaultChecks) by (right; left; reflexivity).
  exact (conj H (conj Hin (NewAgentConfig_check_intervals
                             Host.sys ∅ (Some ini_python_style) None
                             resolved_python_style "rtprocess" H Hin))).
Defined.

(** A Fargate instance whose task metadata can be read. *)
Definition fargate_sys : Sys :=
  mkSys (url_Parse Host.sys) (Userinfo_String Host.sys)
        (regexp_Compile_ok Host.sys)
        (GetContainers_ok Host.sys) (containerized_with_host Host.sys)
        (defaultLogFilePath Host.sys) (defaultDDAgentPy Host.sys)
        (defaultDDAgentPyEnv Host.sys) (defaultDDAgentBin Host.sys)
        (Datadog_GetString Host.sys) (Datadog_GetInt Host.sys)
        (CreateHTTPTransport Host.sys) (NewLoggerLevel Host.sys)
        true (inl "arn:aws:ecs:task/12")
        (Run Host.sys) (Hostname Host.sys).

Definition env_hostname : Env := {[ "DD_HOSTNAME" := "web-1" ]}.

Definition resolved_on_fargate (env : Env) : AgentConfig.t :=
  match value (NewAgentConfig fargate_sys env None None) with
  | Ok c => c
  | _ => blank_config
  end.

Lemma NewAgentConfig_HostName_witness :
  (value (NewAgentConfig fargate_sys env_hostname None None)
   = Ok (resolved_on_fargate env_hostname)
   /\ nonempty (Getenv env_hostname "DD_HOSTNAME") = true
   /\ AgentConfig.HostName (resolved_on_fargate env_hostname) = "web-1")
  /\ (value (NewAgentConfig fargate_sys ∅ None None) = Ok (resolved_on_fargate ∅)
      /\ Getenv ∅ "DD_HOSTNAME" = ""
      /\ AgentConfig.HostName (resolved_on_fargate ∅) = "fargate_task:arn:aws:ecs:task/12").
Proof.
  assert (H1 : value (NewAgentConfig fargate_sys env_hostname None None)
               = Ok (resolved_on_fargate env_hostname)) by (vm_compute; reflexivity).
  assert (H2 : value (NewAgentConfig fargate_sys ∅ None None)
               = Ok (resolved_on_fargate ∅)) by (vm_compute; reflexivity).
  assert (E1 : nonempty (Getenv env_hostname "DD_HOSTNAME") = true)
    by (vm_compute; reflexivity).
  assert (E2 : Getenv ∅ "DD_HOSTNAME" = "") by (vm_compute; reflexivity).
  pose proof (proj1 (NewAgentConfig_HostName fargate_sys env_hostname None None
                                             (resolved_on_fargate env_hostname) H1) E1)
    as R1.
  pose proof (proj2 (NewAgentConfig_HostName fargate_sys ∅ None None
                                             (resolved_on_fargate ∅) H2)
                    E2 eq_refl "arn:aws:ecs:task/12" eq_refl) as R2.
  exact (conj (conj H1 (conj E1 R1)) (conj H2 (conj E2 R2))).
Defined.

Definition default_endpoint_url : URL :=
  mkURL "https" "" None "process.datadoghq.com" "" "" "".

Lemma NewAgentConfig_without_files_witness :
  url_Parse Host.sys defaultEndpoint = inl default_endpoint_url
  /\ exists cfg, value (NewAgentConfig Host.sys env_bad_proxy None None) = Ok cfg.
Proof.
  assert (Hp : url_Parse Host.sys defaultEndpoint = inl default_endpoint_url)
    by (vm_compute; reflexivity).
  exact (conj Hp (proj2 (NewAgentConfig_without_files Host.sys env_bad_proxy)
                        default_endpoint_url Hp (fun _ _ _ => eq_refl))).
Defined.

(** A legacy file without an API key, and an environment that has one. *)
Definition ini_without_key : File := {[ "Main" := {[ "log_level" := "debug" ]} ]}.

Definition env_with_key : Env := {[ "DD_API_KEY" := "apikey_from_env" ]}.

Lemma NewAgentConfig_legacy_errors_witness :
  url_Parse Host.sys defaultEndpoint = inl default_endpoint_url
  /\ GetSection ini_without_key "Main" = Some {[ "log_level" := "debug" ]}
  /\ Get ini_without_key "Main" "api_key" = inr "missing value"
  /\ value (NewAgentConfig Host.sys env_with_key (Some ini_without_key) None)
     = Failed "missing value".
Proof.
  assert (Hp : url_Parse Host.sys defaultEndpoint = inl default_endpoint_url)
    by (vm_compute; reflexivity).
  assert (Hs : GetSection ini_without_key "Main" = Some {[ "log_level" := "debug" ]})
    by (vm_compute; reflexivity).
  assert (Hg : Get ini_without_key "Main" "api_key" = inr "missing value")
    by (vm_compute; reflexivity).
  exact (conj Hp (conj Hs (conj Hg
           (proj1 (NewAgentConfig_legacy_errors Host.sys env_with_key ini_without_key
                                                {[ "log_level" := "debug" ]} None
                                                default_endpoint_url Hp Hs)
                  "missing value" Hg)))).
Defined.

Lemma NewAgentConfig_legacy_blacklist_witness :
  value (NewAgentConfig strict_sys env_custom_word (Some ini_custom_words) None)
  = Ok resolved_custom_words
  /\ AgentConfig.Blacklist resolved_custom_words = [Some "getty"]
  /\ exists pats,
      forallb (regexp_Compile_ok strict_sys) pats = true
      /\ forall cmdline,
          IsBlacklisted prefix_matches cmdline (AgentConfig.Blacklist resolved_custom_words)
          = Ok (existsb (fun b => prefix_matches b (Str.Join cmdline " ")) pats).
Proof.
  assert (H : value (NewAgentConfig strict_sys env_custom_word (Some ini_custom_words) None)
              = Ok resolved_custom_words) by (vm_compute; reflexivity).
  assert (Hb : AgentConfig.Blacklist resolved_custom_words = [Some "getty"])
    by (vm_compute; reflexivity).
  exact (conj H (conj Hb (NewAgentConfig_legacy_blacklist
                            strict_sys prefix_matches env_custom_word
                            (Some ini_custom_words) resolved_custom_words H))).
Defined.

(** A host whose agent prints its name between no-break spaces, with a
    line feed at the end. *)
Definition padded_name : string :=
  no_break_space +:+ "web-1" +:+ no_break_space +:+ String (ascii_of_nat 10) "".

Definition padded_sys : Sys :=
  mkSys (url_Parse Host.sys) (Userinfo_String Host.sys)
        (regexp_Compile_ok Host.sys)
        (GetContainers_ok Host.sys) (containerized_with_host Host.sys)
        (defaultLogFilePath Host.sys) (defaultDDAgentPy Host.sys)
        (defaultDDAgentPyEnv Host.sys) (defaultDDAgentBin Host.sys)
        (Datadog_GetString Host.sys) (Datadog_GetInt Host.sys)
        (CreateHTTPTransport Host.sys) (NewLoggerLevel Host.sys)
        (IsFargateInstance Host.sys) (GetTaskMetadata Host.sys)
        (fun _ _ _ => (None, padded_name, "")) (Hostname Host.sys).

Lemma getHostname_fallback_witness :
  Strings.TrimSpace padded_name = "web-1"
  /\ getHostname padded_sys ∅ "/usr/bin/python" "/opt/datadog-agent/bin/agent" []
     = ret (inl "web-1").
Proof.
  assert (Ht : Strings.TrimSpace padded_name = "web-1") by (vm_compute; reflexivity).
  split; [exact Ht|].
  rewrite <- Ht.
  apply (proj1 (getHostname_fallback padded_sys ∅ "/usr/bin/python"
                                     "/opt/datadog-agent/bin/agent" []
                                     None padded_name "" eq_refl));
    [reflexivity | rewrite Ht; discriminate].
Defined.

(** ** The limit on items per message *)

Section MessageLimit.

Variable sys : Sys.

Import AgentConfig.

Lemma mergeYamlConfig_MaxPerMessage_value (agentConf : AgentConfig.t)
      (yc : YamlAgentConfig.t) (c : AgentConfig.t) :
  value (mergeYamlConfig sys agentConf yc) = inl c ->
  MaxPerMessage c
  = if ((0 <? YamlAgentConfig.Process_MaxPerMessage yc)
        && (YamlAgentConfig.Process_MaxPerMessage yc <=? maxMessageBatch))%Z
    then YamlAgentConfig.Process_MaxPerMessage yc
    else MaxPerMessage agentConf.
Proof.
  set (v := if ((0 <? YamlAgentConfig.Process_MaxPerMessage yc)
                && (YamlAgentConfig.Process_MaxPerMessage yc <=? maxMessageBatch))%Z
            then YamlAgentConfig.Process_MaxPerMessage yc
            else MaxPerMessage agentConf).
  revert c.
  change (post (mergeYamlConfig sys agentConf yc)
               (fun r _ => forall c, r = inl c -> MaxPerMessage c = v)).
  open mergeYamlConfig.
  do 2 statement (fun x => MaxPerMessage x = MaxPerMessage agentConf).
  lazymatch goal with
  | |- post (let x := ?e in @?k x) ?Q =>
      refine (post_let e k
                (fun r => forall c, r = inl c -> MaxPerMessage c = MaxPerMessage agentConf)
                Q _ _)
  end.
  { repeat case_match; intros c' [= <-]; fields; assumption. }
  intros [c1 | err] Hend; cbv beta; [|apply post_ret; intros c' [=]].
  specialize (Hend c1 eq_refl).
  do 6 statement (fun x => MaxPerMessage x = MaxPerMessage agentConf).
  pass.
  do 6 statement (fun x => MaxPerMessage x = MaxPerMessage agentConf).
  statement_by (fun x => MaxPerMessage x = v)
               ltac:(unfold post, v; repeat case_match;
                     rewrite ?value_bind, ?value_ret; fields;
                     simpl andb in *; auto; try discriminate).
  walk (fun x => MaxPerMessage x = v) side.
Qed.

(** X22.  The limit on items per message of a resolved configuration is
    never above 100.  A structured file that gives a limit from 1 to 100
    decides it, whatever the legacy file says; and with no file at all the
    limit is the default 100. *)
Theorem NewAgentConfig_MaxPerMessage
        (env : Env) (agentIni : option File) (agentYaml : option YamlAgentConfig.t)
        (cfg : AgentConfig.t) :
  value (NewAgentConfig sys env agentIni agentYaml) = Ok cfg ->
  (MaxPerMessage cfg <= 100)%Z
  /\ (forall yc, agentYaml = Some yc ->
                 (0 < YamlAgentConfig.Process_MaxPerMessage yc <= 100)%Z ->
                 MaxPerMessage cfg = YamlAgentConfig.Process_MaxPerMessage yc)
  /\ (agentIni = None -> agentYaml = None -> MaxPerMessage cfg = 100%Z).
Proof.
  intros H. pose proof (NewAgentConfig_Ok sys _ _ _ _ H) as Hs.
  destruct Hs as (c0 & env' & c1 & c2 & H0 & H1 & H2 & H3).
  apply finishConfig_MaxPerMessage in H3.
  rewrite mergeEnvironmentVariables_MaxPerMessage in H3.
  split; [|split].
  - apply NewDefaultAgentConfig_MaxPerMessage in H0.
    assert (B1 : below_ceiling c1).
    { unfold legacyStage in H1. destruct agentIni as [f|]; cbn in H1.
      - destruct (GetSection f "Main").
        + exact (iniConfig_MaxPerMessage sys _ _ _ _ H1).
        + injection H1 as <-. unfold below_ceiling, maxMessageBatch. lia.
      - injection H1 as <-. unfold below_ceiling, maxMessageBatch. lia. }
    assert (B2 : below_ceiling c2).
    { unfold structuredStage in H2. destruct agentYaml as [yc|].
      - exact (mergeYamlConfig_MaxPerMessage sys _ _ _ B1 H2).
      - injection H2 as <-. exact B1. }
    rewrite H3. exact B2.
  - intros yc -> [Hlo Hhi]. cbn [structuredStage] in H2.
    apply mergeYamlConfig_MaxPerMessage_value in H2.
    rewrite H3, H2. unfold maxMessageBatch.
    apply Z.ltb_lt in Hlo. apply Z.leb_le in Hhi. rewrite Hlo, Hhi. reflexivity.
  - intros -> ->. cbn [legacyStage structuredStage] in H1, H2.
    rewrite value_ret in H1, H2. injection H1 as <-. injection H2 as <-.
    rewrite H3. exact (NewDefaultAgentConfig_MaxPerMessage sys _ _ _ H0).
Qed.

End MessageLimit.

(** A legacy limit of 50 and a structured limit of 80. *)
Definition yaml_limit_80 : YamlAgentConfig.t :=
  YamlAgentConfig.Make "apikey_20" false "" "" 0 0 0 0 [] None [] false 0 0 80 ""
                       [] "" 0 None.

Definition resolved_limit_80 : AgentConfig.t :=
  match value (NewAgentConfig Host.sys ∅ (Some (ini_with_limit "50")) (Some yaml_limit_80)) with
  | Ok c => c
  | _ => blank_config
  end.

Lemma NewAgentConfig_MaxPerMessage_witness :
  value (NewAgentConfig Host.sys ∅ (Some (ini_with_limit "50")) (Some yaml_limit_80))
  = Ok resolved_limit_80
  /\ (0 < YamlAgentConfig.Process_MaxPerMessage yaml_limit_80 <= 100)%Z
  /\ AgentConfig.MaxPerMessage resolved_limit_80 = 80%Z.
Proof.
  assert (H : value (NewAgentConfig Host.sys ∅ (Some (ini_with_limit "50"))
                                    (Some yaml_limit_80))
              = Ok resolved_limit_80) by (vm_compute; reflexivity).
  assert (Hr : (0 < YamlAgentConfig.Process_MaxPerMessage yaml_limit_80 <= 100)%Z)
    by (vm_compute; split; [reflexivity | discriminate]).
  destruct (NewAgentConfig_MaxPerMessage Host.sys ∅ (Some (ini_with_limit "50"))
                                         (Some yaml_limit_80) resolved_limit_80 H)
    as (_ & Hy & _).
  exact (conj H (conj Hr (Hy yaml_limit_80 eq_refl Hr))).
Defined.
